(** * NMR2Struct: training loop, checkpoint retention, prediction
    serialisation and the substructure loss.

    A shallow embedding of
      - [src/nmr/training/trainer.py]      (module [Trainer]),
      - [src/nmr/scripts/top_level_utils.py] (module [TopLevelUtils]),
      - [src/nmr/training/loss_fxns.py]     (module [LossFxns]),
      - [src/nmr/analysis/postprocessing.py] (module [Postprocessing]),
    followed by the properties established about them.

    Python floats are IEEE binary64 values and are represented by Rocq's
    primitive floats; Python integers are [Z], and the number of checkpoint
    slots, which sizes an array, is a [nat]; Python lists are [list],
    indexed and updated with stdpp's [!!] and [<[_:=_]>]; dictionaries and
    directory contents are [gmap]s keyed by strings.  A Python exception is
    the [Raise] branch of [result].  The elements of torch tensors are kept
    abstract ([Scalar]): the loss only combines them with torch's own
    arithmetic; the sizes of a tensor are data of the tensor, and sums run
    over the elements in index order. *)

From Stdlib Require Import ZArith PrimFloat SpecFloat FloatOps FloatAxioms Uint63 QArith Qcanon.
From stdpp Require Import base option list list_numbers strings gmap pretty.

Local Open Scope Z_scope.
Set Warnings "-inexact-float".

(** ** Python exceptions and fallible results *)

Inductive exn : Type :=
  | ZeroDivisionError
  | UnboundLocalError (var : string)
  | ValueError
  | TypeError
  | IndexError
  | AttributeError (attr : string)
  | AssertionError
  | RuntimeError
  | FileNotFoundError (path : string).

Inductive result (A : Type) : Type :=
  | Ok (a : A)
  | Raise (e : exn).
Arguments Ok {A} a.
Arguments Raise {A} e.

Definition is_ok {A} (r : result A) : bool :=
  match r with Ok _ => true | Raise _ => false end.

(** Sequencing of fallible steps, [x ← r; k]: the first exception ends the
    computation. *)
#[export] Instance result_bind : MBind result := λ A B k r,
  match r with Ok a => k a | Raise e => Raise e end.

(** ** Python float helpers *)

Module PyFloat.

Definition inf : float := infinity.

(** [float(n)] for the length of a list. *)
Definition of_len (n : nat) : float := of_uint63 (Uint63.of_Z (Z.of_nat n)).

(** Round a non-negative fraction [num/den] to the nearest integer, ties to
    the even one: the rounding of Python's float formatting. *)
Definition round_half_even (num den : Z) : Z :=
  let q := num / den in
  let r := num mod den in
  match 2 * r ?= den with
  | Lt => q
  | Gt => q + 1
  | Eq => if Z.even q then q else q + 1
  end.

(** The integer nearest to [m * 2^e * 10^prec]. *)
Definition scaled (prec : nat) (m : positive) (e : Z) : Z :=
  if 0 <=? e then Z.pos m * 2 ^ e * 10 ^ Z.of_nat prec
  else round_half_even (Z.pos m * 10 ^ Z.of_nat prec) (2 ^ (- e)).

Fixpoint zeros (n : nat) : string :=
  match n with O => "" | S n' => "0" +:+ zeros n' end.

Definition zero_pad (width : nat) (s : string) : string :=
  zeros (width - String.length s) +:+ s.

(** The digits of [n / 10^prec] with [prec] decimals. *)
Definition fixed_digits (prec : nat) (n : Z) : string :=
  let p := 10 ^ Z.of_nat prec in
  pretty (n / p) +:+
  match prec with
  | O => ""
  | S _ => "." +:+ zero_pad prec (pretty (n mod p))
  end.

Definition sign_str (s : bool) : string := if s then "-" else "".

(** [format(x, '.<prec>f')], as in the f-string [f'{x:.8f}']. *)
Definition format_f (prec : nat) (x : float) : string :=
  match Prim2SF x with
  | S754_nan => "nan"
  | S754_infinity s => sign_str s +:+ "inf"
  | S754_zero s => sign_str s +:+ fixed_digits prec 0
  | S754_finite s m e => sign_str s +:+ fixed_digits prec (scaled prec m e)
  end.

(** The place of a float in the order of the comparisons [<] and [<=]:
    infinities at the ends, zeros of either sign in the middle, finite
    values by sign, exponent and mantissa.  For reasoning only. *)
Definition sf_key (x : spec_float) : Z * Z * Z :=
  match x with
  | S754_nan => (0, 0, 0)
  | S754_infinity s => (if s then -2 else 2, 0, 0)
  | S754_zero _ => (0, 0, 0)
  | S754_finite s m e => if s then (-1, - e, - Z.pos m) else (1, e, Z.pos m)
  end.

Definition key_lt (a b : Z * Z * Z) : Prop :=
  a.1.1 < b.1.1 ∨ (a.1.1 = b.1.1 ∧ (a.1.2 < b.1.2 ∨ (a.1.2 = b.1.2 ∧ a.2 < b.2))).

Definition key_of (x : float) : Z * Z * Z := sf_key (Prim2SF x).

Definition not_nan (x : float) : Prop := Prim2SF x ≠ S754_nan.

End PyFloat.

(** ** numpy helpers *)

Module Np.

(** The scan of [np.argmax] over a float array: the running maximum [mp]
    at index [mi] is replaced by a later element [x] at index [i] when
    [not (x <= mp)]; a NaN, once met, ends the scan. *)
Fixpoint argmax_scan (mp : float) (mi i : nat) (l : list float) : nat :=
  match l with
  | [] => mi
  | x :: l' =>
      if is_nan mp then mi
      else if negb (PrimFloat.leb x mp) then argmax_scan x i (S i) l'
      else argmax_scan mp mi (S i) l'
  end.

(** [np.argmax(a)]: the first index of the maximum; an empty array is a
    [ValueError]. *)
Definition argmax (a : list float) : result nat :=
  match a with
  | [] => Raise ValueError
  | x :: l => Ok (argmax_scan x 0%nat 1%nat l)
  end.

End Np.

(** ** The error/state monad of the embedding

    A computation takes the world it runs in and gives back either a value or
    the exception it raised, together with the world as it left it: effects
    performed before an exception stay performed. *)

Section IO.
Context {W : Type}.

Definition io (A : Type) : Type := W → result A * W.

Definition io_ret {A} (a : A) : io A := λ w, (Ok a, w).

Definition io_raise {A} (e : exn) : io A := λ w, (Raise e, w).

Definition io_bind {A B} (m : io A) (k : A → io B) : io B :=
  λ w, match m w with
       | (Ok a, w') => k a w'
       | (Raise e, w') => (Raise e, w')
       end.

(** [for i, x in enumerate(l)] threading the loop's variables [s]. *)
Fixpoint for_enumerate {A St} (body : nat → A → St → io St)
    (i : nat) (l : list A) (s : St) : io St :=
  match l with
  | [] => io_ret s
  | x :: l' => io_bind (body i x s) (for_enumerate body (S i) l')
  end.

(** [for x in l] threading the loop's variables [s]. *)
Fixpoint for_each {A St} (body : A → St → io St) (l : list A) (s : St) : io St :=
  match l with
  | [] => io_ret s
  | x :: l' => io_bind (body x s) (for_each body l')
  end.

End IO.

Arguments io : clear implicits.

Notation "'do' x <- m ; k" := (io_bind m (λ x, k))
  (at level 10, x name, m at level 100, k at level 200).
Notation "'do' ' p <- m ; k" := (io_bind m (λ x, match x with p => k end))
  (at level 10, p pattern, m at level 100, k at level 200).
Notation "'exec' m ; k" := (io_bind m (λ _, k))
  (at level 10, m at level 100, k at level 200).

(** [a % b] on Python integers: the sign follows the divisor, a zero divisor
    raises. *)
Definition py_mod {W} (a b : Z) : io W Z :=
  if decide (b = 0) then io_raise ZeroDivisionError else io_ret (a mod b).

(** [assert(b)]. *)
Definition py_assert {W} (b : bool) : io W unit :=
  if b then io_ret () else io_raise AssertionError.

(** [l[i]] on a Python list or numpy array, for an index in [0, len). *)
Definition py_getitem {W A} (l : list A) (i : nat) : io W A :=
  match l !! i with
  | Some x => io_ret x
  | None => io_raise IndexError
  end.

(** A pure fallible step run inside [io]. *)
Definition io_lift {W A} (r : result A) : io W A := λ w, (r, w).

(** ** [src/nmr/training/trainer.py] *)

(** What the training loop is given: a model with its parameters, an
    optimizer, batches, and the scalar loss [model.get_loss(x, y, loss_fn)]
    of a batch.  The network, the optimizer's update rule and the data come
    from torch and from the caller; the trainer only calls them.  These
    calls are taken to return: an exception raised inside the model, the
    loss function or the optimizer passes through the trainer unchanged and
    is not part of this embedding. *)
Class Learner : Type := {
  params : Type;
  opt_state : Type;
  batch : Type;
  (** [model.get_loss(x, y, loss_fn).item()], in training or evaluation mode *)
  get_loss : bool → params → batch → float;
  (** [optimizer.zero_grad(); loss.backward(); optimizer.step()] *)
  optimizer_step : params → opt_state → batch → params * opt_state;
}.

Module Trainer.
Section WithLearner.
Context `{L : Learner}.

Inductive split : Type := Train | Validation | Test.

(** What the run does to its surroundings, in order. *)
Inductive event : Type :=
  | Printed (sp : split) (epoch : Z) (ibatch : nat) (loss : float)
  | AddScalar (tag : string) (value : float) (step : Z)
  | Flush
  | Close
  | TorchSave (path : string)
  | OsRemove (path : string).

Inductive blob : Type :=
  | ModelState (p : params)
  | OptimState (o : opt_state).

(** The mutable objects [fit] works on: the model (parameters and
    train/eval mode), the optimizer, the files under the save directory,
    and the trace of writer, print and file-system calls. *)
Record world : Type := World {
  model : params;
  training : bool;
  optimizer : opt_state;
  files : gmap string (gmap string blob);
  trace : list event;
}.

Definition emit (ev : event) : io world unit :=
  λ w, (Ok (), World (model w) (training w) (optimizer w) (files w) (trace w ++ [ev])).

(** [model.train()] / [model.eval()] *)
Definition set_training (b : bool) : io world unit :=
  λ w, (Ok (), World (model w) b (optimizer w) (files w) (trace w)).

Definition model_get_loss (xy : batch) : io world float :=
  λ w, (Ok (get_loss (training w) (model w) xy), w).

Definition apply_optimizer (xy : batch) : io world unit :=
  λ w, let '(m, o) := optimizer_step (model w) (optimizer w) xy in
       (Ok (), World m (training w) o (files w) (trace w)).

(** [scheduler.step()]: the schedule rewrites the optimizer's learning rate. *)
Definition step_scheduler (scheduler : opt_state → opt_state) : io world unit :=
  λ w, (Ok (), World (model w) (training w) (scheduler (optimizer w)) (files w) (trace w)).

(** [tot_loss / len(dataloader)] *)
Definition mean_loss (tot_loss : float) (n : nat) : io world float :=
  match n with
  | O => io_raise ZeroDivisionError
  | S _ => io_ret (tot_loss / PyFloat.of_len n)%float
  end.

Definition train_loop (dataloader : list batch) (epoch : Z)
    (scheduler : option (opt_state → opt_state)) (write_freq : Z) : io world float :=
  exec set_training true;
  do tot_loss <- for_enumerate (λ ibatch xy tot_loss,
    let inner_step := epoch * Z.of_nat (length dataloader) + Z.of_nat ibatch in
    do loss <- model_get_loss xy;
    exec apply_optimizer xy;
    exec match scheduler with
         | Some sch => step_scheduler sch
         | None => io_ret ()
         end;
    do r <- py_mod (Z.of_nat ibatch) write_freq;
    exec (if decide (r = 0) then emit (Printed Train epoch ibatch loss) else io_ret ());
    let tot_loss := (tot_loss + loss)%float in
    exec emit (AddScalar "Training Step Loss" loss inner_step);
    io_ret tot_loss) 0%nat dataloader 0%float;
  do avg <- mean_loss tot_loss (length dataloader);
  exec emit (AddScalar "Avg. Epoch Train Loss" avg epoch);
  mean_loss tot_loss (length dataloader).

Definition validation_loop (dataloader : list batch) (epoch : Z)
    (write_freq : Z) : io world float :=
  exec set_training false;
  do tot_loss <- for_enumerate (λ ibatch xy tot_loss,
    let inner_step := epoch * Z.of_nat (length dataloader) + Z.of_nat ibatch in
    do loss <- model_get_loss xy;
    do r <- py_mod (Z.of_nat ibatch) write_freq;
    exec (if decide (r = 0) then emit (Printed Validation epoch ibatch loss) else io_ret ());
    let tot_loss := (tot_loss + loss)%float in
    exec emit (AddScalar "Validation Step Loss" loss inner_step);
    io_ret tot_loss) 0%nat dataloader 0%float;
  do avg <- mean_loss tot_loss (length dataloader);
  exec emit (AddScalar "Avg. Epoch Validation Loss" avg epoch);
  mean_loss tot_loss (length dataloader).

Definition test_loop (dataloader : list batch) (epoch : Z)
    (write_freq : Z) : io world float :=
  exec set_training false;
  do tot_loss <- for_enumerate (λ ibatch xy tot_loss,
    let inner_step := epoch * Z.of_nat (length dataloader) + Z.of_nat ibatch in
    do loss <- model_get_loss xy;
    do r <- py_mod (Z.of_nat ibatch) write_freq;
    exec (if decide (r = 0) then emit (Printed Test epoch ibatch loss) else io_ret ());
    let tot_loss := (tot_loss + loss)%float in
    exec emit (AddScalar "Test Step Loss" loss inner_step);
    io_ret tot_loss) 0%nat dataloader 0%float;
  do avg <- mean_loss tot_loss (length dataloader);
  exec emit (AddScalar "Avg. Epoch Test Loss" avg epoch);
  mean_loss tot_loss (length dataloader).

(** [torch.save({'model_state_dict': ..., 'optimizer_state_dict': ...}, savename)]
    into a directory that exists; the failure of [torch.save] on a missing
    directory is not part of this embedding. *)
Definition torch_save_states (savename : string) : io world unit :=
  λ w, let bundle : gmap string blob :=
         <["model_state_dict" := ModelState (model w)]>
           (<["optimizer_state_dict" := OptimState (optimizer w)]> ∅) in
       (Ok (), World (model w) (training w) (optimizer w)
                     (<[savename := bundle]> (files w))
                     (trace w ++ [TorchSave savename])).

Definition save_model (epoch : Z) (loss_metric : float) (savedir : string)
    (tag : string) : io world string :=
  let savename :=
    if decide (tag = "") then
      savedir +:+ "/model_epoch=" +:+ pretty epoch +:+ "_loss="
        +:+ PyFloat.format_f 8 loss_metric +:+ ".pt"
    else
      savedir +:+ "/model_epoch=" +:+ pretty epoch +:+ "_loss="
        +:+ PyFloat.format_f 8 loss_metric +:+ "_" +:+ tag +:+ ".pt" in
  exec torch_save_states savename;
  io_ret savename.

(** [os.remove(checkpoint)] *)
Definition delete_checkpoint (checkpoint : string) : io world unit :=
  λ w, match files w !! checkpoint with
       | Some _ => (Ok (), World (model w) (training w) (optimizer w)
                                 (delete checkpoint (files w))
                                 (trace w ++ [OsRemove checkpoint]))
       | None => (Raise (FileNotFoundError checkpoint), w)
       end.

(** Lines 202-216 of [fit]: the consideration of one epoch's metric for the
    kept checkpoints.  [best_losses] is the numpy array of the best metrics,
    [model_names] the list of the file names that hold them. *)
Definition consider_checkpoint (save_dir : string) (true_epoch : Z)
    (curr_k_metric_value : float)
    (best_losses : list float) (model_names : list (option string))
    : io world (list float * list (option string)) :=
  do max_loss_idx <- io_lift (Np.argmax best_losses);
  do max_loss_value <- py_getitem best_losses max_loss_idx;
  do max_loss_model <- py_getitem model_names max_loss_idx;
  if (curr_k_metric_value <? max_loss_value)%float then
    exec match max_loss_model with
         | Some checkpoint => delete_checkpoint checkpoint
         | None => io_ret ()
         end;
    do model_name <- save_model true_epoch curr_k_metric_value save_dir "";
    io_ret (<[max_loss_idx := curr_k_metric_value]> best_losses,
            <[max_loss_idx := Some model_name]> model_names)
  else io_ret (best_losses, model_names).

(** The local variables of [fit] that the epoch loop assigns.  [true_epoch]
    is unbound until the loop body has run once. *)
Record fit_locals : Type := FitLocals {
  best_losses : list float;
  model_names : list (option string);
  train_losses : list float;
  val_losses : list float;
  test_losses : list float;
  true_epoch : option Z;
}.

Definition fit_init (top_checkpoints_n : nat) : fit_locals :=
  {| best_losses := replicate top_checkpoints_n PyFloat.inf;
     model_names := replicate top_checkpoints_n None;
     train_losses := []; val_losses := []; test_losses := [];
     true_epoch := None |}.

(** The body of [for epoch in range(nepochs)]. *)
Definition fit_epoch (train_dataloader val_dataloader test_dataloader : list batch)
    (save_dir : string) (scheduler : option (opt_state → opt_state))
    (loss_metric : string) (write_freq test_freq prev_epochs : Z)
    (epoch : Z) (loc : fit_locals) : io world fit_locals :=
  let true_epoch := epoch + prev_epochs in
  do train_loss <- train_loop train_dataloader true_epoch scheduler write_freq;
  let train_losses := train_losses loc ++ [train_loss] in
  do val_loss <- validation_loop val_dataloader true_epoch write_freq;
  let val_losses := val_losses loc ++ [val_loss] in
  do r <- py_mod true_epoch test_freq;
  do test_losses <-
    (if decide (r = 0) then
       do test_loss <- test_loop test_dataloader true_epoch write_freq;
       io_ret (test_losses loc ++ [test_loss])
     else io_ret (test_losses loc));
  let curr_k_metric_value :=
    if decide (loss_metric = "train") then train_loss else val_loss in
  do '(best_losses, model_names) <-
    consider_checkpoint save_dir true_epoch curr_k_metric_value
      (best_losses loc) (model_names loc);
  io_ret {| best_losses := best_losses; model_names := model_names;
            train_losses := train_losses; val_losses := val_losses;
            test_losses := test_losses; true_epoch := Some true_epoch |}.

Definition fit_loop (train_dataloader val_dataloader test_dataloader : list batch)
    (save_dir : string) (scheduler : option (opt_state → opt_state))
    (loss_metric : string) (write_freq test_freq prev_epochs : Z)
    (epochs : list Z) (loc : fit_locals) : io world fit_locals :=
  for_each (fit_epoch train_dataloader val_dataloader test_dataloader save_dir
              scheduler loss_metric write_freq test_freq prev_epochs) epochs loc.

(** Reading the local [true_epoch] after the loop. *)
Definition read_true_epoch (loc : fit_locals) : io world Z :=
  match true_epoch loc with
  | Some e => io_ret e
  | None => io_raise (UnboundLocalError "true_epoch")
  end.

Definition fit (train_dataloader val_dataloader test_dataloader : list batch)
    (nepochs : Z) (save_dir : string)
    (scheduler : option (opt_state → opt_state))
    (top_checkpoints_n : nat) (loss_metric : string)
    (write_freq test_freq prev_epochs : Z)
    : io world (list float * list float * list float * list (option string)) :=
  do loc <- fit_loop train_dataloader val_dataloader test_dataloader save_dir
              scheduler loss_metric write_freq test_freq prev_epochs
              (seqZ 0 nepochs) (fit_init top_checkpoints_n);
  exec emit Flush;
  exec emit Close;
  do last_epoch <- read_true_epoch loc;
  do final_test_loss <- test_loop test_dataloader last_epoch write_freq;
  let test_losses := test_losses loc ++ [final_test_loss] in
  exec (if decide (Z.of_nat top_checkpoints_n ≤ nepochs) then
          exec py_assert (bool_decide (None ∉ model_names loc));
          py_assert (forallb (λ b, b <? PyFloat.inf)%float (best_losses loc))
        else io_ret ());
  io_ret (train_losses loc, val_losses loc, test_losses, model_names loc).

End WithLearner.
End Trainer.

(** ** [src/nmr/scripts/top_level_utils.py] *)

Module TopLevelUtils.

(** A prediction record [(tgt, [pred, ...])]: strings, or integer token
    arrays of any length. *)
Abbreviation str_record := (string * list string)%type.
Abbreviation arr_record := (list Z * list (list Z))%type.

(** What a dataset of the predictions file holds. *)
Inductive h5data : Type :=
  | H5Strings (l : list string)
  | H5StringMatrix (rows : list (list string))
  | H5Int (z : Z)
  | H5Array2 (rows : list (list Z))
  | H5Array3 (blocks : list (list (list Z)))
  (** [len] variable-length strings that were never written *)
  | H5Unwritten (len : nat).

(** The object a [with ... as f] block works on: a text file as
    [open(path, 'w')] returns, or an HDF5 file, whose top-level groups each
    hold named datasets. *)
Inductive file_obj : Type :=
  | TextIO (content : string)
  | H5File (groups : gmap string (gmap string h5data)).

(** [h5ptr.create_group(name)]: a text file has no such method; an HDF5
    file refuses a name it already has. *)
Definition create_group (name : string) : io file_obj unit :=
  λ f, match f with
       | TextIO _ => (Raise (AttributeError "create_group"), f)
       | H5File groups =>
           match groups !! name with
           | Some _ => (Raise ValueError, f)
           | None => (Ok (), H5File (<[name := ∅]> groups))
           end
       end.

(** [group.create_dataset(name, data = d)] on the group [group] of the file. *)
Definition create_dataset (group name : string) (d : h5data) : io file_obj unit :=
  λ f, match f with
       | TextIO _ => (Raise (AttributeError "create_dataset"), f)
       | H5File groups =>
           match groups !! group with
           | None => (Raise ValueError, f)
           | Some g =>
               match g !! name with
               | Some _ => (Raise ValueError, f)
               | None => (Ok (), H5File (<[group := <[name := d]> g]> groups))
               end
           end
       end.

(** The shape of a list of rows as numpy sees it. *)
Definition shape2 {A} (rows : list (list A)) : nat * nat :=
  (length rows, match rows with [] => 0%nat | r :: _ => length r end).

(** [np.array(rows)] of equally long rows; ragged rows are refused. *)
Definition np_array2 {A} (rows : list (list A)) : result (list (list A)) :=
  if forallb (λ r, Nat.eqb (length r) (shape2 rows).2) rows
  then Ok rows else Raise ValueError.

(** [np.array(blocks)] of equally shaped matrices. *)
Definition np_array3 {A} (blocks : list (list (list A))) : result (list (list (list A))) :=
  match blocks with
  | [] => Ok []
  | b :: _ =>
      if forallb (λ b', bool_decide (shape2 b' = shape2 b)) blocks
      then Ok blocks else Raise ValueError
  end.

Fixpoint result_map {A B} (f : A → result B) (l : list A) : result (list B) :=
  match l with
  | [] => Ok []
  | x :: l' =>
      match f x with
      | Raise e => Raise e
      | Ok y => match result_map f l' with
                | Raise e => Raise e
                | Ok ys => Ok (y :: ys)
                end
      end
  end.

(** [group.create_dataset(name, data = rows)] for a list of lists of
    strings.  h5py stores nested lists whose items are all strings as
    variable-length strings: equally long rows make a matrix; with rows of
    different lengths, none of them empty, the dataset is created with one
    entry for each row and writing the rows into it is a [TypeError], which
    leaves the dataset in the group.  When a row is empty h5py leaves the
    conversion to numpy, which refuses rows of different lengths before
    anything is created. *)
Definition create_dataset_of_rows (group name : string) (rows : list (list string))
    : io file_obj unit :=
  match np_array2 rows with
  | Ok rows => create_dataset group name (H5StringMatrix rows)
  | Raise _ =>
      if forallb (λ r, negb (Nat.eqb (length r) 0)) rows
      then exec create_dataset group name (H5Unwritten (length rows));
           io_raise TypeError
      else λ f, match f with
                | TextIO _ => (Raise (AttributeError "create_dataset"), f)
                | H5File _ => (Raise ValueError, f)
                end
  end.

Definition save_str_set (preds : list str_record) (savename : string)
    : io file_obj unit :=
  let targets := preds.*1 in
  let predictions := preds.*2 in
  exec create_group savename;
  exec create_dataset savename "targets" (H5Strings targets);
  create_dataset_of_rows savename "predictions" predictions.

(** [reduce(lambda x, y: x + y, preds)] has no initial value, so an empty
    [preds] is a [TypeError]; [max] of an empty list is a [ValueError]. *)
Definition find_max_length (preds : list (list (list Z))) : result nat :=
  match preds with
  | [] => Raise TypeError
  | p :: ps =>
      let flattened_preds := foldl (λ x y, x ++ y) p ps in
      match flattened_preds with
      | [] => Raise ValueError
      | _ :: _ => Ok (max_list (length <$> flattened_preds))
      end
  end.

(** [np.pad(elem, (0, n - len(elem)), 'constant', constant_values = (c,))];
    a negative pad width is refused. *)
Definition np_pad_right (elem : list Z) (n : nat) (c : Z) : result (list Z) :=
  if (length elem <=? n)%nat then Ok (elem ++ replicate (n - length elem) c)
  else Raise ValueError.

Definition pad_single_prediction (pred : list (list Z)) (max_len : nat)
    (pad_token : Z) : result (list (list Z)) :=
  match result_map (λ elem, np_pad_right elem max_len pad_token) pred with
  | Raise e => Raise e
  | Ok fixed_seqs => np_array2 fixed_seqs
  end.

Definition pad_token : Z := 999999.

Definition save_array_set (preds : list arr_record) (savename : string)
    : io file_obj unit :=
  let targets := preds.*1 in
  do targets <- io_lift (np_array2 targets);
  let predictions := preds.*2 in
  do max_len <- io_lift (find_max_length predictions);
  do predictions <- io_lift
    (result_map (λ elem, pad_single_prediction elem max_len pad_token) predictions);
  do predictions <- io_lift (np_array3 predictions);
  exec create_group savename;
  exec create_dataset savename "targets" (H5Array2 targets);
  exec create_dataset savename "predictions" (H5Array3 predictions);
  create_dataset savename "additional_pad_token" (H5Int pad_token).

(** The three optional prediction lists of one inference run, of string
    records or of array records. *)
Inductive prediction_lists : Type :=
  | StrPredictions (train val test : option (list str_record))
  | ArrPredictions (train val test : option (list arr_record)).

(** [train_predictions[0]]: [None] cannot be subscripted, an empty list has
    no first element. *)
Definition first_element {W A} (l : option (list A)) : io W A :=
  match l with
  | None => io_raise TypeError
  | Some [] => io_raise IndexError
  | Some (x :: _) => io_ret x
  end.

(** [with open(path, 'w') as f: body]: the file is created empty, [body]
    works on the text-file object, and the file stays whatever happens. *)
Definition with_open_w {A} (path : string) (body : io file_obj A)
    : io (gmap string file_obj) A :=
  λ fs, let '(r, f) := body (TextIO "") in (r, <[path := f]> fs).

(** The three [if ..._predictions is not None: save_fxn(f, ..., name)]. *)
Definition save_supplied {R} (save_fxn : list R → string → io file_obj unit)
    (train_predictions val_predictions test_predictions : option (list R))
    : io file_obj unit :=
  exec match train_predictions with
       | Some l => save_fxn l "train"
       | None => io_ret ()
       end;
  exec match val_predictions with
       | Some l => save_fxn l "val"
       | None => io_ret ()
       end;
  match test_predictions with
  | Some l => save_fxn l "test"
  | None => io_ret ()
  end.

Definition save_inference_predictions (savedir : string) (p : prediction_lists)
    : io (gmap string file_obj) unit :=
  match p with
  | StrPredictions train_predictions val_predictions test_predictions =>
      do test_element <- first_element train_predictions;
      with_open_w (savedir +:+ "/predictions.h5")
        (save_supplied save_str_set
           train_predictions val_predictions test_predictions)
  | ArrPredictions train_predictions val_predictions test_predictions =>
      do test_element <- first_element train_predictions;
      with_open_w (savedir +:+ "/predictions.h5")
        (save_supplied save_array_set
           train_predictions val_predictions test_predictions)
  end.

End TopLevelUtils.

(** ** [src/nmr/training/loss_fxns.py] *)

(** The element type of a torch tensor with the arithmetic the loss uses,
    the test [0 <= p <= 1] that [nn.BCELoss] makes of every prediction, and
    the elementwise criterion [nn.BCELoss(reduction = 'none')]. *)
Class Scalar (F : Type) : Type := {
  fzero : F;
  fone : F;
  fadd : F → F → F;
  fsub : F → F → F;
  fmul : F → F → F;
  fdiv : F → F → F;
  f_of_nat : nat → F;
  (** whether a prediction lies in [[0, 1]] *)
  in_unit : F → bool;
  (** the criterion at one prediction and one target *)
  bce : F → F → F;
}.

(** Multiplying by one is exact, in IEEE arithmetic as in exact
    arithmetic. *)
Class ScalarLaws (F : Type) `{Scalar F} : Prop := {
  fmul_one_l : ∀ x : F, fmul fone x = x;
}.

Module LossFxns.
Section WithScalar.
Context {F : Type} `{Scalar F}.

(** Tensors of rank 2, 1 and 3: their sizes, which are data of the tensor
    as in torch, and the element at each index. *)
Record tensor2 : Type := Tensor2 { rows : nat; cols : nat; entry : nat → nat → F }.
Record tensor1 : Type := Tensor1 { size : nat; item : nat → F }.
Record tensor3 : Type :=
  Tensor3 { dim0 : nat; dim1 : nat; dim2 : nat; entry3 : nat → nat → nat → F }.

Definition shape (t : tensor2) : nat * nat := (rows t, cols t).
Definition shape1 (t : tensor1) : nat := size t.
Definition shape3 (t : tensor3) : nat * nat * nat := (dim0 t, dim1 t, dim2 t).

(** Whether every element of the tensor passes the test [p]. *)
Definition all_entries (p : F → bool) (t : tensor2) : bool :=
  forallb (λ i, forallb (λ j, p (entry t i j)) (seq 0 (cols t))) (seq 0 (rows t)).

(** [criterion(y_pred, y_true)]: a target of another size than the
    prediction is a [ValueError], a prediction outside [[0, 1]] a
    [RuntimeError]. *)
Definition criterion (y_pred y_true : tensor2) : result tensor2 :=
  if negb (bool_decide (shape y_true = shape y_pred)) then Raise ValueError
  else if negb (all_entries in_unit y_pred) then Raise RuntimeError
  else Ok (Tensor2 (rows y_pred) (cols y_pred)
             (λ i j, bce (entry y_pred i j) (entry y_true i j))).

(** Broadcasting of two sizes of one dimension: equal sizes stay, a size
    of one is stretched to the other. *)
Definition broadcast_dim (m n : nat) : option nat :=
  if decide (m = n) then Some m
  else if decide (m = 1%nat) then Some n
  else if decide (n = 1%nat) then Some m
  else None.

Definition broadcast_index (m i : nat) : nat := if decide (m = 1%nat) then 0%nat else i.

(** [a * b] and [a + b] elementwise, with broadcasting; sizes that cannot
    be broadcast are a [RuntimeError]. *)
Definition elementwise (op : F → F → F) (a b : tensor2) : result tensor2 :=
  match broadcast_dim (rows a) (rows b), broadcast_dim (cols a) (cols b) with
  | Some r, Some c =>
      Ok (Tensor2 r c (λ i j,
            op (entry a (broadcast_index (rows a) i) (broadcast_index (cols a) j))
               (entry b (broadcast_index (rows b) i) (broadcast_index (cols b) j))))
  | _, _ => Raise RuntimeError
  end.

Definition tmul : tensor2 → tensor2 → result tensor2 := elementwise fmul.
Definition tadd : tensor2 → tensor2 → result tensor2 := elementwise fadd.

(** [c - a] and [c * a] with a number [c]. *)
Definition rsub (c : F) (a : tensor2) : tensor2 :=
  Tensor2 (rows a) (cols a) (λ i j, fsub c (entry a i j)).
Definition smul (c : F) (a : tensor2) : tensor2 :=
  Tensor2 (rows a) (cols a) (λ i j, fmul c (entry a i j)).

(** [weights[:, :, k]]: an index past the last dimension is an
    [IndexError]. *)
Definition slice_last (w : tensor3) (k : nat) : result tensor2 :=
  if (k <? dim2 w)%nat then Ok (Tensor2 (dim0 w) (dim1 w) (λ i j, entry3 w i j k))
  else Raise IndexError.

(** The sum of [f 0, ..., f (n - 1)]. *)
Definition sum_upto (n : nat) (f : nat → F) : F :=
  foldl fadd fzero (f <$> seq 0 n).

(** [torch.mean(t, dim = 0)] *)
Definition mean_dim0 (t : tensor2) : tensor1 :=
  Tensor1 (cols t)
    (λ j, fdiv (sum_upto (rows t) (λ i, entry t i j)) (f_of_nat (rows t))).

(** [torch.sum(t)] *)
Definition tsum (t : tensor1) : F := sum_upto (size t) (item t).

Definition subs_weighted_BCE (y_pred y_true : tensor2)
    (weights : option tensor3) (reduction : string) : result F :=
  unweighted_loss ← criterion y_pred y_true;
  weighted_loss ←
    match weights with
    | Some weights =>
        weights_1 ← slice_last weights 1;
        present ← tmul y_true weights_1;
        weights_0 ← slice_last weights 0;
        absent ← tmul (rsub fone y_true) weights_0;
        w ← tadd present absent;
        tmul w unweighted_loss
    | None => Ok (smul fone unweighted_loss)
    end;
  let rowwise_meaned := mean_dim0 weighted_loss in
  if decide (shape1 rowwise_meaned = 957%nat) then Ok (tsum rowwise_meaned)
  else Raise AssertionError.

(** Weights that are one everywhere. *)
Definition ones3 (d0 d1 d2 : nat) : tensor3 := Tensor3 d0 d1 d2 (λ _ _ _, fone).

End WithScalar.

Arguments tensor2 F : clear implicits.
Arguments tensor1 F : clear implicits.
Arguments tensor3 F : clear implicits.

End LossFxns.

(** * Vocabulary of the properties *)

(** ** Float arrays *)

Definition no_nan (l : list float) : Prop := Forall (λ b, is_nan b = false) l.

(** [idx] is the first index of the maximum [v] of [l]. *)
Definition first_max (l : list float) (idx : nat) (v : float) : Prop :=
  l !! idx = Some v ∧
  (∀ j x, l !! j = Some x → (x <=? v)%float = true) ∧
  (∀ j x, (j < idx)%nat → l !! j = Some x → (x <? v)%float = true).

(** ** Checkpoint slots *)

(** The state of the [K] slots: both arrays have [K] entries, no metric is
    NaN, and a slot holds the metric +infinity exactly when it holds no
    file name (the slot is unfilled). *)
Record slots_ok (K : nat) (best : list float) (names : list (option string)) : Prop := {
  slots_best_len : length best = K;
  slots_names_len : length names = K;
  slots_no_nan : no_nan best;
  slots_unfilled : ∀ i b n,
    best !! i = Some b → names !! i = Some n → (b = infinity ↔ n = None);
}.

(** The file name [save_model] builds. *)
Definition checkpoint_name (savedir : string) (epoch : Z) (loss_metric : float)
    (tag : string) : string :=
  savedir +:+ "/model_epoch=" +:+ pretty epoch +:+ "_loss="
    +:+ PyFloat.format_f 8 loss_metric
    +:+ (if decide (tag = "") then "" else "_" +:+ tag) +:+ ".pt".

(** The file name as the specification words it, with the loss to six
    decimals; to be compared with [checkpoint_name]. *)
Definition checkpoint_name_six_decimals (savedir : string) (epoch : Z)
    (loss_metric : float) (tag : string) : string :=
  savedir +:+ "/model_epoch=" +:+ pretty epoch +:+ "_loss="
    +:+ PyFloat.format_f 6 loss_metric
    +:+ (if decide (tag = "") then "" else "_" +:+ tag) +:+ ".pt".

Section TrainerVocabulary.
Context `{L : Learner}.
Import Trainer.

(** The checkpoint manager on the metrics of successive epochs. *)
Definition consider_each (save_dir : string) (metrics : list (Z * float))
    (slots : list float * list (option string))
    : io world (list float * list (option string)) :=
  for_each (λ em bn, consider_checkpoint save_dir em.1 em.2 bn.1 bn.2) metrics slots.

(** The paths removed, in order. *)
Definition removals (tr : list event) : list string :=
  omap (λ ev, match ev with OsRemove p => Some p | _ => None end) tr.

(** The bundle [torch.save] writes in the world [w]. *)
Definition bundle_of (w : world) : gmap string blob :=
  <["model_state_dict" := ModelState (model w)]>
    (<["optimizer_state_dict" := OptimState (optimizer w)]> ∅).

End TrainerVocabulary.

(** ** Test passes and the writer *)

(** The events that tell when a test pass finished and when the writer was
    flushed and closed. *)
Inductive mark : Type :=
  | TestPass (epoch : Z)
  | Flushed
  | Closed.

Section MarkVocabulary.
Context `{L : Learner}.
Import Trainer.

Definition mark_of (ev : event) : option mark :=
  match ev with
  | AddScalar tag _ step =>
      if decide (tag = "Avg. Epoch Test Loss") then Some (TestPass step) else None
  | Flush => Some Flushed
  | Close => Some Closed
  | _ => None
  end.

Definition marks (tr : list event) : list mark := omap mark_of tr.

(** A computation that, when it returns, has left no mark. *)
Definition quiet {A} (m : io world A) : Prop :=
  ∀ w a w', m w = (Ok a, w') → marks (trace w') = marks (trace w).

End MarkVocabulary.

(** The true epochs of [fit] at which the loop runs the test split. *)
Definition tested_epochs (nepochs test_freq prev_epochs : Z) : list Z :=
  filter (λ e, e `mod` test_freq = 0) ((λ epoch, epoch + prev_epochs) <$> seqZ 0 nepochs).

(** The marks as the specification orders them: the final test pass first,
    the flush and close of the writer after it. *)
Definition marks_as_specified (nepochs test_freq prev_epochs : Z) : list mark :=
  (TestPass <$> tested_epochs nepochs test_freq prev_epochs)
  ++ [TestPass (nepochs - 1 + prev_epochs); Flushed; Closed].

(** ** Padded predictions *)

Section PaddingVocabulary.
Import TopLevelUtils.

(** The padded rows of one record. *)
Definition padded (max_len : nat) (pred : list (list Z)) : list (list Z) :=
  (λ elem, elem ++ replicate (max_len - length elem) pad_token) <$> pred.

(** Every sequence of the batch, and the longest length among them. *)
Definition all_sequences (preds : list arr_record) : list (list Z) :=
  mjoin (M := list) preds.*2.

Definition batch_max_len (preds : list arr_record) : nat :=
  max_list (length <$> all_sequences preds).

(** Modelled from the spec: the reader of a padded row, which is not part of
    the sources; it drops the trailing values equal to the recorded pad
    token ("padding then stripping at the recorded pad-token value"). *)
Fixpoint strip_pad (c : Z) (row : list Z) : list Z :=
  match row with
  | [] => []
  | x :: row' =>
      match strip_pad c row' with
      | [] => if decide (x = c) then [] else [x]
      | s => x :: s
      end
  end.

(** Reading the stored predictions back, row by row. *)
Definition strip_batch (stored : list (list (list Z))) : list (list (list Z)) :=
  fmap (M := list) (fmap (M := list) (strip_pad pad_token)) stored.

End PaddingVocabulary.

(** ** The substructure loss *)

Section LossVocabulary.
Context {F : Type} `{Scalar F}.
Import LossFxns.

(** The sum [f 0 + ... + f (n - 1)], taken from zero in this order. *)
Fixpoint total (n : nat) (f : nat → F) : F :=
  match n with
  | O => fzero
  | S n' => fadd (total n' f) (f n')
  end.

(** The average of [f 0, ..., f (n - 1)]. *)
Definition average (n : nat) (f : nat → F) : F := fdiv (total n f) (f_of_nat n).

(** The loss as the specification words it: the elementwise criterion,
    averaged over the batch for each of the 957 classes, then summed over
    the classes. *)
Definition unweighted_bce_spec (y_pred y_true : tensor2 F) : F :=
  total 957 (λ j,
    average (rows y_pred) (λ i, bce (entry y_pred i j) (entry y_true i j))).

(** The weight the code gives a target entry [y] when all weights are
    one. *)
Definition unit_weight (y : F) : F :=
  fadd (fmul y fone) (fmul (fsub fone y) fone).

(** The targets of the labels [lab]: one where the substructure is present
    and zero where it is absent. *)
Definition of_labels (B C : nat) (lab : nat → nat → bool) : tensor2 F :=
  Tensor2 B C (λ i j, if lab i j then fone else fzero).

(** The criterion of every entry times the weight of its label, the weight
    at index 1 for a present and at index 0 for an absent substructure,
    averaged over the batch for each class and summed over the classes. *)
Definition label_weighted_bce (y_pred : tensor2 F)
    (lab : nat → nat → bool) (weights : tensor3 F) : F :=
  total 957 (λ j,
    average (rows y_pred) (λ i,
      fmul (entry3 weights i j (if lab i j then 1%nat else 0%nat))
           (bce (entry y_pred i j) (if lab i j then fone else fzero)))).

End LossVocabulary.

(** ** Concrete inputs *)

(** A learner for concrete runs: a batch is its own loss, and training
    changes nothing. *)
Definition toy_learner : Learner := {|
  params := unit; opt_state := unit; batch := float;
  get_loss := λ _ _ b, b;
  optimizer_step := λ p o _, (p, o) |}.

Definition toy_world : @Trainer.world toy_learner :=
  @Trainer.World toy_learner () false () ∅ [].

(** A run of three epochs with two training batches, one validation batch
    and two test batches, keeping two checkpoints, test frequency 10. *)
Definition toy_fit :=
  Trainer.fit (L := toy_learner) [1.0; 2.0]%float [3.0]%float [4.0; 6.0]%float
    3 "ckpt" None 2 "val" 100 10 0 toy_world.

(** A batch of three records with one prediction each, of lengths 3, 5
    and 2. *)
Definition toy_batch : list TopLevelUtils.arr_record :=
  [([1; 2], [[1; 2; 3]]); ([3; 4], [[4; 5; 6; 7; 8]]); ([5; 6], [[9; 10]])].

(** Exact rational arithmetic as tensor elements, with the squared error
    standing in for the criterion. *)
Definition Qc_scalar : Scalar Qc := {|
  fzero := 0%Qc; fone := 1%Qc;
  fadd := Qcplus; fsub := Qcminus; fmul := Qcmult; fdiv := Qcdiv;
  f_of_nat := λ n, Q2Qc (inject_Z (Z.of_nat n));
  in_unit := λ p, Qle_bool 0 p && Qle_bool p 1;
  bce := λ p y, ((p - y) * (p - y))%Qc |}.

(** Binary64 floats as tensor elements; the criterion of one entry, which
    takes logarithms, is left to the caller. *)
Definition float_scalar (bce : float → float → float) : Scalar float := {|
  fzero := 0%float; fone := 1%float;
  fadd := PrimFloat.add; fsub := PrimFloat.sub;
  fmul := PrimFloat.mul; fdiv := PrimFloat.div;
  f_of_nat := PyFloat.of_len;
  in_unit := λ p, (0 <=? p)%float && (p <=? 1)%float;
  bce := bce |}.

(** * [src/nmr/analysis/postprocessing.py] *)

Module Postprocessing.

(** What is given as the data of a dataset of the results file, and what
    the dataset then holds: a [str], a list of them, the array
    [np.array(rows)] of a list of lists of strings, a list of floats, an
    integer. *)
Inductive h5value : Type :=
  | H5Str (s : string)
  | H5StrList (l : list string)
  | H5StrMatrix (rows : list (list string))
  | H5FloatList (l : list float)
  | H5Number (z : Z).

(** What h5py can store.  A [str] and a list of them become variable-length
    strings, and numbers are stored as they are; but the array that
    [np.array] makes of strings is of numpy's fixed-width unicode type,
    which has no HDF5 counterpart: only an array that holds no string at
    all, which numpy makes an empty array of floats, can be stored. *)
Definition storable (d : h5value) : bool :=
  match d with
  | H5StrMatrix rows => forallb (λ r, Nat.eqb (length r) 0) rows
  | _ => true
  end.

(** An HDF5 file as the nodes it holds, each addressed by the names on its
    path from the root: a group or a dataset.  A group object that the code
    holds is the path of that group. *)
Inductive h5node : Type :=
  | Group
  | Dataset (d : h5value).

Abbreviation h5store := (gmap (list string) h5node).

(** [parent.create_group(name)]: a name that exists is refused; the new
    group object is returned.  Names are single path components: a name
    with a [/] in it, which HDF5 reads as a path, is outside this model. *)
Definition create_group (parent : list string) (name : string)
    : io h5store (list string) :=
  λ st, match st !! (parent ++ [name]) with
        | Some _ => (Raise ValueError, st)
        | None => (Ok (parent ++ [name]), <[parent ++ [name] := Group]> st)
        end.

(** [parent.create_dataset(name, data = d)]: data that cannot be stored is
    a [TypeError] before anything is created; a name that exists is
    refused. *)
Definition create_dataset (parent : list string) (name : string) (d : h5value)
    : io h5store unit :=
  λ st, if storable d then
          match st !! (parent ++ [name]) with
          | Some _ => (Raise ValueError, st)
          | None => (Ok (), <[parent ++ [name] := Dataset d]> st)
          end
        else (Raise TypeError, st).

(** The result of processing one batch of predictions: the good targets,
    their predictions with losses, the bad targets and their predictions. *)
Abbreviation smiles_result :=
  (list string * list (list (string * float)) * list string * list (list string))%type.

Section WithChemistry.

(** [count_num_heavy] of [nmr.analysis.util], which is not part of these
    sources: the number of heavy atoms of a SMILES string, or the exception
    it raises. *)
Context (count_num_heavy : string → result Z).

(** The body of [for i in range(len(good_targets))]. *)
Definition save_valid_prediction (good_grp : list string)
    (good_targets : list string)
    (preds_with_losses : list (list (string * float)))
    (i : nat) (_ : unit) : io h5store unit :=
  do curr_targ <- py_getitem good_targets i;
  do curr_pred <- py_getitem preds_with_losses i;
  let pred_strings := curr_pred.*1 in
  let pred_losses := curr_pred.*2 in
  do pred_grp <- create_group good_grp (pretty i);
  exec create_dataset pred_grp "target" (H5Str curr_targ);
  exec create_dataset pred_grp "prediction_strings" (H5StrList pred_strings);
  exec create_dataset pred_grp "prediction_bce_losses" (H5FloatList pred_losses);
  do num_heavy <- io_lift (count_num_heavy curr_targ);
  create_dataset pred_grp "num_heavy_atoms" (H5Number num_heavy).

Definition format_SMILES_preds_into_h5 (f : list string)
    (good_targets : list string)
    (preds_with_losses : list (list (string * float)))
    (bad_targets : list string) (bad_predictions : list (list string))
    : io h5store unit :=
  do bad_grp <- create_group f "bad_predictions";
  exec create_dataset bad_grp "targets" (H5StrList bad_targets);
  do bad_array <- io_lift (TopLevelUtils.np_array2 bad_predictions);
  exec create_dataset bad_grp "predictions" (H5StrMatrix bad_array);
  do good_grp <- create_group f "valid_predictions";
  for_each (save_valid_prediction good_grp good_targets preds_with_losses)
    (seq 0 (length good_targets)) ().

(** The four lists after [for result in processed_results] has extended
    them with the parts of every result. *)
Definition gather (processed_results : list smiles_result) : smiles_result :=
  foldl (λ acc result : smiles_result,
           (acc.1.1.1 ++ result.1.1.1, acc.1.1.2 ++ result.1.1.2,
            acc.1.2 ++ result.1.2, acc.2 ++ result.2))
        ([], [], [], []) processed_results.

Definition postprocess_save_SMILES_results (f : list string) (savename : string)
    (processed_results : list smiles_result) : io h5store unit :=
  do group <- create_group f savename;
  let '(good_targets, preds_with_losses, bad_targets, bad_predictions) :=
    gather processed_results in
  format_SMILES_preds_into_h5 group good_targets preds_with_losses
    bad_targets bad_predictions.

End WithChemistry.

End Postprocessing.

(** * Vocabulary of the further properties *)

(** ** Specifications of [io] computations *)

(** From a world satisfying [P], the computation [m] either returns a value
    and a world related by [Q] or raises an exception and leaves a world
    related by [E]. *)
Definition hoare {W A} (P : W → Prop) (m : io W A)
    (Q : A → W → Prop) (E : exn → W → Prop) : Prop :=
  ∀ w, P w → match m w with
             | (Ok a, w') => Q a w'
             | (Raise e, w') => E e w'
             end.

(** ** The loops over the batches *)

(** [files] written and removed, in order. *)
Inductive file_event : Type :=
  | Saved (path : string)
  | Removed (path : string).

Section LoopVocabulary.
Context `{L : Learner}.
Import Trainer.

(** The sum [tot_loss] of the losses, accumulated from 0 in batch order. *)
Definition py_sum (losses : list float) : float :=
  foldl PrimFloat.add 0%float losses.

(** One batch of [train_loop] on the parameters and the optimizer state: an
    optimizer step, then a scheduler step when there is a scheduler. *)
Definition train_step (scheduler : option (opt_state → opt_state))
    (s : params * opt_state) (xy : batch) : params * opt_state :=
  let '(m, o) := optimizer_step s.1 s.2 xy in
  (m, match scheduler with Some sch => sch o | None => o end).

(** The loss of each batch, taken on the parameters as they are when the
    batch is reached. *)
Fixpoint losses_along (scheduler : option (opt_state → opt_state))
    (s : params * opt_state) (dl : list batch) : list float :=
  match dl with
  | [] => []
  | xy :: dl' =>
      get_loss true s.1 xy :: losses_along scheduler (train_step scheduler s xy) dl'
  end.

(** The values and steps written to the writer under [tag]. *)
Definition scalars (tag : string) (tr : list event) : list (float * Z) :=
  omap (λ ev, match ev with
              | AddScalar t v s => if decide (t = tag) then Some (v, s) else None
              | _ => None
              end) tr.

(** The progress lines printed: split, epoch, batch index and loss. *)
Definition prints (tr : list event) : list (split * Z * nat * float) :=
  omap (λ ev, match ev with
              | Printed sp e i l => Some (sp, e, i, l)
              | _ => None
              end) tr.

(** The writer steps of the batches of one epoch, [epoch * len(dataloader)
    + ibatch], and the batches whose index the print frequency divides. *)
Definition inner_steps (epoch : Z) (n : nat) : list Z :=
  (λ ibatch : nat, epoch * Z.of_nat n + Z.of_nat ibatch) <$> seq 0 n.

Definition printed_batches (sp : split) (epoch write_freq : Z)
    (losses : list float) : list (split * Z * nat * float) :=
  (λ il : nat * float, (sp, epoch, il.1, il.2)) <$>
    filter (λ il : nat * float, Z.of_nat il.1 `mod` write_freq = 0)
           (zip (seq 0 (length losses)) losses).

Definition file_event_of (ev : event) : option file_event :=
  match ev with
  | TorchSave p => Some (Saved p)
  | OsRemove p => Some (Removed p)
  | _ => None
  end.

Definition file_events (tr : list event) : list file_event := omap file_event_of tr.

(** An invariant of the world that the writer and the prints do not
    touch, and one that training steps do not touch. *)
Definition ignores_events (J : world → Prop) : Prop :=
  ∀ m t o f tr ev, file_event_of ev = None →
    J (World m t o f tr) → J (World m t o f (tr ++ [ev])).

Definition ignores_training (J : world → Prop) : Prop :=
  ∀ m t o f tr m' o', J (World m t o f tr) → J (World m' t o' f tr).

(** What a pass in evaluation mode leaves behind, whether it returns or
    raises: the parameters, the optimizer and the files as they were, the
    model in evaluation mode, and a longer trace without file events. *)
Definition evaluation_frame (w : world) (out : result float * world) : Prop :=
  model out.2 = model w ∧ optimizer out.2 = optimizer w ∧
  files out.2 = files w ∧ training out.2 = false ∧
  ∃ tr, trace out.2 = trace w ++ tr ∧ file_events tr = [].

(** The same for a training pass, which does change the parameters and the
    optimizer and leaves the model in training mode. *)
Definition training_frame (w : world) (out : result float * world) : Prop :=
  files out.2 = files w ∧ training out.2 = true ∧
  ∃ tr, trace out.2 = trace w ++ tr ∧ file_events tr = [].

(** A completed pass in evaluation mode over the batches [dl]: the mean of
    the losses of the batches on the unchanged parameters is returned, each
    loss is written under [step_tag] at its inner step, the mean is written
    once under [avg_tag] at the epoch, and the batches the print frequency
    selects are printed. *)
Definition evaluation_pass (sp : split) (step_tag avg_tag : string)
    (dl : list batch) (epoch write_freq : Z) (w : world)
    (out : result float * world) : Prop :=
  let losses := get_loss false (model w) <$> dl in
  let avg := (py_sum losses / PyFloat.of_len (length dl))%float in
  ∃ tr,
    out = (Ok avg, World (model w) false (optimizer w) (files w) (trace w ++ tr)) ∧
    scalars step_tag tr = zip losses (inner_steps epoch (length dl)) ∧
    scalars avg_tag tr = [(avg, epoch)] ∧
    prints tr = printed_batches sp epoch write_freq losses.

(** A completed training pass: each batch's loss is taken on the parameters
    the earlier batches left, and the parameters and the optimizer end as
    the steps of all batches leave them. *)
Definition training_pass (scheduler : option (opt_state → opt_state))
    (dl : list batch) (epoch write_freq : Z) (w : world)
    (out : result float * world) : Prop :=
  let losses := losses_along scheduler (model w, optimizer w) dl in
  let avg := (py_sum losses / PyFloat.of_len (length dl))%float in
  let s := foldl (train_step scheduler) (model w, optimizer w) dl in
  ∃ tr,
    out = (Ok avg, World s.1 true s.2 (files w) (trace w ++ tr)) ∧
    scalars "Training Step Loss" tr = zip losses (inner_steps epoch (length dl)) ∧
    scalars "Avg. Epoch Train Loss" tr = [(avg, epoch)] ∧
    prints tr = printed_batches Train epoch write_freq losses.

End LoopVocabulary.

(** Every removal comes after a save of the same path. *)
Definition removes_own (fs : list file_event) : Prop :=
  ∀ i p, fs !! i = Some (Removed p) → ∃ j, (j < i)%nat ∧ fs !! j = Some (Saved p).

(** ** The checkpoints of a run *)

(** Whether the character [c] occurs in [s]. *)
Fixpoint has_char (c : Strings.Ascii.ascii) (s : string) : bool :=
  match s with
  | EmptyString => false
  | String a s' => Strings.Ascii.eqb a c || has_char c s'
  end.

Section FitVocabulary.
Context `{L : Learner}.
Import Trainer.

(** The checkpoints kept in the slots [names] when the run that started in
    the world [w0] has reached the world [w], all its epochs so far being
    below [bound]: every name in a slot is that of an existing file, was
    built by [save_model] for one of these epochs, and is in no other slot;
    files that do not carry a checkpoint name of the directory are as they
    were; every file that was not there at the start is named in a slot;
    and every removal so far was of a file the run had saved. *)
Record kept_ok (save_dir : string) (bound : Z) (w0 w : world)
    (names : list (option string)) : Prop := {
  kept_exist : ∀ i p, names !! i = Some (Some p) → is_Some (files w !! p);
  kept_made : ∀ i p, names !! i = Some (Some p) →
    ∃ e l, e < bound ∧ p = checkpoint_name save_dir e l "";
  kept_differ : ∀ i j p,
    names !! i = Some (Some p) → names !! j = Some (Some p) → i = j;
  kept_foreign : ∀ p, (∀ e l, p ≠ checkpoint_name save_dir e l "") →
    files w !! p = files w0 !! p;
  kept_new : ∀ p, is_Some (files w !! p) →
    is_Some (files w0 !! p) ∨ Some p ∈ names;
  kept_events : ∃ fs,
    file_events (trace w) = file_events (trace w0) ++ fs ∧ removes_own fs ∧
    ∀ p, Some p ∈ names → Saved p ∈ fs;
}.

(** The state of [fit] before the epoch of index [i]. *)
Definition fit_inv (save_dir : string) (K : nat) (prev_epochs : Z) (w0 : world)
    (i : nat) (loc : fit_locals) (w : world) : Prop :=
  slots_ok K (best_losses loc) (model_names loc) ∧
  kept_ok save_dir (Z.of_nat i + prev_epochs) w0 w (model_names loc) ∧
  length (train_losses loc) = i ∧ length (val_losses loc) = i ∧
  true_epoch loc = match i with
                   | O => None
                   | S j => Some (Z.of_nat j + prev_epochs)
                   end.

(** The world an exception of the epoch loop leaves, and the exceptions the
    loop can raise. *)
Definition fit_exn (save_dir : string) (K : nat) (prev_epochs : Z) (w0 : world)
    (e : exn) (w : world) : Prop :=
  (∃ i loc, fit_inv save_dir K prev_epochs w0 i loc w) ∧
  (e = ZeroDivisionError ∨ (e = ValueError ∧ K = 0%nat)).

(** The metric [fit] considers for the checkpoints, epoch by epoch. *)
Definition metric_history (loss_metric : string) (loc : fit_locals) : list float :=
  if decide (loss_metric = "train") then train_losses loc else val_losses loc.

End FitVocabulary.

(** [kept] is what is left of [candidates] when the largest are dropped:
    no kept value is above a dropped one. *)
Definition keeps_smallest (candidates kept : list float) : Prop :=
  ∃ dropped, candidates ≡ₚ dropped ++ kept ∧
    ∀ d v, d ∈ dropped → v ∈ kept → (v <=? d)%float = true.

(** ** Token arrays *)

(** Whether an integer is one of numpy's [int64], and whether the target
    and the predictions of a record are arrays of them. *)
Definition int64 (z : Z) : bool := (- 2 ^ 63 <=? z) && (z <? 2 ^ 63).

Definition int64_record (r : TopLevelUtils.arr_record) : bool :=
  forallb int64 r.1 && forallb (forallb int64) r.2.

(** ** The results file *)

Section PostprocessingVocabulary.
Import Postprocessing.

(** The file has no node at or below [path]. *)
Definition absent_below (st : h5store) (path : list string) : Prop :=
  ∀ p, st !! (path ++ p) = None.

(** The group of the valid prediction [i] under [good_grp] holds the
    target, the predicted strings, their losses and the number of heavy
    atoms. *)
Definition valid_entry (st : h5store) (good_grp : list string) (i : nat)
    (targ : string) (pred : list (string * float)) (num_heavy : Z) : Prop :=
  st !! (good_grp ++ [pretty i]) = Some Group ∧
  st !! (good_grp ++ [pretty i; "target"]) = Some (Dataset (H5Str targ)) ∧
  st !! (good_grp ++ [pretty i; "prediction_strings"])
    = Some (Dataset (H5StrList pred.*1)) ∧
  st !! (good_grp ++ [pretty i; "prediction_bce_losses"])
    = Some (Dataset (H5FloatList pred.*2)) ∧
  st !! (good_grp ++ [pretty i; "num_heavy_atoms"])
    = Some (Dataset (H5Number num_heavy)).

(** What [format_SMILES_preds_into_h5] leaves under the group [f]. *)
Definition formatted (count_num_heavy : string → result Z) (st : h5store)
    (f : list string) (good_targets : list string)
    (preds_with_losses : list (list (string * float)))
    (bad_targets : list string) (bad_predictions : list (list string)) : Prop :=
  st !! (f ++ ["bad_predictions"]) = Some Group ∧
  st !! (f ++ ["bad_predictions"; "targets"])
    = Some (Dataset (H5StrList bad_targets)) ∧
  st !! (f ++ ["bad_predictions"; "predictions"])
    = Some (Dataset (H5StrMatrix bad_predictions)) ∧
  st !! (f ++ ["valid_predictions"]) = Some Group ∧
  ∀ i targ pred, good_targets !! i = Some targ → preds_with_losses !! i = Some pred →
    ∃ num_heavy, count_num_heavy targ = Ok num_heavy ∧
      valid_entry st (f ++ ["valid_predictions"]) i targ pred num_heavy.

End PostprocessingVocabulary.

(** ** Further concrete inputs *)

(** A learner with one parameter [p] fitted to the batches by gradient
    descent on the squared error: the optimizer state is the step size. *)
Definition descent_learner : Learner := {|
  params := float; opt_state := float; batch := float;
  get_loss := λ _ p b, ((p - b) * (p - b))%float;
  optimizer_step := λ p lr b, ((p - lr * (2 * (p - b)))%float, lr) |}.

Definition descent_world : @Trainer.world descent_learner :=
  @Trainer.World descent_learner 0%float false 0.25%float ∅ [].

(** A schedule that halves the step size. *)
Definition halving (lr : float) : float := (lr / 2)%float.

(** The epoch loop of four epochs of [descent_learner] over two training
    batches, keeping two checkpoints by the training loss, and the local
    variables it ends with: the training losses are 3.625, 1.6015625,
    1.69384765625 and 1.754302978515625, so the third epoch replaces the
    checkpoint of the first. *)
Definition descent_loop :=
  Trainer.fit_loop (L := descent_learner) [1.0; 3.0]%float [2.0]%float [2.5]%float
    "run" None "train" 1 2 0 (seqZ 0 4) (Trainer.fit_init 2) descent_world.

Definition descent_locals : Trainer.fit_locals := {|
  Trainer.best_losses := [1.69384765625; 1.6015625]%float;
  Trainer.model_names := [Some "run/model_epoch=2_loss=1.69384766.pt";
                          Some "run/model_epoch=1_loss=1.60156250.pt"];
  Trainer.train_losses :=
    [3.625; 1.6015625; 1.69384765625; 1.754302978515625]%float;
  Trainer.val_losses :=
    [0.0625; 0.03515625; 0.088134765625; 0.1051177978515625]%float;
  Trainer.test_losses := [0.5625; 0.041259765625]%float;
  Trainer.true_epoch := Some 3 |}.

(** A results file that holds only its root group, a stand-in for the
    heavy-atom count in concrete runs (the number of characters), and the
    results of two batches. *)
Definition toy_store : Postprocessing.h5store := {[ [] := Postprocessing.Group ]}.

Definition toy_count_num_heavy (smiles : string) : result Z :=
  Ok (Z.of_nat (String.length smiles)).

Definition toy_results : list Postprocessing.smiles_result :=
  [(["CCO"], [[("CCO", 0.5%float); ("CCN", 0.75%float)]], ["N"], [["x"; "y"]]);
   (["CC"], [[("CC", 0.25%float)]], [], [])].

(** The results of two batches in which every prediction is valid. *)
Definition toy_valid_results : list Postprocessing.smiles_result :=
  [(["CCO"], [[("CCO", 0.5%float); ("CCN", 0.75%float)]], [], []);
   (["CC"], [[("CC", 0.25%float)]], [], [])].

(** * Properties *)

(** ** Reasoning about [io] computations *)

Section IOFacts.
Context {W : Type}.

Lemma io_bind_ok {A B} (m : io W A) (k : A → io W B) w b w2 :
  io_bind m k w = (Ok b, w2) →
  ∃ a w1, m w = (Ok a, w1) ∧ k a w1 = (Ok b, w2).
Proof.
  unfold io_bind. destruct (m w) as [[a|e] w1]; intros Hk.
  - by exists a, w1.
  - discriminate.
Qed.

Lemma io_bind_raise {A B} (m : io W A) (k : A → io W B) w e w2 :
  io_bind m k w = (Raise e, w2) →
  m w = (Raise e, w2) ∨ ∃ a w1, m w = (Ok a, w1) ∧ k a w1 = (Raise e, w2).
Proof.
  unfold io_bind. destruct (m w) as [[a|e'] w1]; intros Hk.
  - right. by exists a, w1.
  - left. congruence.
Qed.

Lemma io_bind_step {A B} (m : io W A) (k : A → io W B) w a w1 :
  m w = (Ok a, w1) → io_bind m k w = k a w1.
Proof. unfold io_bind. by intros ->. Qed.

Lemma io_ret_ok {A} (a b : A) (w w' : W) :
  io_ret a w = (Ok b, w') → a = b ∧ w = w'.
Proof. unfold io_ret. by intros [= -> ->]. Qed.

Lemma py_mod_ok (a b r : Z) (w w' : W) :
  py_mod a b w = (Ok r, w') → b ≠ 0 ∧ r = a mod b ∧ w' = w.
Proof.
  unfold py_mod. case_decide; [discriminate|].
  unfold io_ret. by intros [= <- <-].
Qed.

End IOFacts.

(** Splits a hypothesis saying that a sequence of steps returned normally
    into one hypothesis per step. *)
Ltac io_ok H :=
  repeat match type of H with
  | io_bind _ _ _ = (Ok _, _) =>
      let a := fresh "a" in let w := fresh "w" in
      let H1 := fresh "Hstep" in
      apply io_bind_ok in H as (a & w & H1 & H)
  end.

(** ** The order of float comparisons *)

Section FloatOrder.
Import PyFloat.

Lemma sf_nan_dec (x : spec_float) : {x = S754_nan} + {x ≠ S754_nan}.
Proof. destruct x; (by left) || (by right). Qed.

Lemma SFcompare_key x y :
  x ≠ S754_nan → y ≠ S754_nan →
  ∃ c, SFcompare x y = Some c ∧
       (c = Lt ↔ key_lt (sf_key x) (sf_key y)) ∧
       (c = Gt ↔ key_lt (sf_key y) (sf_key x)).
Proof.
  intros Hx Hy. unfold key_lt.
  destruct x as [sx|sx| |sx mx ex], y as [sy|sy| |sy my ey]; try done;
    try (destruct sx); try (destruct sy); simpl;
    try (eexists; split; [reflexivity|]; split; split; intros; try lia; try done; fail).
  all: rewrite ?Pos.compare_cont_spec; simpl.
  all: destruct (Z.compare_spec ex ey); destruct (Pos.compare_spec mx my); simpl;
    eexists; (split; [reflexivity|]); split; split; intros; try lia; try done.
Qed.

Lemma ltb_key x y :
  (x <? y)%float = true ↔ not_nan x ∧ not_nan y ∧ key_lt (key_of x) (key_of y).
Proof.
  unfold not_nan, key_of. rewrite FloatAxioms.ltb_spec. unfold SFltb.
  destruct (sf_nan_dec (Prim2SF x)) as [->|Hx].
  { simpl. split; [discriminate | by intros [? _]]. }
  destruct (sf_nan_dec (Prim2SF y)) as [->|Hy].
  { destruct (Prim2SF x); simpl; (split; [discriminate | intros (_ & Hn & _); by destruct Hn]). }
  destruct (SFcompare_key _ _ Hx Hy) as (c & -> & HLt & HGt).
  destruct c; (split; [intros Hc | intros (_ & _ & Hk)]); try discriminate;
    try (apply HLt in Hk; discriminate); try done.
  split; [done|]. split; [done|]. by apply HLt.
Qed.

Lemma leb_key x y :
  (x <=? y)%float = true ↔ not_nan x ∧ not_nan y ∧ ¬ key_lt (key_of y) (key_of x).
Proof.
  unfold not_nan, key_of. rewrite FloatAxioms.leb_spec. unfold SFleb.
  destruct (sf_nan_dec (Prim2SF x)) as [->|Hx].
  { simpl. split; [discriminate | by intros [? _]]. }
  destruct (sf_nan_dec (Prim2SF y)) as [->|Hy].
  { destruct (Prim2SF x); simpl; (split; [discriminate | intros (_ & Hn & _); by destruct Hn]). }
  destruct (SFcompare_key _ _ Hx Hy) as (c & -> & HLt & HGt).
  destruct c; split; try discriminate; try done.
  - intros _. split; [done|]. split; [done|]. intros Hk. apply HGt in Hk. discriminate.
  - intros _. split; [done|]. split; [done|]. intros Hk. apply HGt in Hk. discriminate.
  - intros (_ & _ & Hk). destruct Hk. by apply HGt.
Qed.

Lemma is_nan_key x : is_nan x = false ↔ not_nan x.
Proof.
  unfold is_nan, not_nan. rewrite FloatAxioms.eqb_spec. unfold SFeqb.
  destruct (sf_nan_dec (Prim2SF x)) as [->|Hx].
  { simpl. split; [discriminate | done]. }
  destruct (SFcompare_key _ _ Hx Hx) as (c & -> & HLt & HGt).
  unfold key_lt in *. destruct c; simpl; split; try done; intros _.
  - assert (Lt = Lt) as E by done. apply HLt in E. lia.
  - assert (Gt = Gt) as E by done. apply HGt in E. lia.
Qed.

Lemma leb_false_ltb x y :
  is_nan x = false → is_nan y = false → (x <=? y)%float = false → (y <? x)%float = true.
Proof.
  rewrite !is_nan_key, <- not_true_iff_false, leb_key, ltb_key.
  intros Hx Hy Hle. split; [done|]. split; [done|].
  destruct (key_of x) as [[??]?], (key_of y) as [[??]?]. unfold key_lt in *. simpl in *.
  apply Decidable.not_not; [unfold Decidable.decidable; lia|].
  intros Hn. apply Hle. done.
Qed.

Lemma leb_ltb_trans x y z :
  (x <=? y)%float = true → (y <? z)%float = true → (x <? z)%float = true.
Proof.
  rewrite leb_key, !ltb_key. intros (Hx & Hy & Hxy) (_ & Hz & Hyz).
  split; [done|]. split; [done|].
  destruct (key_of x) as [[??]?], (key_of y) as [[??]?], (key_of z) as [[??]?].
  unfold key_lt in *. simpl in *. lia.
Qed.

Lemma ltb_leb x y : (x <? y)%float = true → (x <=? y)%float = true.
Proof.
  rewrite leb_key, !ltb_key. intros (Hx & Hy & Hxy).
  split; [done|]. split; [done|].
  destruct (key_of x) as [[??]?], (key_of y) as [[??]?].
  unfold key_lt in *. simpl in *. lia.
Qed.

Lemma leb_refl x : is_nan x = false → (x <=? x)%float = true.
Proof.
  rewrite is_nan_key, leb_key. intros Hx. split; [done|]. split; [done|].
  destruct (key_of x) as [[??]?]. unfold key_lt. simpl. lia.
Qed.

Lemma ltb_not_nan_l x y : (x <? y)%float = true → is_nan x = false.
Proof. rewrite ltb_key, is_nan_key. by intros (? & _). Qed.

Lemma ltb_infinity_l y : (infinity <? y)%float = false.
Proof.
  apply not_true_iff_false. rewrite ltb_key. intros (_ & Hy & Hk).
  unfold key_of, not_nan in *. change (Prim2SF infinity) with (S754_infinity false) in Hk.
  destruct (Prim2SF y) as [[]|[]| |[] ? ?]; unfold key_lt in Hk; simpl in Hk; try lia; done.
Qed.

End FloatOrder.

(** ** [np.argmax] finds the first maximum *)

Section Argmax.

Lemma no_nan_lookup (l : list float) i x :
  no_nan l → l !! i = Some x → is_nan x = false.
Proof. intros Hl Hi. exact (Forall_lookup_1 _ l i x Hl Hi). Qed.

Lemma argmax_scan_first_max l : ∀ pre mp mi i,
  no_nan (pre ++ l) → length pre = i → first_max pre mi mp →
  ∃ v, first_max (pre ++ l) (Np.argmax_scan mp mi i l) v.
Proof.
  induction l as [|x l IH]; intros pre mp mi i Hnan Hlen (Hmi & Hle & Hlt); simpl.
  { exists mp. rewrite app_nil_r. done. }
  assert (is_nan mp = false) as Hmp.
  { eapply no_nan_lookup; [exact Hnan|]. apply lookup_app_l_Some. exact Hmi. }
  assert (is_nan x = false) as Hx.
  { eapply no_nan_lookup; [exact Hnan|]. by apply list_lookup_middle. }
  assert (mi < length pre)%nat as Hmi_lt by (by eapply lookup_lt_Some).
  rewrite Hmp. rewrite (cons_middle x pre l), app_assoc in Hnan |- *.
  destruct (x <=? mp)%float eqn:Hcmp; simpl.
  - apply IH; [done | rewrite length_app; simpl; lia |].
    split; [by apply lookup_app_l_Some|]. split.
    + intros j y Hj. apply lookup_app_Some in Hj as [Hj|[_ Hj]]; [by eapply Hle|].
      apply list_lookup_singleton_Some in Hj as [_ <-]. done.
    + intros j y Hjlt Hj. rewrite lookup_app_l in Hj by lia. by eapply Hlt.
  - apply leb_false_ltb in Hcmp; [|done..].
    apply IH; [done | rewrite length_app; simpl; lia |].
    split; [subst i; by apply list_lookup_middle|]. split.
    + intros j y Hj. apply lookup_app_Some in Hj as [Hj|[_ Hj]].
      * apply ltb_leb. eapply leb_ltb_trans; [by eapply Hle | done].
      * apply list_lookup_singleton_Some in Hj as [_ <-]. by apply leb_refl.
    + intros j y Hjlt Hj. rewrite lookup_app_l in Hj by lia.
      eapply leb_ltb_trans; [by eapply Hle | done].
Qed.

Lemma argmax_first_max (l : list float) :
  no_nan l → l ≠ [] → ∃ idx v, Np.argmax l = Ok idx ∧ first_max l idx v.
Proof.
  intros Hnan Hne. destruct l as [|x l]; [done|]. simpl.
  destruct (argmax_scan_first_max l [x] x 0%nat 1%nat) as [v Hv]; [done..| |].
  { split; [done|]. split.
    - intros [|j] y Hj; simplify_eq/=. apply leb_refl. by inversion Hnan.
    - intros j y Hj. lia. }
  exists (Np.argmax_scan x 0%nat 1%nat l), v. done.
Qed.

End Argmax.

(** ** The checkpoint slots *)

Section Checkpoints.
Context `{L : Learner}.
Import Trainer.

Lemma slots_ok_init K : slots_ok K (replicate K PyFloat.inf) (replicate K None).
Proof.
  split.
  - apply length_replicate.
  - apply length_replicate.
  - apply Forall_replicate. reflexivity.
  - intros i b n [-> _]%lookup_replicate [-> _]%lookup_replicate. done.
Qed.

Lemma slots_ok_insert K best names idx v curr name :
  slots_ok K best names → (curr <? v)%float = true →
  slots_ok K (<[idx := curr]> best) (<[idx := Some name]> names).
Proof.
  intros [Hb Hn Hnan Hun] Hlt. split.
  - by rewrite length_insert.
  - by rewrite length_insert.
  - apply Forall_insert; [done|]. by eapply ltb_not_nan_l.
  - intros i b n Hi Hj. destruct (decide (i = idx)) as [->|Hne].
    + apply list_lookup_insert_Some in Hi as [(_ & <- & _)|[? _]]; [|done].
      apply list_lookup_insert_Some in Hj as [(_ & <- & _)|[? _]]; [|done].
      split; [|done]. intros ->. by rewrite ltb_infinity_l in Hlt.
    + rewrite list_lookup_insert_ne in Hi by done.
      rewrite list_lookup_insert_ne in Hj by done. by eapply Hun.
Qed.

(** C1: on slots in a state [slots_ok], one consideration that returns
    leaves them in such a state (still [K] entries each, unfilled slots at
    +infinity without a file name) and touches no slot other than the first
    maximum [idx] of the metrics; that slot takes the new metric and the new
    file name when the new metric is strictly below its value [v], and
    otherwise both arrays and the world are unchanged.  A consideration
    that raises (no slot at all, or the file to delete is missing) changes
    nothing. *)
Theorem consider_checkpoint_one_slot K save_dir epoch curr best names (w : world) :
  slots_ok K best names →
  match consider_checkpoint save_dir epoch curr best names w with
  | (Ok (best', names'), w') =>
      slots_ok K best' names' ∧
      ∃ idx v, first_max best idx v ∧
        (∀ j, j ≠ idx → best' !! j = best !! j ∧ names' !! j = names !! j) ∧
        if (curr <? v)%float
        then best' !! idx = Some curr ∧
             ∃ name, names' !! idx = Some (Some name) ∧ is_Some (files w' !! name)
        else best' = best ∧ names' = names ∧ w' = w
  | (Raise e, w') =>
      w' = w ∧
      (K = 0%nat ∨
       ∃ idx v p, first_max best idx v ∧ (curr <? v)%float = true ∧
         names !! idx = Some (Some p) ∧ files w !! p = None)
  end.
Proof.
  intros Hok. pose proof Hok as [Hb Hn Hnan Hun].
  destruct (decide (best = [])) as [->|Hne].
  { simpl in Hb. subst K. cbn. split; [done|by left]. }
  destruct (argmax_first_max best Hnan Hne) as (idx & v & Harg & Hfm).
  pose proof Hfm as (Hv & _ & _).
  assert (idx < length names)%nat as Hidx.
  { rewrite Hn, <- Hb. by eapply lookup_lt_Some. }
  destruct (lookup_lt_is_Some_2 names idx Hidx) as [on Hon].
  unfold consider_checkpoint, io_bind, io_lift, py_getitem, io_ret.
  rewrite Harg, Hv, Hon.
  destruct (curr <? v)%float eqn:Hlt.
  2:{ split; [done|]. exists idx, v. rewrite Hlt. done. }
  destruct on as [p|].
  - unfold delete_checkpoint. destruct (files w !! p) eqn:Hp.
    + cbn. split; [by eapply slots_ok_insert|].
      exists idx, v. split; [done|]. split.
      * intros j Hj. by rewrite !list_lookup_insert_ne.
      * rewrite Hlt. split; [apply list_lookup_insert_eq; by eapply lookup_lt_Some|].
        eexists. split; [by apply list_lookup_insert_eq|].
        rewrite lookup_insert_eq. done.
    + split; [done|]. right. by exists idx, v, p.
  - cbn. split; [by eapply slots_ok_insert|].
    exists idx, v. split; [done|]. split.
    * intros j Hj. by rewrite !list_lookup_insert_ne.
    * rewrite Hlt. split; [apply list_lookup_insert_eq; by eapply lookup_lt_Some|].
      eexists. split; [by apply list_lookup_insert_eq|].
      rewrite lookup_insert_eq. done.
Qed.

End Checkpoints.

Section Scenario.
Context `{L : Learner}.
Import Trainer.

Lemma save_model_eq epoch loss savedir tag (w : world) :
  save_model epoch loss savedir tag w =
  (Ok (checkpoint_name savedir epoch loss tag),
   World (model w) (training w) (optimizer w)
         (<[checkpoint_name savedir epoch loss tag := bundle_of w]> (files w))
         (trace w ++ [TorchSave (checkpoint_name savedir epoch loss tag)])).
Proof.
  unfold save_model, checkpoint_name. case_decide; reflexivity.
Qed.

Lemma consider_checkpoint_replace save_dir epoch curr best names (w : world) idx v on :
  Np.argmax best = Ok idx → best !! idx = Some v → names !! idx = Some on →
  (curr <? v)%float = true →
  (∀ p, on = Some p → is_Some (files w !! p)) →
  consider_checkpoint save_dir epoch curr best names w =
  (Ok (<[idx := curr]> best,
       <[idx := Some (checkpoint_name save_dir epoch curr "")]> names),
   World (model w) (training w) (optimizer w)
     (<[checkpoint_name save_dir epoch curr "" := bundle_of w]>
        (match on with Some p => delete p (files w) | None => files w end))
     (trace w ++ match on with
                 | Some p => [OsRemove p; TorchSave (checkpoint_name save_dir epoch curr "")]
                 | None => [TorchSave (checkpoint_name save_dir epoch curr "")]
                 end)).
Proof.
  intros Harg Hv Hon Hlt Hfile.
  unfold consider_checkpoint, io_bind, io_lift, py_getitem, io_ret.
  rewrite Harg, Hv, Hon, Hlt. destruct on as [p|].
  - destruct (Hfile p eq_refl) as [c Hc]. unfold delete_checkpoint. rewrite Hc.
    rewrite save_model_eq. cbn. by rewrite <- app_assoc.
  - by rewrite save_model_eq.
Qed.

Lemma removals_app tr1 tr2 : removals (tr1 ++ tr2) = removals tr1 ++ removals tr2.
Proof. apply omap_app. Qed.

Lemma string_app_inv_head (s t1 t2 : string) : s +:+ t1 = s +:+ t2 → t1 = t2.
Proof. induction s as [|a s IH]; simpl; [done|]. intros [= Heq]. by apply IH. Qed.


End Scenario.


(** ** Fixed-point formatting *)

Section Formatting.
Import PyFloat.

Lemma string_length_app (s t : string) :
  String.length (s +:+ t) = (String.length s + String.length t)%nat.
Proof. induction s as [|a s IH]; simpl; [done|]. by rewrite IH. Qed.

Lemma zeros_length n : String.length (zeros n) = n.
Proof.
  induction n as [|n IH]; [done|].
  change (zeros (S n)) with ("0" +:+ zeros n). by rewrite string_length_app, IH.
Qed.

Lemma zero_pad_length width s :
  (String.length s ≤ width)%nat → String.length (zero_pad width s) = width.
Proof. intros Hs. unfold zero_pad. rewrite string_length_app, zeros_length. lia. Qed.

Lemma pretty_N_go_length (k : nat) : ∀ (x : N) (s : string),
  (x < 10 ^ N.of_nat k)%N →
  (String.length (pretty_N_go x s) ≤ k + String.length s)%nat.
Proof.
  induction k as [|k IH]; intros x s Hx.
  - assert (x = 0%N) as -> by (simpl in Hx; lia). rewrite pretty_N_go_0. lia.
  - destruct (decide (x = 0%N)) as [->|Hne]; [rewrite pretty_N_go_0; lia|].
    rewrite pretty_N_go_step by lia.
    etrans; [apply IH|simpl; lia].
    rewrite Nat2N.inj_succ, N.pow_succ_r' in Hx.
    apply N.Div0.div_lt_upper_bound. lia.
Qed.

Lemma pretty_Z_length (k : nat) (r : Z) :
  0 ≤ r < 10 ^ Z.of_nat (S k) → (String.length (pretty r) ≤ S k)%nat.
Proof.
  intros [Hr0 Hr]. destruct r as [|p|p]; [simpl; lia| |lia].
  change (pretty (Z.pos p)) with (pretty (N.pos p)).
  unfold pretty, pretty_N. case_decide; [done|].
  etrans; [apply (pretty_N_go_length (S k))|simpl; lia].
  apply N2Z.inj_lt. rewrite N2Z.inj_pow. simpl Z.of_N at 1.
  rewrite nat_N_Z. exact Hr.
Qed.

Lemma round_half_even_nearest (num den : Z) :
  0 < den →
  Z.abs (2 * (round_half_even num den * den - num)) ≤ den.
Proof.
  intros Hden. unfold round_half_even.
  pose proof (Z.div_mod num den) as Hdm.
  pose proof (Z.mod_pos_bound num den Hden) as Hr.
  destruct (Z.compare_spec (2 * (num mod den)) den) as [Heq|Hlt|Hgt];
    [destruct (Z.even (num / den))|..]; nia.
Qed.

(** The decimals of a finite float: [n] is the integer nearest to
    [m * 2^e * 10^prec] (ties to even), printed with exactly [prec] digits
    after the point. *)
Lemma format_f_finite (prec : nat) (x : float) s m e :
  Prim2SF x = S754_finite s m e →
  ∃ (n : Z) (frac : string),
    Z.abs (2 * (n * 2 ^ Z.max 0 (- e) - Z.pos m * 10 ^ Z.of_nat (S prec) * 2 ^ Z.max 0 e))
      ≤ 2 ^ Z.max 0 (- e) ∧
    format_f (S prec) x =
      sign_str s +:+ pretty (n / 10 ^ Z.of_nat (S prec)) +:+ "." +:+ frac ∧
    String.length frac = S prec.
Proof.
  intros Hx. unfold format_f. rewrite Hx.
  exists (scaled (S prec) m e), (zero_pad (S prec) (pretty (scaled (S prec) m e `mod` 10 ^ Z.of_nat (S prec)))).
  split; [|split; [reflexivity|]].
  - unfold scaled. destruct (Z.leb_spec 0 e) as [He|He].
    + rewrite (Z.max_l 0 (- e)), (Z.max_r 0 e) by lia.
      rewrite Z.pow_0_r. assert (0 < 2 ^ e) by (apply Z.pow_pos_nonneg; lia). nia.
    + rewrite (Z.max_r 0 (- e)), (Z.max_l 0 e) by lia.
      rewrite Z.pow_0_r, Z.mul_1_r. apply round_half_even_nearest.
      apply Z.pow_pos_nonneg; lia.
  - apply zero_pad_length, pretty_Z_length. apply Z.mod_pos_bound.
    apply Z.pow_pos_nonneg; lia.
Qed.

End Formatting.

Section SaveModel.
Context `{L : Learner}.
Import Trainer.

(** C8, as amended: [save_model] always writes, under the name it returns, a
    bundle of exactly the two entries [model_state_dict] and
    [optimizer_state_dict] holding the current model and optimizer states;
    the name is [<savedir>/model_epoch=<epoch>_loss=<loss>.pt], with
    [_<tag>] before [.pt] when the tag is not empty, and a finite loss is
    written rounded to the nearest value with exactly eight decimals. *)
Theorem save_model_bundle_and_name epoch loss savedir tag (w : world) :
  ∃ w',
    save_model epoch loss savedir tag w
      = (Ok (checkpoint_name savedir epoch loss tag), w') ∧
    files w' !! checkpoint_name savedir epoch loss tag = Some (bundle_of w) ∧
    dom (bundle_of w) = {[ "model_state_dict"; "optimizer_state_dict" ]} ∧
    bundle_of w !! "model_state_dict" = Some (ModelState (model w)) ∧
    bundle_of w !! "optimizer_state_dict" = Some (OptimState (optimizer w)) ∧
    checkpoint_name savedir epoch loss tag
      = savedir +:+ "/model_epoch=" +:+ pretty epoch +:+ "_loss="
          +:+ PyFloat.format_f 8 loss
          +:+ (if decide (tag = "") then ".pt" else "_" +:+ tag +:+ ".pt") ∧
    ∀ s m e, Prim2SF loss = S754_finite s m e →
      ∃ (n : Z) (frac : string),
        Z.abs (2 * (n * 2 ^ Z.max 0 (- e) - Z.pos m * 10 ^ 8 * 2 ^ Z.max 0 e))
          ≤ 2 ^ Z.max 0 (- e) ∧
        PyFloat.format_f 8 loss
          = PyFloat.sign_str s +:+ pretty (n / 10 ^ 8) +:+ "." +:+ frac ∧
        String.length frac = 8%nat.
Proof.
  eexists. split; [apply save_model_eq|]. cbn [files].
  split; [by rewrite lookup_insert_eq|].
  split; [unfold bundle_of; rewrite !dom_insert_L, dom_empty_L; set_solver|].
  split; [done|]. split; [done|].
  split; [unfold checkpoint_name; by case_decide|].
  intros s m e Hx. exact (format_f_finite 7 loss s m e Hx).
Qed.

End SaveModel.

(** C8, as stated, fails: the loss 0.12345678 is written with eight
    decimals, not rounded to six. *)
Lemma save_model_six_decimals_counterexample :
  (Trainer.save_model (L := toy_learner) 3 0.12345678 "ckpt" "" toy_world).1
    = Ok "ckpt/model_epoch=3_loss=0.12345678.pt" ∧
  checkpoint_name_six_decimals "ckpt" 3 0.12345678 ""
    = "ckpt/model_epoch=3_loss=0.123457.pt" ∧
  (Trainer.save_model (L := toy_learner) 3 0.12345678 "ckpt" "" toy_world).1
    ≠ Ok (checkpoint_name_six_decimals "ckpt" 3 0.12345678 "").
Proof.
  split; [vm_compute; reflexivity|]. split; [vm_compute; reflexivity|].
  vm_compute. discriminate.
Qed.

Section Failures.
Context `{L : Learner}.
Import Trainer.

(** C9: with [nepochs = 0] the loop body never runs, the writer is flushed
    and closed, and reading [true_epoch] for the final test pass raises
    [UnboundLocalError]; [fit] returns nothing. *)
Theorem fit_zero_epochs_unbound train_dataloader val_dataloader test_dataloader
    save_dir scheduler top_checkpoints_n loss_metric write_freq test_freq
    prev_epochs (w : world) :
  fit train_dataloader val_dataloader test_dataloader 0 save_dir scheduler
      top_checkpoints_n loss_metric write_freq test_freq prev_epochs w
  = (Raise (UnboundLocalError "true_epoch"),
     World (model w) (training w) (optimizer w) (files w)
           (trace w ++ [Flush; Close])).
Proof.
  unfold fit, fit_loop. rewrite seqZ_nil by lia. cbn.
  by rewrite <- app_assoc.
Qed.

(** C10: on a dataloader with no batch each of the three loops raises
    [ZeroDivisionError] at the mean of the losses. *)
Theorem empty_split_mean_raises epoch scheduler write_freq (w : world) :
  (train_loop [] epoch scheduler write_freq w).1 = Raise ZeroDivisionError ∧
  (validation_loop [] epoch write_freq w).1 = Raise ZeroDivisionError ∧
  (test_loop [] epoch write_freq w).1 = Raise ZeroDivisionError.
Proof. done. Qed.

End Failures.

(** A run of the slot theorem on two empty slots and the metric 5.0. *)
Lemma consider_checkpoint_one_slot_witness :
  slots_ok 2 (replicate 2 PyFloat.inf) (replicate 2 None) ∧
  match Trainer.consider_checkpoint (L := toy_learner) "ckpt" 0 5.0
          (replicate 2 PyFloat.inf) (replicate 2 None) toy_world with
  | (Ok (best', names'), w') =>
      slots_ok 2 best' names' ∧
      ∃ idx v, first_max (replicate 2 PyFloat.inf) idx v ∧
        (∀ j, j ≠ idx → best' !! j = replicate 2 PyFloat.inf !! j ∧
                        names' !! j = replicate 2 None !! j) ∧
        if (5.0 <? v)%float
        then best' !! idx = Some 5.0%float ∧
             ∃ name, names' !! idx = Some (Some name) ∧
                     is_Some (Trainer.files w' !! name)
        else best' = replicate 2 PyFloat.inf ∧ names' = replicate 2 None ∧
             w' = toy_world
  | (Raise e, w') =>
      w' = toy_world ∧
      (2 = 0 ∨
       ∃ idx v p, first_max (replicate 2 PyFloat.inf) idx v ∧ (5.0 <? v)%float = true ∧
         replicate 2 None !! idx = Some (Some p) ∧ Trainer.files toy_world !! p = None)%nat
  end.
Proof.
  split; [apply slots_ok_init|].
  apply (consider_checkpoint_one_slot (L := toy_learner) 2 "ckpt" 0 5.0).
  apply slots_ok_init.
Defined.

(** ** When the test split runs *)

Section Marks.
Context `{L : Learner}.
Import Trainer.

Lemma marks_app tr1 tr2 : marks (tr1 ++ tr2) = marks tr1 ++ marks tr2.
Proof. apply omap_app. Qed.

Lemma quiet_ret {A} (a : A) : quiet (io_ret a).
Proof. intros w b w' [= _ <-]. done. Qed.

Lemma quiet_bind {A B} (m : io world A) (k : A → io world B) :
  quiet m → (∀ a, quiet (k a)) → quiet (io_bind m k).
Proof.
  intros Hm Hk w b w' Hrun. apply io_bind_ok in Hrun as (a & w1 & H1 & H2).
  rewrite (Hk a w1 b w' H2). exact (Hm w a w1 H1).
Qed.

Lemma quiet_emit ev : mark_of ev = None → quiet (emit ev).
Proof.
  intros Hev w [] w' [= <-]. cbn. rewrite marks_app. cbn. rewrite Hev.
  by rewrite app_nil_r.
Qed.

Lemma quiet_set_training b : quiet (set_training b).
Proof. intros w [] w' [= <-]. done. Qed.

Lemma quiet_model_get_loss xy : quiet (model_get_loss xy).
Proof. intros w a w' [= _ <-]. done. Qed.

Lemma quiet_apply_optimizer xy : quiet (apply_optimizer xy).
Proof.
  intros w [] w'. unfold apply_optimizer.
  destruct (optimizer_step _ _ _). by intros [= <-].
Qed.

Lemma quiet_step_scheduler sch : quiet (step_scheduler sch).
Proof. intros w [] w' [= <-]. done. Qed.

Lemma quiet_py_mod a b : quiet (py_mod a b).
Proof. intros w r w' Hr. by apply py_mod_ok in Hr as (_ & _ & ->). Qed.

Lemma quiet_mean_loss tot n : quiet (mean_loss tot n).
Proof. intros w a w'. destruct n; [discriminate|]. by intros [= _ <-]. Qed.

Lemma quiet_py_assert b : quiet (py_assert b).
Proof. intros w [] w'. destruct b; [|discriminate]. by intros [= <-]. Qed.

Lemma quiet_for_enumerate {A St} (body : nat → A → St → io world St) l :
  (∀ i x s, quiet (body i x s)) → ∀ i s, quiet (for_enumerate body i l s).
Proof.
  intros Hbody. induction l as [|x l IH]; intros i s; simpl.
  - apply quiet_ret.
  - apply quiet_bind; [apply Hbody|]. intros s'. apply IH.
Qed.

End Marks.

Create HintDb quiet.

#[local] Hint Resolve quiet_ret quiet_set_training quiet_model_get_loss
  quiet_apply_optimizer quiet_step_scheduler quiet_py_mod quiet_mean_loss
  quiet_py_assert : quiet.

(** Proves [quiet] for a sequence of quiet steps. *)
Ltac quiet_steps :=
  repeat first
    [ apply quiet_bind; [|intros ?]
    | apply quiet_for_enumerate; intros ? ? ?
    | apply quiet_emit; reflexivity
    | solve [auto with quiet]
    | match goal with |- quiet (if ?b then _ else _) => destruct b end
    | match goal with |- quiet (match ?x with _ => _ end) => destruct x end ].

Section TestSchedule.
Context `{L : Learner}.
Import Trainer.

Lemma quiet_train_loop dl epoch scheduler write_freq :
  quiet (train_loop dl epoch scheduler write_freq).
Proof. unfold train_loop. quiet_steps. Qed.

Lemma quiet_validation_loop dl epoch write_freq :
  quiet (validation_loop dl epoch write_freq).
Proof. unfold validation_loop. quiet_steps. Qed.

Lemma test_loop_marks dl epoch write_freq (w : world) a w' :
  test_loop dl epoch write_freq w = (Ok a, w') →
  marks (trace w') = marks (trace w) ++ [TestPass epoch].
Proof.
  unfold test_loop. intros Hrun. io_ok Hrun.
  rewrite (quiet_mean_loss _ _ _ _ _ Hrun).
  unfold emit in Hstep2. injection Hstep2 as _ <-. cbn [trace].
  rewrite marks_app. cbn. f_equal.
  rewrite (quiet_mean_loss _ _ _ _ _ Hstep1).
  assert (quiet (for_enumerate (λ ibatch xy tot_loss,
    do loss <- model_get_loss xy;
    do r <- py_mod (Z.of_nat ibatch) write_freq;
    exec (if decide (r = 0) then emit (Printed Test epoch ibatch loss) else io_ret ());
    exec emit (AddScalar "Test Step Loss" loss
                 (epoch * Z.of_nat (length dl) + Z.of_nat ibatch));
    io_ret (tot_loss + loss)%float) 0%nat dl 0%float)) as Hloop by quiet_steps.
  rewrite (Hloop _ _ _ Hstep0). unfold set_training in Hstep.
  by injection Hstep as _ <-.
Qed.

Lemma quiet_delete_checkpoint p : quiet (delete_checkpoint p).
Proof.
  intros w [] w'. unfold delete_checkpoint. destruct (files w !! p); [|discriminate].
  intros [= <-]. cbn. rewrite marks_app. cbn. by rewrite app_nil_r.
Qed.

Lemma quiet_save_model epoch loss savedir tag : quiet (save_model epoch loss savedir tag).
Proof.
  intros w a w'. rewrite save_model_eq. intros [= _ <-]. cbn.
  rewrite marks_app. cbn. by rewrite app_nil_r.
Qed.

Lemma quiet_consider_checkpoint save_dir epoch curr best names :
  quiet (consider_checkpoint save_dir epoch curr best names).
Proof.
  unfold consider_checkpoint, py_getitem, io_lift.
  apply quiet_bind; [intros w a w' [= _ <-]; done|]. intros idx.
  apply quiet_bind; [destruct (best !! idx); [apply quiet_ret|by intros ???]|]. intros v.
  apply quiet_bind; [destruct (names !! idx); [apply quiet_ret|by intros ???]|]. intros on.
  destruct (curr <? v)%float; [|apply quiet_ret].
  apply quiet_bind.
  { destruct on; [apply quiet_delete_checkpoint|apply quiet_ret]. }
  intros _. apply quiet_bind; [apply quiet_save_model|]. intros ?. apply quiet_ret.
Qed.

Lemma fit_epoch_marks tr va te save_dir scheduler loss_metric write_freq test_freq
    prev_epochs epoch loc (w : world) loc' w' :
  fit_epoch tr va te save_dir scheduler loss_metric write_freq test_freq
    prev_epochs epoch loc w = (Ok loc', w') →
  marks (trace w') = marks (trace w) ++
    (if decide ((epoch + prev_epochs) `mod` test_freq = 0)
     then [TestPass (epoch + prev_epochs)] else []) ∧
  length (test_losses loc') = (length (test_losses loc) +
    (if decide ((epoch + prev_epochs) `mod` test_freq = 0)%Z then 1 else 0))%nat ∧
  true_epoch loc' = Some (epoch + prev_epochs).
Proof.
  unfold fit_epoch. intros Hrun. io_ok Hrun.
  destruct a3 as [best' names']. injection Hrun as <- <-. cbn.
  rewrite (quiet_consider_checkpoint _ _ _ _ _ _ _ _ Hstep3).
  apply py_mod_ok in Hstep1 as (_ & -> & ->).
  apply quiet_train_loop in Hstep. apply quiet_validation_loop in Hstep0.
  destruct (decide ((epoch + prev_epochs) `mod` test_freq = 0)).
  - io_ok Hstep2. injection Hstep2 as <- <-.
    apply test_loop_marks in Hstep1. rewrite Hstep1, Hstep0, Hstep.
    split; [done|]. split; [|done]. rewrite length_app. simpl. lia.
  - injection Hstep2 as <- <-. rewrite Hstep0, Hstep, app_nil_r.
    split; [done|]. split; [lia|done].
Qed.

Lemma fit_loop_marks tr va te save_dir scheduler loss_metric write_freq test_freq
    prev_epochs epochs : ∀ loc (w : world) loc' w',
  fit_loop tr va te save_dir scheduler loss_metric write_freq test_freq
    prev_epochs epochs loc w = (Ok loc', w') →
  marks (trace w') = marks (trace w) ++
    (TestPass <$> filter (λ e, e `mod` test_freq = 0)
                    ((λ epoch, epoch + prev_epochs) <$> epochs)) ∧
  length (test_losses loc') = (length (test_losses loc) +
    length (filter (λ e, e `mod` test_freq = 0)%Z
              ((λ epoch, epoch + prev_epochs)%Z <$> epochs)))%nat ∧
  true_epoch loc' = match last epochs with
                    | Some e => Some (e + prev_epochs)
                    | None => true_epoch loc
                    end.
Proof.
  unfold fit_loop. induction epochs as [|epoch epochs IH]; intros loc w loc' w' Hrun.
  - injection Hrun as <- <-. cbn. rewrite app_nil_r. split; [done|]. split; [lia|done].
  - cbn [for_each] in Hrun. apply io_bind_ok in Hrun as (loc1 & w1 & H1 & H2).
    apply fit_epoch_marks in H1 as (Hm1 & Hl1 & He1).
    apply IH in H2 as (Hm2 & Hl2 & He2).
    rewrite Hm2, Hm1, Hl2, Hl1, He2, He1. cbn [fmap list_fmap].
    rewrite filter_cons. case_decide.
    + split; [by rewrite <- app_assoc|]. split; [simpl; lia|].
      destruct epochs as [|e' l]; [done|].
      change (last (epoch :: e' :: l)) with (last (e' :: l)).
      destruct (last (e' :: l)) eqn:E; [done|]. by apply last_None in E.
    + rewrite app_nil_r. split; [done|]. split; [lia|].
      destruct epochs as [|e' l]; [done|].
      change (last (epoch :: e' :: l)) with (last (e' :: l)).
      destruct (last (e' :: l)) eqn:E; [done|]. by apply last_None in E.
Qed.

Lemma last_seqZ (n : Z) : 0 < n → last (seqZ 0 n) = Some (n - 1).
Proof.
  intros Hn. rewrite last_lookup, length_seqZ.
  rewrite lookup_seqZ_lt by lia. f_equal. lia.
Qed.

(** C3 (the code fails the claim): when [fit] returns, it ran at least one
    epoch, the loop ran the test split exactly at the true epochs divisible
    by [test_freq], and one more test pass ran at the last true epoch,
    whatever the frequency, so that the returned test history has one loss
    per test pass; but the writer was flushed and closed before that final
    test pass, not after it: the final pass reports its losses to the
    closed writer, and the run never leaves the marks in the order of the
    specification.  With [nepochs = 3], [test_freq = 10] and
    [prev_epochs = 0] the test split ran twice, the second time after the
    writer was closed, and the test history has length 2. *)
Theorem fit_tests_after_close train_dataloader val_dataloader test_dataloader nepochs
    save_dir scheduler top_checkpoints_n loss_metric write_freq test_freq
    prev_epochs (w : world) train_hist val_hist test_hist names w' :
  fit train_dataloader val_dataloader test_dataloader nepochs save_dir scheduler
      top_checkpoints_n loss_metric write_freq test_freq prev_epochs w
    = (Ok (train_hist, val_hist, test_hist, names), w') →
  0 < nepochs ∧
  marks (trace w') = marks (trace w)
    ++ (TestPass <$> tested_epochs nepochs test_freq prev_epochs)
    ++ [Flushed; Closed; TestPass (nepochs - 1 + prev_epochs)] ∧
  marks (trace w') ≠
    marks (trace w) ++ marks_as_specified nepochs test_freq prev_epochs ∧
  length test_hist = (length (tested_epochs nepochs test_freq prev_epochs) + 1)%nat ∧
  (nepochs = 3 → test_freq = 10 → prev_epochs = 0 →
   marks (trace w') = marks (trace w) ++ [TestPass 0; Flushed; Closed; TestPass 2] ∧
   length test_hist = 2%nat).
Proof.
  unfold fit. intros Hrun. io_ok Hrun.
  apply fit_loop_marks in Hstep as (Hm & Hl & He).
  assert (0 < nepochs) as Hn.
  { destruct (decide (0 < nepochs)) as [|Hle]; [done|]. exfalso.
    rewrite seqZ_nil in He by lia. unfold read_true_epoch in Hstep2.
    cbn in He. rewrite He in Hstep2. discriminate. }
  rewrite last_seqZ in He by done.
  unfold read_true_epoch in Hstep2. rewrite He in Hstep2. injection Hstep2 as <- <-.
  unfold emit in Hstep0, Hstep1. injection Hstep0 as _ <-. injection Hstep1 as _ <-.
  apply test_loop_marks in Hstep3. cbn [trace] in Hstep3.
  rewrite !marks_app in Hstep3. cbn in Hstep3.
  injection Hrun as <- <- <- <- <-.
  assert (marks (trace w5) = marks (trace w4)) as Hw'.
  { assert (quiet (if decide (Z.of_nat top_checkpoints_n ≤ nepochs)
                    then exec py_assert (bool_decide (None ∉ model_names a));
                         py_assert (forallb (λ b, b <? PyFloat.inf)%float (best_losses a))
                    else io_ret ())) as Hq by quiet_steps.
    exact (Hq _ _ _ Hstep4). }
  assert (marks (trace w5) = marks (trace w)
    ++ (TestPass <$> tested_epochs nepochs test_freq prev_epochs)
    ++ [Flushed; Closed; TestPass (nepochs - 1 + prev_epochs)]) as Hmarks.
  { rewrite Hw', Hstep3, Hm. unfold tested_epochs. by rewrite <- !app_assoc. }
  assert (length (test_losses a ++ [a3])
          = (length (tested_epochs nepochs test_freq prev_epochs) + 1)%nat) as Hlen.
  { rewrite length_app, Hl. unfold tested_epochs. cbn. lia. }
  split; [done|]. split; [done|]. split; [|split; [done|]].
  - rewrite Hmarks. unfold marks_as_specified.
    intros Heq. apply app_inv_head, app_inv_head in Heq. discriminate.
  - intros -> -> ->. rewrite Hmarks, Hlen. done.
Qed.

End TestSchedule.

(** The run [toy_fit] of three epochs with test frequency 10. *)
Lemma fit_tests_after_close_witness :
  toy_fit = (Ok ([1.5; 1.5; 1.5]%float, [3.0; 3.0; 3.0]%float, [5.0; 5.0]%float,
                 [Some "ckpt/model_epoch=0_loss=3.00000000.pt";
                  Some "ckpt/model_epoch=1_loss=3.00000000.pt"]), toy_fit.2) ∧
  (0 < 3 ∧
   marks (Trainer.trace toy_fit.2) = marks (Trainer.trace toy_world)
     ++ (TestPass <$> tested_epochs 3 10 0) ++ [Flushed; Closed; TestPass (3 - 1 + 0)] ∧
   marks (Trainer.trace toy_fit.2) ≠
     marks (Trainer.trace toy_world) ++ marks_as_specified 3 10 0 ∧
   length [5.0; 5.0]%float = (length (tested_epochs 3 10 0) + 1)%nat ∧
   (3 = 3 → 10 = 10 → 0 = 0 →
    marks (Trainer.trace toy_fit.2) = marks (Trainer.trace toy_world)
      ++ [TestPass 0; Flushed; Closed; TestPass 2] ∧
    length [5.0; 5.0]%float = 2%nat)).
Proof.
  split; [vm_compute; reflexivity|].
  apply (fit_tests_after_close (L := toy_learner) [1.0; 2.0]%float [3.0]%float
           [4.0; 6.0]%float 3 "ckpt" None 2 "val" 100 10 0 toy_world
           [1.5; 1.5; 1.5]%float [3.0; 3.0; 3.0]%float [5.0; 5.0]%float
           [Some "ckpt/model_epoch=0_loss=3.00000000.pt";
            Some "ckpt/model_epoch=1_loss=3.00000000.pt"] toy_fit.2).
  vm_compute. reflexivity.
Defined.

(** In [toy_fit] the writer is flushed and closed before the final test
    pass, which the specification orders before them. *)
Example fit_closes_before_final_test :
  is_ok toy_fit.1 = true ∧
  marks (Trainer.trace toy_fit.2) = [TestPass 0; Flushed; Closed; TestPass 2] ∧
  marks_as_specified 3 10 0 = [TestPass 0; TestPass 2; Flushed; Closed] ∧
  marks (Trainer.trace toy_fit.2) ≠ marks_as_specified 3 10 0.
Proof.
  split; [vm_compute; reflexivity|]. split; [vm_compute; reflexivity|].
  split; [vm_compute; reflexivity|]. vm_compute. discriminate.
Qed.

(** ** Padding of array predictions *)

Section Padding.
Import TopLevelUtils.

Lemma strip_pad_replicate c n : strip_pad c (replicate n c) = [].
Proof.
  induction n as [|n IH]; [done|]. cbn. rewrite IH. by rewrite decide_True.
Qed.

Lemma strip_pad_app_replicate c l n :
  strip_pad c (l ++ replicate n c) = strip_pad c l.
Proof.
  induction l as [|x l IH]; simpl.
  - apply strip_pad_replicate.
  - by rewrite IH.
Qed.

Lemma strip_pad_id c l : c ∉ l → strip_pad c l = l.
Proof.
  induction l as [|x l IH]; [done|]. intros Hc.
  apply not_elem_of_cons in Hc as [Hx Hl]. simpl. rewrite (IH Hl).
  destruct l; [by rewrite decide_False|done].
Qed.

Lemma strip_pad_padded c l n : c ∉ l → strip_pad c (l ++ replicate n c) = l.
Proof. intros Hc. by rewrite strip_pad_app_replicate, strip_pad_id. Qed.

Lemma foldl_app_mjoin {A} (p : list A) (ps : list (list A)) :
  foldl (λ x y, x ++ y) p ps = p ++ mjoin ps.
Proof.
  revert p. induction ps as [|q ps IH]; intros p; simpl.
  - by rewrite app_nil_r.
  - by rewrite IH, app_assoc.
Qed.

Lemma result_map_ok {A B} (f : A → result B) (g : A → B) (l : list A) :
  (∀ x, x ∈ l → f x = Ok (g x)) → result_map f l = Ok (g <$> l).
Proof.
  induction l as [|x l IH]; intros Hf; [done|]. simpl.
  rewrite (Hf x) by apply list_elem_of_here.
  rewrite IH; [done|]. intros y Hy. apply Hf. by apply list_elem_of_further.
Qed.

Lemma np_array2_ok {A} (rows : list (list A)) n :
  Forall (λ r, length r = n) rows → np_array2 rows = Ok rows.
Proof.
  intros Hrows. unfold np_array2.
  rewrite (proj2 (forallb_forall _ rows)); [done|].
  intros r Hr%list_elem_of_In. apply Nat.eqb_eq.
  destruct rows as [|r0 rows]; [by apply elem_of_nil in Hr|]. simpl.
  rewrite Forall_forall in Hrows.
  rewrite (Hrows r Hr), (Hrows r0); [done|apply list_elem_of_here].
Qed.

Lemma np_array3_ok {A} (blocks : list (list (list A))) sh :
  Forall (λ b, shape2 b = sh) blocks → np_array3 blocks = Ok blocks.
Proof.
  intros Hb. unfold np_array3. destruct blocks as [|b blocks]; [done|].
  rewrite (proj2 (forallb_forall _ (b :: blocks))); [done|].
  intros b' Hb'%list_elem_of_In. apply bool_decide_eq_true.
  rewrite Forall_forall in Hb.
  rewrite (Hb b' Hb'), (Hb b); [done|apply list_elem_of_here].
Qed.

Lemma pad_single_prediction_ok pred max_len :
  Forall (λ elem, (length elem ≤ max_len)%nat) pred →
  pad_single_prediction pred max_len pad_token = Ok (padded max_len pred) ∧
  Forall (λ row, length row = max_len) (padded max_len pred).
Proof.
  intros Hlen. rewrite Forall_forall in Hlen.
  assert (Forall (λ row, length row = max_len) (padded max_len pred)) as Hrows.
  { apply Forall_fmap, Forall_forall. intros elem Helem. simpl.
    rewrite length_app, length_replicate. specialize (Hlen elem Helem). lia. }
  split; [|done]. unfold pad_single_prediction.
  rewrite (result_map_ok _ (λ elem, elem ++ replicate (max_len - length elem) pad_token)).
  - by eapply np_array2_ok.
  - intros elem Helem. unfold np_pad_right.
    by rewrite (proj2 (Nat.leb_le _ _) (Hlen elem Helem)).
Qed.

Lemma create_group_ok name (groups : gmap string (gmap string h5data)) :
  groups !! name = None →
  create_group name (H5File groups) = (Ok (), H5File (<[name := ∅]> groups)).
Proof. intros Hn. unfold create_group. by rewrite Hn. Qed.

Lemma create_dataset_ok group name d (groups : gmap string (gmap string h5data)) g :
  groups !! group = Some g → g !! name = None →
  create_dataset group name d (H5File groups)
    = (Ok (), H5File (<[group := <[name := d]> g]> groups)).
Proof. intros Hg Hn. unfold create_dataset. by rewrite Hg, Hn. Qed.

Lemma find_max_length_ok (preds : list arr_record) k :
  preds ≠ [] → (0 < k)%nat → Forall (λ r : arr_record, length r.2 = k) preds →
  find_max_length preds.*2 = Ok (batch_max_len preds).
Proof.
  intros Hne Hk Hsame. unfold find_max_length, batch_max_len, all_sequences.
  destruct preds as [|[t p] preds]; [done|]. cbn [fmap list_fmap snd].
  rewrite foldl_app_mjoin. change (p ++ mjoin preds.*2) with (mjoin (p :: preds.*2)).
  apply Forall_cons in Hsame as [Hp _]. simpl in Hp.
  destruct p as [|e p]; [simpl in Hp; lia|]. done.
Qed.

(** C4, as amended: for a batch that has at least one record, the same
    number (at least one) of predictions in every record, equally long
    targets and no sequence element equal to the pad token, written to a
    group name the file does not have yet, [save_array_set] succeeds and
    stores under that name the targets, the pad token 999999 and the
    predictions, every sequence right-padded with the pad token to the
    length of the longest sequence of the whole batch; stripping the
    trailing pad tokens of every stored row gives back the sequences. *)
Theorem save_array_set_pads_and_strips (preds : list arr_record) savename groups k n :
  preds ≠ [] → (0 < k)%nat →
  Forall (λ r : arr_record, length r.2 = k) preds →
  Forall (λ r : arr_record, length r.1 = n) preds →
  Forall (λ r : arr_record, Forall (λ elem, pad_token ∉ elem) r.2) preds →
  groups !! savename = None →
  ∃ g (stored : list (list (list Z))),
    save_array_set preds savename (H5File groups)
      = (Ok (), H5File (<[savename := g]> groups)) ∧
    g !! "targets" = Some (H5Array2 preds.*1) ∧
    g !! "predictions" = Some (H5Array3 stored) ∧
    g !! "additional_pad_token" = Some (H5Int 999999) ∧
    stored = padded (batch_max_len preds) <$> preds.*2 ∧
    Forall (Forall (λ row, length row = batch_max_len preds)) stored ∧
    (∀ elem, elem ∈ all_sequences preds → (length elem ≤ batch_max_len preds)%nat) ∧
    (∃ elem, elem ∈ all_sequences preds ∧ length elem = batch_max_len preds) ∧
    strip_batch stored = preds.*2.
Proof.
  intros Hne Hk Hsame Htgt Hpad Hfresh.
  set (max_len := batch_max_len preds).
  assert (∀ elem, elem ∈ all_sequences preds → (length elem ≤ max_len)%nat) as Hle.
  { intros elem Helem. apply max_list_elem_of_le. by apply list_elem_of_fmap_2. }
  assert (∀ pred, pred ∈ preds.*2 → Forall (λ elem, (length elem ≤ max_len)%nat) pred)
    as Hle'.
  { intros pred Hpred. apply Forall_forall. intros elem Helem. apply Hle.
    unfold all_sequences. apply list_elem_of_join. by exists pred. }
  eexists _, (padded max_len <$> preds.*2).
  split; [|split; [|split; [|split; [|split; [|split; [|split; [|split]]]]]]].
  - assert (np_array2 preds.*1 = Ok preds.*1) as Htargets.
    { apply (np_array2_ok preds.*1 n), Forall_fmap.
      eapply Forall_impl; [exact Htgt|]. done. }
    assert (result_map (λ elem, pad_single_prediction elem max_len pad_token) preds.*2
            = Ok (padded max_len <$> preds.*2)) as Hpadded.
    { apply result_map_ok. intros pred Hpred.
      by apply pad_single_prediction_ok, Hle'. }
    assert (np_array3 (padded max_len <$> preds.*2) = Ok (padded max_len <$> preds.*2))
      as Hstack.
    { apply (np_array3_ok _ (k, max_len)), Forall_fmap, Forall_forall.
      intros pred Hpred. simpl.
      assert (length pred = k) as Hlen.
      { apply list_elem_of_fmap in Hpred as (r & -> & Hr).
        rewrite Forall_forall in Hsame. by apply Hsame. }
      destruct (pad_single_prediction_ok pred max_len (Hle' pred Hpred)) as [_ Hrows].
      unfold shape2, padded in *. rewrite length_fmap, Hlen. f_equal.
      destruct pred as [|e pred]; [simpl in Hlen; lia|].
      cbn [fmap list_fmap] in *. by apply Forall_cons in Hrows as [Hrow _]. }
    unfold save_array_set, io_lift.
    erewrite io_bind_step; [|by rewrite Htargets].
    erewrite io_bind_step; [|by rewrite (find_max_length_ok preds k)].
    fold max_len.
    erewrite io_bind_step; [|by rewrite Hpadded].
    erewrite io_bind_step; [|by rewrite Hstack].
    erewrite io_bind_step; [|by apply create_group_ok].
    erewrite io_bind_step;
      [|apply create_dataset_ok; [apply lookup_insert_eq|apply lookup_empty]].
    erewrite io_bind_step;
      [|apply create_dataset_ok;
        [apply lookup_insert_eq|by rewrite lookup_insert_ne, lookup_empty]].
    erewrite create_dataset_ok;
      [|apply lookup_insert_eq|by rewrite !lookup_insert_ne, lookup_empty].
    rewrite !insert_insert_eq. reflexivity.
  - rewrite !lookup_insert_ne by done. apply lookup_insert_eq.
  - rewrite lookup_insert_ne by done. apply lookup_insert_eq.
  - apply lookup_insert_eq.
  - reflexivity.
  - apply Forall_fmap, Forall_forall. intros pred Hpred.
    by apply pad_single_prediction_ok, Hle'.
  - exact Hle.
  - assert (length <$> all_sequences preds ≠ []) as Hne'.
    { destruct preds as [|[t [|e p]] preds]; [done| |done].
      apply Forall_cons in Hsame as [Hp _]. simpl in Hp. lia. }
    apply max_list_elem_of in Hne'. apply list_elem_of_fmap in Hne' as (elem & He & Helem).
    by exists elem.
  - unfold strip_batch. rewrite <- list_fmap_compose.
    transitivity (id <$> preds.*2); [|apply list_fmap_id].
    apply Forall_fmap_ext_1, Forall_forall. intros pred Hpred.
    unfold compose, padded. rewrite <- list_fmap_compose.
    transitivity (id <$> pred); [|apply list_fmap_id].
    apply Forall_fmap_ext_1, Forall_forall. intros elem Helem. simpl.
    apply strip_pad_padded.
    apply list_elem_of_fmap in Hpred as (r & -> & Hr).
    rewrite Forall_forall in Hpad. specialize (Hpad r Hr).
    rewrite Forall_forall in Hpad. by apply Hpad.
Qed.

End Padding.

(** The padding theorem on [toy_batch]. *)
Lemma save_array_set_pads_and_strips_witness :
  (toy_batch ≠ [] ∧ (0 < 1)%nat ∧
   Forall (λ r : TopLevelUtils.arr_record, length r.2 = 1%nat) toy_batch ∧
   Forall (λ r : TopLevelUtils.arr_record, length r.1 = 2%nat) toy_batch ∧
   Forall (λ r : TopLevelUtils.arr_record, Forall (λ elem, TopLevelUtils.pad_token ∉ elem) r.2) toy_batch ∧
   (∅ : gmap string (gmap string TopLevelUtils.h5data)) !! "test" = None) ∧
  ∃ g (stored : list (list (list Z))),
    TopLevelUtils.save_array_set toy_batch "test" (TopLevelUtils.H5File ∅)
      = (Ok (), TopLevelUtils.H5File (<["test" := g]> ∅)) ∧
    g !! "targets" = Some (TopLevelUtils.H5Array2 toy_batch.*1) ∧
    g !! "predictions" = Some (TopLevelUtils.H5Array3 stored) ∧
    g !! "additional_pad_token" = Some (TopLevelUtils.H5Int 999999) ∧
    stored = padded (batch_max_len toy_batch) <$> toy_batch.*2 ∧
    Forall (Forall (λ row, length row = batch_max_len toy_batch)) stored ∧
    (∀ elem, elem ∈ all_sequences toy_batch → (length elem ≤ batch_max_len toy_batch)%nat) ∧
    (∃ elem, elem ∈ all_sequences toy_batch ∧ length elem = batch_max_len toy_batch) ∧
    strip_batch stored = toy_batch.*2.
Proof.
  assert (Forall (λ r : TopLevelUtils.arr_record, length r.2 = 1%nat) toy_batch) as Hk
    by (repeat constructor).
  assert (Forall (λ r : TopLevelUtils.arr_record, length r.1 = 2%nat) toy_batch) as Hn
    by (repeat constructor).
  assert (Forall (λ r : TopLevelUtils.arr_record,
            Forall (λ elem, TopLevelUtils.pad_token ∉ elem) r.2) toy_batch) as Hpad.
  { repeat constructor; simpl; intros Hin; repeat (apply elem_of_cons in Hin as [Hin|Hin];
      [discriminate|]); by apply elem_of_nil in Hin. }
  split; [split; [done|]; split; [lia|]; split; [done|]; split; [done|]; split; [done|];
          apply lookup_empty|].
  apply (save_array_set_pads_and_strips toy_batch "test" ∅ 1 2);
    [done | lia | done | done | done | apply lookup_empty].
Defined.

(** C4, as stated, fails: on a batch without records, for which the
    conditions on the records hold trivially, [save_array_set] raises
    [TypeError] and stores nothing. *)
Lemma save_array_set_empty_batch_raises :
  Forall (λ r : TopLevelUtils.arr_record, length r.2 = 1%nat) [] ∧
  Forall (λ r : TopLevelUtils.arr_record, Forall (λ elem, TopLevelUtils.pad_token ∉ elem) r.2) [] ∧
  TopLevelUtils.save_array_set [] "val" (TopLevelUtils.H5File ∅)
    = (Raise TypeError, TopLevelUtils.H5File ∅).
Proof. split; [constructor|]. split; [constructor|]. reflexivity. Qed.

(** ** The predictions file *)

Section PredictionsFile.
Import TopLevelUtils.

Lemma save_str_set_text preds savename c :
  save_str_set preds savename (TextIO c) = (Raise (AttributeError "create_group"), TextIO c).
Proof. reflexivity. Qed.

Lemma save_array_set_text preds savename c :
  ∃ e, save_array_set preds savename (TextIO c) = (Raise e, TextIO c).
Proof.
  unfold save_array_set, io_bind, io_lift.
  destruct (np_array2 preds.*1); [|by eexists].
  destruct (find_max_length preds.*2); [|by eexists].
  destruct (result_map _ _); [|by eexists].
  destruct (np_array3 _); [|by eexists].
  by eexists.
Qed.

Lemma save_supplied_text {R} (save_fxn : list R → string → io file_obj unit)
    (train : list R) val test c :
  (∃ e, save_fxn train "train" (TextIO c) = (Raise e, TextIO c)) →
  ∃ e, save_supplied save_fxn (Some train) val test (TextIO c) = (Raise e, TextIO c).
Proof.
  intros [e He]. exists e. unfold save_supplied, io_bind. by rewrite He.
Qed.

(** C5 (the code fails the claim): [save_inference_predictions] opens the
    predictions file with [open], as a text file, which has no
    [create_group]; so it raises on every input, and for the train split
    [("CCO", ["CCO", "CCN"])] alone it leaves an empty text file without any
    named section, having raised [AttributeError]. *)
Theorem save_inference_predictions_raises :
  (∀ savedir p fs, ∃ e, (save_inference_predictions savedir p fs).1 = Raise e) ∧
  save_inference_predictions "out"
    (StrPredictions (Some [("CCO", ["CCO"; "CCN"])]) None None) ∅
  = (Raise (AttributeError "create_group"), {[ "out/predictions.h5" := TextIO "" ]}).
Proof.
  split; [|reflexivity].
  intros savedir [train val test|train val test] fs; unfold save_inference_predictions;
    (destruct train as [[|x train]|]; [by eexists| |by eexists]); cbn [first_element].
  - unfold io_bind, io_ret, with_open_w.
    destruct (save_supplied_text save_str_set (x :: train) val test "") as [e ->];
      [|by eexists].
    eexists. apply save_str_set_text.
  - unfold io_bind, io_ret, with_open_w.
    destruct (save_supplied_text save_array_set (x :: train) val test "") as [e ->];
      [|by eexists].
    apply save_array_set_text.
Qed.

End PredictionsFile.

(** ** Multiplication by one on binary64 floats *)

Section FloatOne.

Lemma digits2_pos_shift (m : positive) (k : nat) :
  Z.pos (digits2_pos (Nat.iter k xO m)) = Z.pos (digits2_pos m) + Z.of_nat k.
Proof.
  induction k as [|k IH]; [cbn; lia|].
  change (Nat.iter (S k) xO m) with (xO (Nat.iter k xO m)).
  cbn [digits2_pos]. rewrite Pos2Z.inj_succ, IH. lia.
Qed.

Lemma iter_shr_1_shift (m : positive) (k : nat) :
  Nat.iter k shr_1 {| shr_m := Z.pos (Nat.iter k xO m); shr_r := false; shr_s := false |}
  = {| shr_m := Z.pos m; shr_r := false; shr_s := false |}.
Proof.
  induction k as [|k IH]; [done|].
  rewrite Nat.iter_succ_r.
  change (Nat.iter (S k) xO m) with (xO (Nat.iter k xO m)). cbn [shr_1]. exact IH.
Qed.

Lemma SF64mul_one_l (x : spec_float) :
  valid_binary x = true → SF64mul (Prim2SF 1) x = x.
Proof.
  intros Hx.
  change (Prim2SF 1) with (S754_finite false 4503599627370496 (-52)).
  destruct x as [s|s| |s m e]; try reflexivity.
  unfold SF64mul, SFmul.
  change (4503599627370496 * m)%positive with (Nat.iter 52 xO m).
  cbn [xorb].
  cbn [SpecFloat.valid_binary] in Hx. unfold bounded, canonical_mantissa in Hx.
  apply andb_prop in Hx as [Hcan Hle]. apply Z.eqb_eq in Hcan.
  unfold binary_round_aux, shr_fexp.
  cbn [Zdigits2]. rewrite (digits2_pos_shift m 52).
  replace (Z.pos (digits2_pos m) + Z.of_nat 52 + (-52 + e))
    with (Z.pos (digits2_pos m) + e) by lia.
  rewrite Hcan.
  replace (e - (-52 + e)) with 52 by lia.
  cbn [shr shr_record_of_loc].
  match goal with |- context [SpecFloat.iter_pos ?f 52%positive ?r] =>
    change (SpecFloat.iter_pos f 52%positive r) with (Nat.iter 52 shr_1 r) end.
  rewrite (iter_shr_1_shift m 52).
  cbn [shr_m loc_of_shr_record round_nearest_even Zdigits2].
  replace (-52 + e + 52) with e by lia.
  rewrite Hcan, Z.sub_diag. cbn [shr shr_m].
  by rewrite Hle.
Qed.

Lemma float_mul_one_l (x : float) : (1 * x)%float = x.
Proof.
  apply FloatAxioms.Prim2SF_inj. rewrite FloatAxioms.mul_spec.
  apply SF64mul_one_l, FloatAxioms.Prim2SF_valid.
Qed.

End FloatOne.

#[export] Instance float_scalar_laws (bce : float → float → float) :
  @ScalarLaws float (float_scalar bce).
Proof. split. exact float_mul_one_l. Qed.

#[export] Instance Qc_scalar_laws : @ScalarLaws Qc Qc_scalar.
Proof. split. exact Qcmult_1_l. Qed.

(** ** The substructure loss *)

Section Loss.
Context {F : Type} `{Scalar F}.
Import LossFxns.

#[local] Arguments sum_upto : simpl never.
#[local] Arguments broadcast_dim : simpl never.
#[local] Arguments broadcast_index : simpl never.

(** torch's sum over the elements in order is the sum taken from zero. *)
Lemma sum_upto_total n (f : nat → F) : sum_upto n f = total n f.
Proof.
  unfold sum_upto. induction n as [|n IH]; [done|].
  rewrite seq_S, fmap_app, foldl_app, IH. done.
Qed.

Lemma total_ext n (f g : nat → F) :
  (∀ j, (j < n)%nat → f j = g j) → total n f = total n g.
Proof.
  induction n as [|n IH]; intros Hfg; [done|].
  cbn. rewrite IH, Hfg by (intros; try apply Hfg; lia). done.
Qed.

Lemma broadcast_dim_same n : broadcast_dim n n = Some n.
Proof. unfold broadcast_dim. by rewrite decide_True. Qed.

Lemma broadcast_index_lt m i : (i < m)%nat → broadcast_index m i = i.
Proof. unfold broadcast_index. case_decide; lia. Qed.

(** Without weights: the criterion's exceptions, then the assertion on the
    class dimension, then the sum of the class-wise means. *)
Lemma subs_weighted_BCE_None (y_pred y_true : tensor2 F) reduction :
  shape y_true = shape y_pred →
  subs_weighted_BCE y_pred y_true None reduction =
    if all_entries in_unit y_pred then
      if decide (cols y_pred = 957%nat) then
        Ok (total (cols y_pred) (λ j,
              average (rows y_pred) (λ i,
                fmul fone (bce (entry y_pred i j) (entry y_true i j)))))
      else Raise AssertionError
    else Raise RuntimeError.
Proof.
  intros Hshape. unfold subs_weighted_BCE, criterion.
  rewrite bool_decide_eq_true_2 by done. cbn [negb].
  destruct (all_entries in_unit y_pred); [|done]. cbn.
  unfold shape1. cbn. case_decide; [|done].
  unfold tsum. cbn. rewrite sum_upto_total. f_equal.
  apply total_ext. intros j _. unfold average. by rewrite sum_upto_total.
Qed.

(** With weights of the shape of the inputs and one more dimension of
    size two. *)
Lemma subs_weighted_BCE_Some (y_pred y_true : tensor2 F) (weights : tensor3 F)
    reduction :
  shape y_true = shape y_pred →
  shape3 weights = (rows y_pred, cols y_pred, 2%nat) →
  subs_weighted_BCE y_pred y_true (Some weights) reduction =
    if all_entries in_unit y_pred then
      if decide (cols y_pred = 957%nat) then
        Ok (total (cols y_pred) (λ j,
              average (rows y_pred) (λ i,
                fmul (fadd (fmul (entry y_true i j) (entry3 weights i j 1))
                           (fmul (fsub fone (entry y_true i j))
                                 (entry3 weights i j 0)))
                     (bce (entry y_pred i j) (entry y_true i j)))))
      else Raise AssertionError
    else Raise RuntimeError.
Proof.
  intros Hshape Hweights. unfold subs_weighted_BCE, criterion.
  rewrite bool_decide_eq_true_2 by done. cbn [negb].
  destruct (all_entries in_unit y_pred); [|done].
  destruct y_pred as [B C pred], y_true as [B' C' true_],
    weights as [d0 d1 d2 ws].
  unfold shape, shape3 in *. cbn in Hshape, Hweights.
  injection Hshape as -> ->. injection Hweights as -> -> ->.
  cbn. unfold tmul, tadd, elementwise, slice_last. cbn.
  repeat (rewrite broadcast_dim_same; cbn).
  unfold shape1. cbn. case_decide; [|done].
  unfold tsum. cbn. rewrite sum_upto_total. f_equal.
  apply total_ext. intros j Hj. unfold average. rewrite sum_upto_total. f_equal.
  apply total_ext. intros i Hi.
  by rewrite !(broadcast_index_lt B i), !(broadcast_index_lt C j).
Qed.




End Loss.





(** On binary64 floats the unit weight of the labels 0 and 1 is exactly
    one, and that of a target as large as 1e17 is zero. *)
Example float_unit_weight (bce : float → float → float) :
  unit_weight (H := float_scalar bce) 0%float = 1%float ∧
  unit_weight (H := float_scalar bce) 1%float = 1%float ∧
  unit_weight (H := float_scalar bce) 1e17%float = 0%float.
Proof. repeat split; reflexivity. Qed.


(** ** The slots during a whole run *)

Section SlotsInFit.
Context `{L : Learner}.
Import Trainer.

Lemma consider_checkpoint_keeps_slots K save_dir epoch curr best names (w : world)
    best' names' w' :
  slots_ok K best names →
  consider_checkpoint save_dir epoch curr best names w = (Ok (best', names'), w') →
  slots_ok K best' names'.
Proof.
  intros Hok Hrun. unfold consider_checkpoint in Hrun.
  apply io_bind_ok in Hrun as (idx & w1 & _ & Hrun).
  apply io_bind_ok in Hrun as (v & w2 & _ & Hrun).
  apply io_bind_ok in Hrun as (on & w3 & _ & Hrun).
  destruct (curr <? v)%float eqn:Hlt.
  - io_ok Hrun. injection Hrun as <- <- _. by eapply slots_ok_insert.
  - by injection Hrun as <- <- _.
Qed.

Lemma fit_epoch_keeps_slots K tr va te save_dir scheduler loss_metric write_freq
    test_freq prev_epochs epoch loc (w : world) loc' w' :
  slots_ok K (best_losses loc) (model_names loc) →
  fit_epoch tr va te save_dir scheduler loss_metric write_freq test_freq
    prev_epochs epoch loc w = (Ok loc', w') →
  slots_ok K (best_losses loc') (model_names loc').
Proof.
  intros Hok Hrun. unfold fit_epoch in Hrun. io_ok Hrun.
  destruct a3 as [best' names']. injection Hrun as <- <-. cbn.
  by eapply consider_checkpoint_keeps_slots.
Qed.

Lemma fit_loop_keeps_slots K tr va te save_dir scheduler loss_metric write_freq
    test_freq prev_epochs epochs : ∀ loc (w : world) loc' w',
  slots_ok K (best_losses loc) (model_names loc) →
  fit_loop tr va te save_dir scheduler loss_metric write_freq test_freq
    prev_epochs epochs loc w = (Ok loc', w') →
  slots_ok K (best_losses loc') (model_names loc').
Proof.
  unfold fit_loop. induction epochs as [|epoch epochs IH]; intros loc w loc' w' Hok Hrun.
  - by injection Hrun as <- <-.
  - cbn [for_each] in Hrun. apply io_bind_ok in Hrun as (loc1 & w1 & H1 & H2).
    eapply IH; [|exact H2]. by eapply fit_epoch_keeps_slots.
Qed.

(** Whatever the run, [fit] returns exactly [top_checkpoints_n] file-name
    entries. *)
Lemma fit_returns_all_slots tr va te nepochs save_dir scheduler top_checkpoints_n
    loss_metric write_freq test_freq prev_epochs (w : world) hist names w' :
  fit tr va te nepochs save_dir scheduler top_checkpoints_n loss_metric
      write_freq test_freq prev_epochs w = (Ok (hist, names), w') →
  length names = top_checkpoints_n.
Proof.
  unfold fit. intros Hrun. io_ok Hrun. injection Hrun as _ <- _.
  apply (fit_loop_keeps_slots top_checkpoints_n) in Hstep; [by destruct Hstep|].
  apply slots_ok_init.
Qed.

End SlotsInFit.

(** ** Runs on concrete inputs *)

Example format_f_half : PyFloat.format_f 8 0.5 = "0.50000000".
Proof. vm_compute. reflexivity. Qed.

Example format_f_rounds : PyFloat.format_f 8 0.123456789 = "0.12345679".
Proof. vm_compute. reflexivity. Qed.

Example format_f_tie_to_even : PyFloat.format_f 8 0.001953125 = "0.00195312".
Proof. vm_compute. reflexivity. Qed.

Example format_f_negative_small : PyFloat.format_f 8 (-1.5e-10) = "-0.00000000".
Proof. vm_compute. reflexivity. Qed.

Example format_f_specials :
  PyFloat.format_f 8 infinity = "inf" ∧ PyFloat.format_f 8 neg_infinity = "-inf" ∧
  PyFloat.format_f 8 nan = "nan".
Proof. vm_compute. done. Qed.

Example argmax_first_of_ties : Np.argmax [infinity; 3.0; infinity]%float = Ok 0%nat.
Proof. reflexivity. Qed.

Example argmax_nan_wins : Np.argmax [1.0; nan; infinity]%float = Ok 1%nat.
Proof. reflexivity. Qed.

Example argmax_empty : Np.argmax [] = Raise ValueError.
Proof. reflexivity. Qed.

(** The sequences of lengths 3, 5 and 2 are stored with width 5, and the
    third row strips back to its two elements. *)
Example toy_batch_stored :
  match (TopLevelUtils.save_array_set toy_batch "test" (TopLevelUtils.H5File ∅)).2 with
  | TopLevelUtils.H5File groups => groups !! "test" ≫= (.!! "predictions")
  | TopLevelUtils.TextIO _ => None
  end
  = Some (TopLevelUtils.H5Array3
            [[[1; 2; 3; 999999; 999999]]; [[4; 5; 6; 7; 8]];
             [[9; 10; 999999; 999999; 999999]]]) ∧
  strip_pad 999999 [9; 10; 999999; 999999; 999999] = [9; 10].
Proof. vm_compute. done. Qed.

(** Records with different numbers of predictions cannot be stacked. *)
Example unequal_prediction_counts_raise :
  (TopLevelUtils.save_array_set [([1], [[1; 2]]); ([2], [[3]; [4]])] "test"
     (TopLevelUtils.H5File ∅)).1 = Raise ValueError.
Proof. vm_compute. reflexivity. Qed.

(** A run of [fit] whose metric is NaN fills no slot, and the final
    assertion fails after the final test pass. *)
Example fit_nan_metric_fails_assertion :
  (Trainer.fit (L := toy_learner) [1.0]%float [nan]%float [2.0]%float
     1 "ckpt" None 1 "val" 100 10 0 toy_world).1 = Raise AssertionError.
Proof. vm_compute. reflexivity. Qed.

(** A zero test frequency is a division by zero in the first epoch. *)
Example fit_zero_test_freq :
  (Trainer.fit (L := toy_learner) [1.0]%float [1.0]%float [2.0]%float
     1 "ckpt" None 1 "val" 100 0 0 toy_world).1 = Raise ZeroDivisionError.
Proof. vm_compute. reflexivity. Qed.

(** * Further properties *)

(** ** Reasoning with [hoare] *)

Section HoareFacts.
Context {W : Type}.

Lemma hoare_ret {A} (P : W → Prop) (a : A) (Q : A → W → Prop) E :
  (∀ w, P w → Q a w) → hoare P (io_ret a) Q E.
Proof. intros HQ w HP. by apply HQ. Qed.

Lemma hoare_bind {A B} (P : W → Prop) (m : io W A) (k : A → io W B)
    (Q : A → W → Prop) (R : B → W → Prop) E :
  hoare P m Q E → (∀ a, hoare (Q a) (k a) R E) → hoare P (io_bind m k) R E.
Proof.
  intros Hm Hk w HP. specialize (Hm w HP). unfold io_bind.
  destruct (m w) as [[a|e] w1]; [|done]. by apply Hk.
Qed.

Lemma hoare_conseq {A} (P P' : W → Prop) (m : io W A)
    (Q Q' : A → W → Prop) (E E' : exn → W → Prop) :
  hoare P' m Q' E' → (∀ w, P w → P' w) → (∀ a w, Q' a w → Q a w) →
  (∀ e w, E' e w → E e w) → hoare P m Q E.
Proof.
  intros Hm HP HQ HE w Hw. specialize (Hm w (HP w Hw)).
  destruct (m w) as [[a|e] w1]; auto.
Qed.

Lemma hoare_for_enumerate {A St} (I : nat → St → W → Prop) E
    (body : nat → A → St → io W St) l :
  (∀ i x s, hoare (I i s) (body i x s) (I (S i)) E) →
  ∀ i s, hoare (I i s) (for_enumerate body i l s) (I (i + length l)%nat) E.
Proof.
  intros Hbody. induction l as [|x l IH]; intros i s; simpl.
  - apply hoare_ret. intros w Hw. by rewrite Nat.add_0_r.
  - eapply hoare_bind; [apply Hbody|]. intros s'.
    replace (i + S (length l))%nat with (S i + length l)%nat by lia. apply IH.
Qed.

Lemma hoare_for_each {A St} (I : nat → St → W → Prop) E
    (body : A → St → io W St) (l : list A) :
  (∀ i x s, l !! i = Some x → hoare (I i s) (body x s) (I (S i)) E) →
  ∀ s, hoare (I 0%nat s) (for_each body l s) (I (length l)) E.
Proof.
  intros Hbody.
  assert (∀ suf pre s, l = pre ++ suf →
    hoare (I (length pre) s) (for_each body suf s) (I (length l)) E) as Hgen.
  { induction suf as [|x suf IH]; intros pre s Hl.
    - rewrite Hl, app_nil_r. cbn. by apply hoare_ret.
    - cbn. eapply hoare_bind.
      + apply Hbody. rewrite Hl. by rewrite lookup_app_r, Nat.sub_diag.
      + intros s'. specialize (IH (pre ++ [x]) s').
        rewrite length_app in IH. cbn in IH.
        replace (length pre + 1)%nat with (S (length pre)) in IH by lia.
        apply IH. by rewrite <- app_assoc. }
  intros s. by apply (Hgen l []).
Qed.

Lemma io_bind_fail {A B} (m : io W A) (k : A → io W B) w e w1 :
  m w = (Raise e, w1) → io_bind m k w = (Raise e, w1).
Proof. unfold io_bind. by intros ->. Qed.

Lemma hoare_pure {A} (P : W → Prop) (fact : Prop) (m : io W A) Q E :
  (fact → hoare P m Q E) → hoare (λ w, P w ∧ fact) m Q E.
Proof. intros Hm w [HP Hfact]. by apply Hm. Qed.

End HoareFacts.

(** Splits the specification of a sequence of steps that all keep the
    invariant [J] into one specification per step. *)
Ltac hoare_seq J :=
  repeat first
    [ simple eapply (hoare_bind _ _ _ (λ _, J)); [|intros ?]
    | match goal with |- hoare _ (if ?b then _ else _) _ _ => destruct b end
    | match goal with |- hoare _ (match ?x with _ => _ end) _ _ => destruct x end ].

(** ** What the three loops leave alone *)

Section LoopFrames.
Context `{L : Learner}.
Import Trainer.

Lemma file_events_app tr1 tr2 :
  file_events (tr1 ++ tr2) = file_events tr1 ++ file_events tr2.
Proof. apply omap_app. Qed.

Lemma scalars_app tag tr1 tr2 :
  scalars tag (tr1 ++ tr2) = scalars tag tr1 ++ scalars tag tr2.
Proof. apply omap_app. Qed.

Lemma hoare_emit J ev E :
  ignores_events J → file_event_of ev = None → hoare J (emit ev) (λ _, J) E.
Proof. intros HJ Hev [m t o f tr] Hw. cbn. by apply HJ. Qed.

Lemma hoare_model_get_loss (J : world → Prop) xy E :
  hoare J (model_get_loss xy) (λ _, J) E.
Proof. by intros w Hw. Qed.

Lemma hoare_apply_optimizer J xy E :
  ignores_training J → hoare J (apply_optimizer xy) (λ _, J) E.
Proof.
  intros HJ [m t o f tr] Hw. unfold apply_optimizer. cbn.
  destruct (optimizer_step m o xy) as [m' o']. by apply (HJ m t o f tr).
Qed.

Lemma hoare_step_scheduler J sch E :
  ignores_training J → hoare J (step_scheduler sch) (λ _, J) E.
Proof. intros HJ [m t o f tr] Hw. cbn. by apply (HJ m t o f tr). Qed.

Lemma hoare_py_mod (J : world → Prop) a b :
  hoare J (py_mod a b) (λ _, J) (λ e w, J w ∧ e = ZeroDivisionError).
Proof. intros w Hw. unfold py_mod. by case_decide. Qed.

Lemma hoare_mean_loss (J : world → Prop) tot n :
  hoare J (mean_loss tot n) (λ _, J) (λ e w, J w ∧ e = ZeroDivisionError).
Proof. intros w Hw. by destruct n. Qed.

(** The writer's scalars, the progress lines and the flush and close are no
    file events. *)
Ltac hoare_loop_steps J HJ HT :=
  hoare_seq J;
  lazymatch goal with
  | |- hoare _ (model_get_loss _) _ _ => exact (hoare_model_get_loss _ _ _)
  | |- hoare _ (py_mod _ _) _ _ => exact (hoare_py_mod _ _ _)
  | |- hoare _ (mean_loss _ _) _ _ => exact (hoare_mean_loss _ _ _)
  | |- hoare _ (emit _) _ _ => refine (hoare_emit _ _ _ HJ _); reflexivity
  | |- hoare _ (apply_optimizer _) _ _ => exact (hoare_apply_optimizer _ _ _ HT)
  | |- hoare _ (step_scheduler _) _ _ => exact (hoare_step_scheduler _ _ _ HT)
  | |- hoare _ (io_ret _) _ _ => apply hoare_ret; by intros
  end.

Lemma hoare_validation_loop (P J : world → Prop) dl epoch write_freq :
  (∀ m t o f tr, P (World m t o f tr) → J (World m false o f tr)) →
  ignores_events J →
  hoare P (validation_loop dl epoch write_freq) (λ _, J)
    (λ e w, J w ∧ e = ZeroDivisionError).
Proof.
  intros HP HJ. unfold validation_loop.
  eapply (hoare_bind _ _ _ (λ _, J)); [intros [m t o f tr] Hw; cbn; by apply (HP m t)|].
  intros _.
  eapply hoare_bind.
  { apply (hoare_for_enumerate (λ _ _, J)). intros i x s. hoare_loop_steps J HJ HJ. }
  intros tot. hoare_loop_steps J HJ HJ.
Qed.

Lemma hoare_test_loop (P J : world → Prop) dl epoch write_freq :
  (∀ m t o f tr, P (World m t o f tr) → J (World m false o f tr)) →
  ignores_events J →
  hoare P (test_loop dl epoch write_freq) (λ _, J)
    (λ e w, J w ∧ e = ZeroDivisionError).
Proof.
  intros HP HJ. unfold test_loop.
  eapply (hoare_bind _ _ _ (λ _, J)); [intros [m t o f tr] Hw; cbn; by apply (HP m t)|].
  intros _.
  eapply hoare_bind.
  { apply (hoare_for_enumerate (λ _ _, J)). intros i x s. hoare_loop_steps J HJ HJ. }
  intros tot. hoare_loop_steps J HJ HJ.
Qed.

Lemma hoare_train_loop (P J : world → Prop) dl epoch scheduler write_freq :
  (∀ m t o f tr, P (World m t o f tr) → J (World m true o f tr)) →
  ignores_events J → ignores_training J →
  hoare P (train_loop dl epoch scheduler write_freq) (λ _, J)
    (λ e w, J w ∧ e = ZeroDivisionError).
Proof.
  intros HP HJ HT. unfold train_loop.
  eapply (hoare_bind _ _ _ (λ _, J)); [intros [m t o f tr] Hw; cbn; by apply (HP m t)|].
  intros _.
  eapply hoare_bind.
  { apply (hoare_for_enumerate (λ _ _, J)). intros i x s. hoare_loop_steps J HJ HT. }
  intros tot. hoare_loop_steps J HJ HT.
Qed.

Lemma hoare_run {A} (P : world → Prop) (m : io world A) Q E w :
  hoare P m Q E → P w →
  match (m w).1 with Ok a => Q a (m w).2 | Raise e => E e (m w).2 end.
Proof. intros Hm HP. specialize (Hm w HP). by destruct (m w) as [[a|e] w']. Qed.

(** X1: whether they return or raise, a validation pass and a test pass
    change neither the parameters, nor the optimizer, nor the files; they
    leave the model in evaluation mode and only add writer and print events
    to the trace. *)
Theorem evaluation_loops_frame dl epoch write_freq (w : world) :
  evaluation_frame w (validation_loop dl epoch write_freq w) ∧
  evaluation_frame w (test_loop dl epoch write_freq w).
Proof.
  set (J := λ w' : world,
    model w' = model w ∧ optimizer w' = optimizer w ∧ files w' = files w ∧
    training w' = false ∧ ∃ tr, trace w' = trace w ++ tr ∧ file_events tr = []).
  assert (∀ m t o f tr, World m t o f tr = w → J (World m false o f tr)) as HP.
  { intros m t o f tr <-. repeat split. exists []. by rewrite app_nil_r. }
  assert (ignores_events J) as HJ.
  { intros m t o f tr ev Hev (? & ? & ? & ? & tr' & Htr & Hfs). repeat split; try done.
    exists (tr' ++ [ev]). cbn in *. rewrite Htr, <- app_assoc. split; [done|].
    rewrite file_events_app, Hfs. cbn. by rewrite Hev. }
  split.
  - pose proof (hoare_run _ _ _ _ w
      (hoare_validation_loop (λ w0, w0 = w) J dl epoch write_freq HP HJ) eq_refl) as Hrun.
    unfold evaluation_frame.
    destruct (validation_loop dl epoch write_freq w) as [[a|e] w']; cbn in *.
    + exact Hrun.
    + exact (proj1 Hrun).
  - pose proof (hoare_run _ _ _ _ w
      (hoare_test_loop (λ w0, w0 = w) J dl epoch write_freq HP HJ) eq_refl) as Hrun.
    unfold evaluation_frame.
    destruct (test_loop dl epoch write_freq w) as [[a|e] w']; cbn in *.
    + exact Hrun.
    + exact (proj1 Hrun).
Qed.

(** X2: whether it returns or raises, a training pass changes no file; it
    leaves the model in training mode and only adds writer and print events
    to the trace. *)
Theorem train_loop_frame dl epoch scheduler write_freq (w : world) :
  training_frame w (train_loop dl epoch scheduler write_freq w).
Proof.
  set (J := λ w' : world,
    files w' = files w ∧ training w' = true ∧
    ∃ tr, trace w' = trace w ++ tr ∧ file_events tr = []).
  assert (∀ m t o f tr, World m t o f tr = w → J (World m true o f tr)) as HP.
  { intros m t o f tr <-. repeat split. exists []. by rewrite app_nil_r. }
  assert (ignores_events J) as HJ.
  { intros m t o f tr ev Hev (? & ? & tr' & Htr & Hfs). repeat split; try done.
    exists (tr' ++ [ev]). cbn in *. rewrite Htr, <- app_assoc. split; [done|].
    rewrite file_events_app, Hfs. cbn. by rewrite Hev. }
  assert (ignores_training J) as HT by (by intros m t o f tr m' o' ?).
  pose proof (hoare_run _ _ _ _ w
    (hoare_train_loop (λ w0, w0 = w) J dl epoch scheduler write_freq HP HJ HT) eq_refl) as Hrun.
  unfold training_frame.
  destruct (train_loop dl epoch scheduler write_freq w) as [[a|e] w']; cbn in *.
  - exact Hrun.
  - exact (proj1 Hrun).
Qed.

End LoopFrames.

(** ** What the three loops compute *)

Section LoopResults.
Context `{L : Learner}.
Import Trainer.

Lemma prints_app tr1 tr2 : prints (tr1 ++ tr2) = prints tr1 ++ prints tr2.
Proof. apply omap_app. Qed.

Lemma evaluation_batches sp step_tag avg_tag (epoch : Z) (n : nat) write_freq :
  write_freq ≠ 0 → step_tag ≠ avg_tag → ∀ dl i tot (w : world), ∃ tr,
    for_enumerate (λ ibatch xy tot_loss,
      do loss <- model_get_loss xy;
      do r <- py_mod (Z.of_nat ibatch) write_freq;
      exec (if decide (r = 0) then emit (Printed sp epoch ibatch loss) else io_ret ());
      exec emit (AddScalar step_tag loss (epoch * Z.of_nat n + Z.of_nat ibatch));
      io_ret (tot_loss + loss)%float) i dl tot w
    = (Ok (foldl PrimFloat.add tot (get_loss (training w) (model w) <$> dl)),
       World (model w) (training w) (optimizer w) (files w) (trace w ++ tr)) ∧
    scalars step_tag tr =
      zip (get_loss (training w) (model w) <$> dl)
          ((λ ibatch : nat, epoch * Z.of_nat n + Z.of_nat ibatch) <$> seq i (length dl)) ∧
    scalars avg_tag tr = [] ∧
    prints tr =
      (λ il : nat * float, (sp, epoch, il.1, il.2)) <$>
        filter (λ il : nat * float, Z.of_nat il.1 `mod` write_freq = 0)
               (zip (seq i (length dl)) (get_loss (training w) (model w) <$> dl)).
Proof.
  intros Hwf Htag. induction dl as [|xy dl IH]; intros i tot [m t o f tr0].
  { exists []. cbn. by rewrite app_nil_r. }
  set (loss := get_loss t m xy).
  set (evs := (if decide (Z.of_nat i `mod` write_freq = 0)
               then [Printed sp epoch i loss] else [])
              ++ [AddScalar step_tag loss (epoch * Z.of_nat n + Z.of_nat i)]).
  destruct (IH (S i) (tot + loss)%float (World m t o f (tr0 ++ evs)))
    as (tr & Hrun & Hstep & Havg & Hpr).
  exists (evs ++ tr). cbn [for_enumerate]. split; [|split; [|split]].
  - erewrite io_bind_step; [rewrite app_assoc; exact Hrun|].
    unfold io_bind, model_get_loss, py_mod. cbn. rewrite decide_False by done.
    cbn. unfold evs, loss. case_decide; cbn; by rewrite <- ?app_assoc.
  - rewrite scalars_app. cbn in Hstep. rewrite Hstep. unfold evs.
    case_decide; cbn; by rewrite decide_True.
  - rewrite scalars_app, Havg. unfold evs.
    case_decide; cbn; by rewrite decide_False.
  - rewrite prints_app. cbn in Hpr. rewrite Hpr. unfold evs. cbn.
    case_decide; reflexivity.
Qed.

Lemma losses_along_length scheduler dl : ∀ s,
  length (losses_along scheduler s dl) = length dl.
Proof. induction dl as [|xy dl IH]; intros s; cbn; [done|]. by rewrite IH. Qed.

Lemma training_batches scheduler (epoch : Z) (n : nat) write_freq :
  write_freq ≠ 0 → ∀ dl i tot m o f tr0, ∃ tr,
    for_enumerate (λ ibatch xy tot_loss,
      do loss <- model_get_loss xy;
      exec apply_optimizer xy;
      exec match scheduler with
           | Some sch => step_scheduler sch
           | None => io_ret ()
           end;
      do r <- py_mod (Z.of_nat ibatch) write_freq;
      exec (if decide (r = 0) then emit (Printed Train epoch ibatch loss) else io_ret ());
      exec emit (AddScalar "Training Step Loss" loss (epoch * Z.of_nat n + Z.of_nat ibatch));
      io_ret (tot_loss + loss)%float) i dl tot (World m true o f tr0)
    = (Ok (foldl PrimFloat.add tot (losses_along scheduler (m, o) dl)),
       World (foldl (train_step scheduler) (m, o) dl).1 true
             (foldl (train_step scheduler) (m, o) dl).2 f (tr0 ++ tr)) ∧
    scalars "Training Step Loss" tr =
      zip (losses_along scheduler (m, o) dl)
          ((λ ibatch : nat, epoch * Z.of_nat n + Z.of_nat ibatch) <$> seq i (length dl)) ∧
    scalars "Avg. Epoch Train Loss" tr = [] ∧
    prints tr =
      (λ il : nat * float, (Train, epoch, il.1, il.2)) <$>
        filter (λ il : nat * float, Z.of_nat il.1 `mod` write_freq = 0)
               (zip (seq i (length dl)) (losses_along scheduler (m, o) dl)).
Proof.
  intros Hwf. induction dl as [|xy dl IH]; intros i tot m o f tr0.
  { exists []. cbn. by rewrite app_nil_r. }
  set (loss := get_loss true m xy).
  set (evs := (if decide (Z.of_nat i `mod` write_freq = 0)
               then [Printed Train epoch i loss] else [])
              ++ [AddScalar "Training Step Loss" loss (epoch * Z.of_nat n + Z.of_nat i)]).
  destruct (IH (S i) (tot + loss)%float (train_step scheduler (m, o) xy).1
              (train_step scheduler (m, o) xy).2 f (tr0 ++ evs))
    as (tr & Hrun & Hstep & Havg & Hpr).
  rewrite <- surjective_pairing in Hrun, Hstep, Hpr.
  exists (evs ++ tr). cbn [for_enumerate foldl losses_along fst].
  split; [|split; [|split]].
  - erewrite io_bind_step; [rewrite app_assoc; exact Hrun|].
    unfold io_bind, model_get_loss, apply_optimizer, py_mod, train_step. cbn.
    destruct (optimizer_step m o xy) as [m1 o1].
    rewrite decide_False by done. unfold evs, loss.
    destruct scheduler as [sch|]; cbn; case_decide; cbn; by rewrite <- ?app_assoc.
  - rewrite scalars_app, Hstep. unfold evs. case_decide; reflexivity.
  - rewrite scalars_app, Havg. unfold evs. case_decide; reflexivity.
  - rewrite prints_app, Hpr. unfold evs. cbn. case_decide; reflexivity.
Qed.

Lemma validation_loop_run dl epoch write_freq (w : world) :
  dl ≠ [] → write_freq ≠ 0 →
  evaluation_pass Validation "Validation Step Loss" "Avg. Epoch Validation Loss"
    dl epoch write_freq w (validation_loop dl epoch write_freq w).
Proof.
  intros Hdl Hwf. destruct w as [m t o f tr0].
  destruct (evaluation_batches Validation "Validation Step Loss"
              "Avg. Epoch Validation Loss" epoch (length dl) write_freq Hwf
              ltac:(done) dl 0%nat 0%float (World m false o f tr0))
    as (tr & Hrun & Hstep & Havg & Hpr).
  exists (tr ++ [AddScalar "Avg. Epoch Validation Loss"
    (py_sum (get_loss false m <$> dl) / PyFloat.of_len (length dl))%float epoch]).
  split; [|split; [|split]].
  - unfold validation_loop. erewrite io_bind_step; [|reflexivity].
    erewrite io_bind_step; [|exact Hrun].
    destruct dl as [|xy dl]; [done|]. cbn. by rewrite <- app_assoc.
  - by rewrite scalars_app, Hstep, app_nil_r.
  - by rewrite scalars_app, Havg.
  - rewrite prints_app, Hpr. cbn. rewrite app_nil_r. unfold printed_batches.
    by rewrite length_fmap.
Qed.

Lemma test_loop_run dl epoch write_freq (w : world) :
  dl ≠ [] → write_freq ≠ 0 →
  evaluation_pass Test "Test Step Loss" "Avg. Epoch Test Loss"
    dl epoch write_freq w (test_loop dl epoch write_freq w).
Proof.
  intros Hdl Hwf. destruct w as [m t o f tr0].
  destruct (evaluation_batches Test "Test Step Loss"
              "Avg. Epoch Test Loss" epoch (length dl) write_freq Hwf
              ltac:(done) dl 0%nat 0%float (World m false o f tr0))
    as (tr & Hrun & Hstep & Havg & Hpr).
  exists (tr ++ [AddScalar "Avg. Epoch Test Loss"
    (py_sum (get_loss false m <$> dl) / PyFloat.of_len (length dl))%float epoch]).
  split; [|split; [|split]].
  - unfold test_loop. erewrite io_bind_step; [|reflexivity].
    erewrite io_bind_step; [|exact Hrun].
    destruct dl as [|xy dl]; [done|]. cbn. by rewrite <- app_assoc.
  - by rewrite scalars_app, Hstep, app_nil_r.
  - by rewrite scalars_app, Havg.
  - rewrite prints_app, Hpr. cbn. rewrite app_nil_r. unfold printed_batches.
    by rewrite length_fmap.
Qed.

(** X3: over at least one batch and with a non-zero print frequency, a
    validation pass and a test pass return the mean of the batch losses
    taken in evaluation mode on the unchanged parameters; they write each
    batch loss at the step [epoch * len(dataloader) + ibatch] and the mean
    once at the epoch, and print the batches whose index the print
    frequency divides. *)
Theorem evaluation_loops_mean dl epoch write_freq (w : world) :
  dl ≠ [] → write_freq ≠ 0 →
  evaluation_pass Validation "Validation Step Loss" "Avg. Epoch Validation Loss"
    dl epoch write_freq w (validation_loop dl epoch write_freq w) ∧
  evaluation_pass Test "Test Step Loss" "Avg. Epoch Test Loss"
    dl epoch write_freq w (test_loop dl epoch write_freq w).
Proof.
  intros Hdl Hwf. split; [by apply validation_loop_run|by apply test_loop_run].
Qed.

Lemma train_loop_run dl epoch scheduler write_freq (w : world) :
  dl ≠ [] → write_freq ≠ 0 →
  training_pass scheduler dl epoch write_freq w
    (train_loop dl epoch scheduler write_freq w).
Proof.
  intros Hdl Hwf. destruct w as [m t o f tr0].
  destruct (training_batches scheduler epoch (length dl) write_freq Hwf
              dl 0%nat 0%float m o f tr0) as (tr & Hrun & Hstep & Havg & Hpr).
  exists (tr ++ [AddScalar "Avg. Epoch Train Loss"
    (py_sum (losses_along scheduler (m, o) dl) / PyFloat.of_len (length dl))%float epoch]).
  split; [|split; [|split]].
  - unfold train_loop. erewrite io_bind_step; [|reflexivity].
    erewrite io_bind_step; [|exact Hrun].
    destruct dl as [|xy dl]; [done|]. cbn. by rewrite <- app_assoc.
  - by rewrite scalars_app, Hstep, app_nil_r.
  - by rewrite scalars_app, Havg.
  - rewrite prints_app, Hpr. cbn. rewrite app_nil_r. unfold printed_batches.
    by rewrite losses_along_length.
Qed.

(** X4: over at least one batch and with a non-zero print frequency, a
    training pass returns the mean of the batch losses, each taken in
    training mode on the parameters the steps of the earlier batches left;
    the parameters and the optimizer end as the optimizer step and the
    scheduler step of every batch, in order, leave them. *)
Theorem train_loop_mean dl epoch scheduler write_freq (w : world) :
  dl ≠ [] → write_freq ≠ 0 →
  training_pass scheduler dl epoch write_freq w
    (train_loop dl epoch scheduler write_freq w).
Proof. apply train_loop_run. Qed.

Lemma loops_zero_write_freq xy dl epoch scheduler (w : world) :
  validation_loop (xy :: dl) epoch 0 w =
    (Raise ZeroDivisionError,
     World (model w) false (optimizer w) (files w) (trace w)) ∧
  test_loop (xy :: dl) epoch 0 w =
    (Raise ZeroDivisionError,
     World (model w) false (optimizer w) (files w) (trace w)) ∧
  train_loop (xy :: dl) epoch scheduler 0 w =
    (Raise ZeroDivisionError,
     World (train_step scheduler (model w, optimizer w) xy).1 true
           (train_step scheduler (model w, optimizer w) xy).2
           (files w) (trace w)).
Proof.
  destruct w as [m t o f tr0]. split; [done|]. split; [done|].
  unfold train_step. cbn [fst snd model optimizer files trace].
  cbv [train_loop io_bind set_training for_enumerate model_get_loss apply_optimizer
       model training optimizer files trace].
  destruct (optimizer_step m o xy) as [m1 o1]. by destruct scheduler.
Qed.

(** X5: with a print frequency of zero the first batch already fails: the
    evaluation passes raise before anything is written or printed, and the
    training pass raises after the optimizer and the scheduler have taken
    the step of the first batch. *)
Theorem zero_write_freq_raises xy dl epoch scheduler (w : world) :
  validation_loop (xy :: dl) epoch 0 w =
    (Raise ZeroDivisionError,
     World (model w) false (optimizer w) (files w) (trace w)) ∧
  test_loop (xy :: dl) epoch 0 w =
    (Raise ZeroDivisionError,
     World (model w) false (optimizer w) (files w) (trace w)) ∧
  train_loop (xy :: dl) epoch scheduler 0 w =
    (Raise ZeroDivisionError,
     World (train_step scheduler (model w, optimizer w) xy).1 true
           (train_step scheduler (model w, optimizer w) xy).2
           (files w) (trace w)).
Proof. apply loops_zero_write_freq. Qed.

(** A pass that returns had at least one batch and a non-zero print
    frequency. *)
Lemma train_loop_ok_inv dl epoch scheduler write_freq (w : world) a w' :
  train_loop dl epoch scheduler write_freq w = (Ok a, w') →
  dl ≠ [] ∧ write_freq ≠ 0.
Proof.
  destruct dl as [|xy dl]; [by destruct w|]. intros Hrun. split; [done|].
  intros ->. destruct (loops_zero_write_freq xy dl epoch scheduler w) as (_ & _ & Hz).
  congruence.
Qed.

Lemma validation_loop_ok_inv dl epoch write_freq (w : world) a w' :
  validation_loop dl epoch write_freq w = (Ok a, w') →
  dl ≠ [] ∧ write_freq ≠ 0.
Proof.
  destruct dl as [|xy dl]; [by destruct w|]. intros Hrun. split; [done|].
  intros ->. destruct (loops_zero_write_freq xy dl epoch None w) as (Hz & _ & _).
  congruence.
Qed.

Lemma test_loop_ok_inv dl epoch write_freq (w : world) a w' :
  test_loop dl epoch write_freq w = (Ok a, w') →
  dl ≠ [] ∧ write_freq ≠ 0.
Proof.
  destruct dl as [|xy dl]; [by destruct w|]. intros Hrun. split; [done|].
  intros ->. destruct (loops_zero_write_freq xy dl epoch None w) as (_ & Hz & _).
  congruence.
Qed.

End LoopResults.

Lemma evaluation_loops_mean_witness :
  ([1.0; 3.0]%float ≠ [] ∧ 2 ≠ 0) ∧
  evaluation_pass (L := descent_learner) Trainer.Validation "Validation Step Loss"
    "Avg. Epoch Validation Loss" [1.0; 3.0]%float 4 2 descent_world
    (Trainer.validation_loop (L := descent_learner) [1.0; 3.0]%float 4 2 descent_world) ∧
  evaluation_pass (L := descent_learner) Trainer.Test "Test Step Loss"
    "Avg. Epoch Test Loss" [1.0; 3.0]%float 4 2 descent_world
    (Trainer.test_loop (L := descent_learner) [1.0; 3.0]%float 4 2 descent_world).
Proof.
  assert ([1.0; 3.0]%float ≠ [] ∧ 2 ≠ 0) as H by (split; [discriminate|lia]).
  split; [exact H|].
  apply (evaluation_loops_mean (L := descent_learner) [1.0; 3.0]%float 4 2
           descent_world (proj1 H) (proj2 H)).
Defined.

Lemma train_loop_mean_witness :
  ([1.0; 3.0]%float ≠ [] ∧ 2 ≠ 0) ∧
  training_pass (L := descent_learner) (Some halving) [1.0; 3.0]%float 4 2
    descent_world
    (Trainer.train_loop (L := descent_learner) [1.0; 3.0]%float 4 (Some halving) 2
       descent_world).
Proof.
  assert ([1.0; 3.0]%float ≠ [] ∧ 2 ≠ 0) as H by (split; [discriminate|lia]).
  split; [exact H|].
  apply (train_loop_mean (L := descent_learner) [1.0; 3.0]%float 4 (Some halving) 2
           descent_world (proj1 H) (proj2 H)).
Defined.

(** The training pass of the witness: the parameter moves from 0 to 0.5 and
    then to 1.125 while the step size is halved twice, and the mean of the
    losses 1 and 6.25 is returned. *)
Example descent_train_loop :
  Trainer.train_loop (L := descent_learner) [1.0; 3.0]%float 4 (Some halving) 2
    descent_world =
  (Ok 3.625%float,
   @Trainer.World descent_learner 1.125%float true 0.0625%float ∅
     [Trainer.Printed Trainer.Train 4 0 1.0%float;
      Trainer.AddScalar "Training Step Loss" 1.0%float 8;
      Trainer.AddScalar "Training Step Loss" 6.25%float 9;
      Trainer.AddScalar "Avg. Epoch Train Loss" 3.625%float 4]).
Proof. vm_compute. reflexivity. Qed.

(** ** Checkpoint names *)

Section Names.
Import Strings.Ascii PyFloat.

Lemma pretty_N_go_no_underscore (x : N) : ∀ s,
  has_char "_"%char s = false → has_char "_"%char (pretty_N_go x s) = false.
Proof.
  induction (N.lt_wf_0 x) as [x _ IH]; intros s Hs.
  destruct (decide (x = 0%N)) as [->|Hx]; [by rewrite pretty_N_go_0|].
  rewrite pretty_N_go_step by lia. apply IH; [apply N.div_lt; lia|].
  cbn [has_char]. rewrite Hs, orb_false_r.
  unfold pretty_N_char. by repeat case_match.
Qed.

Lemma pretty_Z_no_underscore (z : Z) : has_char "_"%char (pretty z) = false.
Proof.
  destruct z as [|p|p]; [done| |].
  - change (pretty (Z.pos p)) with (pretty_N_go (N.pos p) "").
    by apply pretty_N_go_no_underscore.
  - change (pretty (Z.neg p)) with ("-" +:+ pretty_N_go (N.pos p) "").
    change ("-" +:+ ?s) with (String "-" s).
    cbn [has_char]. change (Strings.Ascii.eqb "-" "_") with false.
    by apply pretty_N_go_no_underscore.
Qed.

Lemma app_separator_inj c (s1 s2 t1 t2 : string) :
  has_char c s1 = false → has_char c s2 = false →
  s1 +:+ String c t1 = s2 +:+ String c t2 → s1 = s2.
Proof.
  revert s2. induction s1 as [|a s1 IH]; intros [|b s2]; cbn; try done.
  - intros _ [Hb _]%orb_false_elim [= <- _]. by rewrite Strings.Ascii.eqb_refl in Hb.
  - intros [Ha _]%orb_false_elim _ [= -> _]. by rewrite Strings.Ascii.eqb_refl in Ha.
  - intros [_ H1]%orb_false_elim [_ H2]%orb_false_elim [= -> Heq].
    f_equal. by apply IH.
Qed.

Lemma checkpoint_name_epoch_inj savedir e1 l1 tag1 e2 l2 tag2 :
  checkpoint_name savedir e1 l1 tag1 = checkpoint_name savedir e2 l2 tag2 →
  e1 = e2.
Proof.
  unfold checkpoint_name. intros Heq.
  apply string_app_inv_head in Heq.
  apply (string_app_inv_head "/model_epoch=") in Heq.
  apply (inj pretty). eapply (app_separator_inj "_"%char); [| |exact Heq];
    apply pretty_Z_no_underscore.
Qed.

End Names.

Section SaveModelNames.
Context `{L : Learner}.
Import Trainer.

(** X6: the file names [save_model] builds in one directory for two
    different epochs differ, whatever the losses and the tags. *)
Theorem save_model_names_differ e1 e2 l1 l2 savedir tag1 tag2 (w1 w2 : world) :
  e1 ≠ e2 →
  (save_model e1 l1 savedir tag1 w1).1 ≠ (save_model e2 l2 savedir tag2 w2).1.
Proof.
  intros Hne. rewrite !save_model_eq. cbn. intros [= Heq].
  by apply checkpoint_name_epoch_inj in Heq.
Qed.

End SaveModelNames.

Lemma save_model_names_differ_witness :
  1 ≠ 12 ∧
  (Trainer.save_model (L := toy_learner) 1 2.5 "ckpt" "" toy_world).1 ≠
  (Trainer.save_model (L := toy_learner) 12 2.5 "ckpt" "a" toy_world).1.
Proof.
  assert (1 ≠ 12) as H by lia. split; [exact H|].
  apply (save_model_names_differ (L := toy_learner) 1 12 2.5 2.5 "ckpt" "" "a"
           toy_world toy_world H).
Defined.

(** ** Saving and deleting a checkpoint *)

Section SaveDelete.
Context `{L : Learner}.
Import Trainer.

(** X27: [delete_checkpoint] of the name [save_model] has just returned
    never fails: the two together leave the model and the optimizer as
    they were and the directory without a file of that name, the file saved
    and then removed; and [delete_checkpoint] of a file that does not exist
    raises [FileNotFoundError] and changes nothing. *)
Theorem delete_after_save epoch loss savedir tag (w : world) :
  (do name <- save_model epoch loss savedir tag;
   exec delete_checkpoint name;
   io_ret name) w =
    (Ok (checkpoint_name savedir epoch loss tag),
     World (model w) (training w) (optimizer w)
       (delete (checkpoint_name savedir epoch loss tag) (files w))
       (trace w ++ [TorchSave (checkpoint_name savedir epoch loss tag);
                    OsRemove (checkpoint_name savedir epoch loss tag)])) ∧
  ∀ p, files w !! p = None →
    delete_checkpoint p w = (Raise (FileNotFoundError p), w).
Proof.
  split.
  - rewrite (io_bind_step _ _ _ _ _ (save_model_eq epoch loss savedir tag w)).
    unfold io_bind, delete_checkpoint. cbn [files model training optimizer trace].
    rewrite lookup_insert_eq. cbn. by rewrite delete_insert_eq, <- app_assoc.
  - intros p Hp. unfold delete_checkpoint. by rewrite Hp.
Qed.

End SaveDelete.

(** ** The checkpoints during a whole run *)

Section FitInvariant.
Context `{L : Learner}.
Import Trainer.

Lemma kept_ok_mono save_dir b1 b2 w0 (w : world) names :
  b1 ≤ b2 → kept_ok save_dir b1 w0 w names → kept_ok save_dir b2 w0 w names.
Proof.
  intros Hb [H1 H2 H3 H4 H5 H6]. split; try done.
  intros i p Hi. destruct (H2 i p Hi) as (e & l & He & ->).
  exists e, l. split; [lia|done].
Qed.

Lemma kept_ok_frame save_dir b (w0 : world) names m t o f tr m' t' o' tr' :
  file_events tr' = file_events tr →
  kept_ok save_dir b w0 (World m t o f tr) names →
  kept_ok save_dir b w0 (World m' t' o' f tr') names.
Proof.
  intros Hev [H1 H2 H3 H4 H5 H6]. split; try done.
  cbn [trace] in *. by rewrite Hev.
Qed.

Lemma kept_ok_init save_dir b (w0 : world) K :
  kept_ok save_dir b w0 w0 (replicate K None).
Proof.
  split.
  - by intros i p [? _]%lookup_replicate.
  - by intros i p [? _]%lookup_replicate.
  - by intros i j p [? _]%lookup_replicate.
  - done.
  - intros p Hp. by left.
  - exists []. rewrite app_nil_r. split; [done|]. split.
    + by intros i p ?.
    + by intros p [? _]%elem_of_replicate.
Qed.

Lemma removes_own_snoc_saved fs p :
  removes_own fs → removes_own (fs ++ [Saved p]).
Proof.
  intros Hown i q Hi. apply lookup_snoc_Some in Hi as [[Hlt Hi]|[_ ?]]; [|done].
  destruct (Hown i q Hi) as (j & Hj & Hjs). exists j. split; [done|].
  by apply lookup_app_l_Some.
Qed.

Lemma removes_own_snoc_removed fs p :
  removes_own fs → Saved p ∈ fs → removes_own (fs ++ [Removed p]).
Proof.
  intros Hown Hin i q Hi. apply lookup_snoc_Some in Hi as [[Hlt Hi]|[-> [= <-]]].
  - destruct (Hown i q Hi) as (j & Hj & Hjs). exists j. split; [done|].
    by apply lookup_app_l_Some.
  - apply list_elem_of_lookup_1 in Hin as [j Hj]. exists j.
    split; [by eapply lookup_lt_Some|]. by apply lookup_app_l_Some.
Qed.

(** One consideration keeps the slots and the kept checkpoints in order,
    and raises only when there is no slot. *)
Lemma consider_checkpoint_inv save_dir K bound te (w0 : world) curr best names
    (w : world) :
  slots_ok K best names → kept_ok save_dir bound w0 w names → bound ≤ te →
  match consider_checkpoint save_dir te curr best names w with
  | (Ok (best', names'), w') =>
      slots_ok K best' names' ∧ kept_ok save_dir (te + 1) w0 w' names'
  | (Raise e, w') => w' = w ∧ e = ValueError ∧ K = 0%nat
  end.
Proof.
  intros Hok Hkept Hb. pose proof Hok as [Hbl Hnl Hnan Hun].
  destruct (decide (best = [])) as [->|Hne].
  { simpl in Hbl. subst K. cbn. done. }
  destruct (argmax_first_max best Hnan Hne) as (idx & v & Harg & Hfm).
  pose proof Hfm as (Hv & _ & _).
  assert (idx < length names)%nat as Hidx.
  { rewrite Hnl, <- Hbl. by eapply lookup_lt_Some. }
  destruct (lookup_lt_is_Some_2 names idx Hidx) as [on Hon].
  destruct (curr <? v)%float eqn:Hlt.
  2:{ unfold consider_checkpoint, io_bind, io_lift, py_getitem, io_ret.
      rewrite Harg, Hv, Hon, Hlt. split; [done|].
      eapply kept_ok_mono; [|done]. lia. }
  rewrite (consider_checkpoint_replace save_dir te curr best names w idx v on
             Harg Hv Hon Hlt).
  2:{ intros p ->. by eapply kept_exist. }
  split; [by eapply slots_ok_insert|].
  set (q := checkpoint_name save_dir te curr "").
  destruct Hkept as [H1 H2 H3 H4 H5 (fs & Hfs & Hown & Hsaved)].
  assert (∀ j p, names !! j = Some (Some p) → p ≠ q) as Hq.
  { intros j p Hp ->. destruct (H2 j _ Hp) as (e & l & He & Heq).
    apply checkpoint_name_epoch_inj in Heq. lia. }
  assert (∀ j p, j ≠ idx → names !! j = Some (Some p) → on ≠ Some p) as Hp.
  { intros j p Hj Hp ->. by apply Hj, (H3 j idx p). }
  assert (∀ p, on = Some p → ∃ e l, p = checkpoint_name save_dir e l "") as Hon_made.
  { intros p ->. destruct (H2 idx p Hon) as (e & l & _ & ->). by exists e, l. }
  split; cbn [files trace].
  - intros i p Hi. destruct (decide (i = idx)) as [->|Hi'].
    + rewrite list_lookup_insert_eq in Hi by done. injection Hi as <-.
      by rewrite lookup_insert_eq.
    + rewrite list_lookup_insert_ne in Hi by done.
      rewrite lookup_insert_ne by (symmetry; by eapply Hq).
      destruct on as [p0|]; [|by eapply H1].
      rewrite lookup_delete_ne; [by eapply H1|]. intros ->. by eapply Hp.
  - intros i p Hi. destruct (decide (i = idx)) as [->|Hi'].
    + rewrite list_lookup_insert_eq in Hi by done. injection Hi as <-.
      exists te, curr. split; [lia|done].
    + rewrite list_lookup_insert_ne in Hi by done.
      destruct (H2 i p Hi) as (e & l & He & ->). exists e, l. split; [lia|done].
  - intros i j p Hi Hj.
    destruct (decide (i = idx)) as [->|Hi'], (decide (j = idx)) as [->|Hj']; [done|..].
    + rewrite list_lookup_insert_eq in Hi by done. injection Hi as <-.
      rewrite list_lookup_insert_ne in Hj by done. by destruct (Hq j q Hj).
    + rewrite list_lookup_insert_eq in Hj by done. injection Hj as <-.
      rewrite list_lookup_insert_ne in Hi by done. by destruct (Hq i q Hi).
    + rewrite list_lookup_insert_ne in Hi, Hj by done. by eapply H3.
  - intros p Hforeign. rewrite lookup_insert_ne by (symmetry; apply Hforeign).
    destruct on as [p0|]; [|by apply H4].
    rewrite lookup_delete_ne; [by apply H4|].
    destruct (Hon_made p0 eq_refl) as (e & l & ->). symmetry. apply Hforeign.
  - intros p Hsome. destruct (decide (p = q)) as [->|Hpq].
    { right. by apply list_elem_of_insert. }
    rewrite lookup_insert_ne in Hsome by done.
    assert (is_Some (files w !! p) ∧ on ≠ Some p) as [Hin Hnot].
    { destruct on as [p0|]; [|done].
      apply lookup_delete_is_Some in Hsome as [? ?]. split; [done|congruence]. }
    destruct (H5 p Hin) as [?|Hel]; [by left|right].
    apply list_elem_of_lookup_1 in Hel as [j Hj].
    apply (list_elem_of_lookup_2 _ j). rewrite list_lookup_insert_ne; [done|].
    intros <-. congruence.
  - assert (∀ fs', (∀ p, Some p ∈ names → Saved p ∈ fs') →
        ∀ p, Some p ∈ <[idx := Some q]> names → Saved p ∈ fs' ++ [Saved q]) as Hins.
    { intros fs' Hfs' p [j Hj]%list_elem_of_lookup_1.
      destruct (decide (j = idx)) as [->|Hj'].
      - rewrite list_lookup_insert_eq in Hj by done. injection Hj as <-.
        apply elem_of_app. right. apply list_elem_of_here.
      - rewrite list_lookup_insert_ne in Hj by done.
        apply elem_of_app. left. apply Hfs'. by eapply list_elem_of_lookup_2. }
    destruct on as [p0|].
    + exists ((fs ++ [Removed p0]) ++ [Saved q]). split; [|split].
      * rewrite !file_events_app, Hfs. cbn. by rewrite <- !app_assoc.
      * apply removes_own_snoc_saved, removes_own_snoc_removed; [done|].
        apply Hsaved. by eapply list_elem_of_lookup_2.
      * apply (Hins (fs ++ [Removed p0])).
        intros p Hel. apply elem_of_app. left. by apply Hsaved.
    + exists (fs ++ [Saved q]). split; [|split].
      * rewrite !file_events_app, Hfs. cbn. by rewrite <- !app_assoc.
      * by apply removes_own_snoc_saved.
      * by apply Hins.
Qed.

Lemma fit_inv_frame save_dir K prev (w0 : world) i loc m t o f tr m' t' o' tr' :
  file_events tr' = file_events tr →
  fit_inv save_dir K prev w0 i loc (World m t o f tr) →
  fit_inv save_dir K prev w0 i loc (World m' t' o' f tr').
Proof.
  intros Hev (? & ? & ?). split; [done|]. split; [|done]. by eapply kept_ok_frame.
Qed.

Lemma fit_inv_ignores_events save_dir K prev (w0 : world) i loc :
  ignores_events (fit_inv save_dir K prev w0 i loc).
Proof.
  intros m t o f tr ev Hev. apply fit_inv_frame.
  rewrite file_events_app. cbn. by rewrite Hev, app_nil_r.
Qed.

Lemma fit_inv_ignores_training save_dir K prev (w0 : world) i loc :
  ignores_training (fit_inv save_dir K prev w0 i loc).
Proof. intros m t o f tr m' o'. by apply fit_inv_frame. Qed.

Lemma fit_inv_init save_dir K prev (w0 : world) :
  fit_inv save_dir K prev w0 0 (fit_init K) w0.
Proof.
  split; [apply slots_ok_init|]. split; [apply kept_ok_init|]. done.
Qed.

Lemma fit_epoch_inv tr va te save_dir scheduler loss_metric write_freq test_freq
    prev K (w0 : world) i loc :
  hoare (fit_inv save_dir K prev w0 i loc)
    (fit_epoch tr va te save_dir scheduler loss_metric write_freq test_freq prev
       (Z.of_nat i) loc)
    (fit_inv save_dir K prev w0 (S i)) (fit_exn save_dir K prev w0).
Proof.
  set (J := fit_inv save_dir K prev w0 i loc).
  assert (ignores_events J) as HJ by apply fit_inv_ignores_events.
  assert (ignores_training J) as HT by apply fit_inv_ignores_training.
  assert (∀ b m t o f tr0, J (World m t o f tr0) → J (World m b o f tr0)) as HP.
  { intros b m t o f tr0. by apply fit_inv_frame. }
  assert (∀ e w, J w ∧ e = ZeroDivisionError → fit_exn save_dir K prev w0 e w) as HE.
  { intros e w [Hw ->]. split; [by exists i, loc|by left]. }
  unfold fit_epoch.
  eapply (hoare_bind _ _ _ (λ _, J)).
  { eapply hoare_conseq;
      [apply (hoare_train_loop J J); [apply HP|exact HJ|exact HT]
      |by intros|by intros|exact HE]. }
  intros train_loss. eapply (hoare_bind _ _ _ (λ _, J)).
  { eapply hoare_conseq;
      [apply (hoare_validation_loop J J); [apply HP|exact HJ]
      |by intros|by intros|exact HE]. }
  intros val_loss. eapply (hoare_bind _ _ _ (λ _, J)).
  { eapply hoare_conseq; [apply (hoare_py_mod J)|by intros|by intros|exact HE]. }
  intros r. eapply (hoare_bind _ _ _ (λ _, J)).
  { case_decide; [|by apply hoare_ret].
    eapply (hoare_bind _ _ _ (λ _, J)); [|intros ?; by apply hoare_ret].
    eapply hoare_conseq;
      [apply (hoare_test_loop J J); [apply HP|exact HJ]
      |by intros|by intros|exact HE]. }
  intros tests w Hw. unfold io_bind.
  destruct Hw as (Hslots & Hkept & Htl & Hvl & Hte).
  pose proof (consider_checkpoint_inv save_dir K (Z.of_nat i + prev)
    (Z.of_nat i + prev) w0 (if decide (loss_metric = "train") then train_loss else val_loss)
    (best_losses loc) (model_names loc) w Hslots Hkept ltac:(lia)) as Hc.
  destruct (consider_checkpoint _ _ _ _ _ w) as [[[best' names']|e] w'].
  - destruct Hc as [Hs' Hk']. cbn. split; [done|]. split.
    { replace (Z.of_nat (S i) + prev) with (Z.of_nat i + prev + 1) by lia. done. }
    cbn [train_losses val_losses true_epoch].
    rewrite !length_app, Htl, Hvl. cbn. split; [lia|]. split; [lia|done].
  - destruct Hc as (-> & -> & ->). split; [|by right].
    exists i, loc. done.
Qed.

Lemma fit_loop_inv tr va te save_dir scheduler loss_metric write_freq test_freq
    prev K (w0 : world) nepochs :
  hoare (λ w, w = w0)
    (fit_loop tr va te save_dir scheduler loss_metric write_freq test_freq prev
       (seqZ 0 nepochs) (fit_init K))
    (fit_inv save_dir K prev w0 (Z.to_nat nepochs)) (fit_exn save_dir K prev w0).
Proof.
  eapply hoare_conseq;
    [apply (hoare_for_each (fit_inv save_dir K prev w0))| | |].
  - intros i x s [-> _]%lookup_seqZ. rewrite Z.add_0_l. apply fit_epoch_inv.
  - intros w ->. apply fit_inv_init.
  - intros a w. by rewrite length_seqZ.
  - by intros e w.
Qed.

(** What a whole run leaves, whatever its outcome. *)
Lemma fit_outcome tr va te nepochs save_dir scheduler K loss_metric write_freq
    test_freq prev (w0 : world) :
  match fit tr va te nepochs save_dir scheduler K loss_metric write_freq
          test_freq prev w0 with
  | (Ok (trl, vl, tel, names), w) =>
      0 < nepochs ∧
      ∃ loc, fit_inv save_dir K prev w0 (Z.to_nat nepochs) loc w ∧
        trl = train_losses loc ∧ vl = val_losses loc ∧
        names = model_names loc ∧
        (Z.of_nat K ≤ nepochs → None ∉ names)
  | (Raise e, w) =>
      (∃ i loc, fit_inv save_dir K prev w0 i loc w) ∧
      (e = ZeroDivisionError ∨
       (e = ValueError ∧ K = 0%nat ∧ 0 < nepochs) ∨
       (e = UnboundLocalError "true_epoch" ∧ nepochs ≤ 0) ∨
       (e = AssertionError ∧ Z.of_nat K ≤ nepochs ∧ 0 < nepochs))
  end.
Proof.
  destruct (decide (0 < nepochs)) as [Hn|Hn].
  2:{ unfold fit, fit_loop. rewrite seqZ_nil by lia. destruct w0 as [m t o f tr0].
      cbn. split; [|right; right; left; split; [done|lia]].
      exists 0%nat, (fit_init K).
      apply (fit_inv_frame _ _ _ _ _ _ m t o f tr0); [|apply fit_inv_init].
      rewrite !file_events_app. cbn. by rewrite !app_nil_r. }
  pose proof (hoare_run _ _ _ _ w0
    (fit_loop_inv tr va te save_dir scheduler loss_metric write_freq test_freq
       prev K w0 nepochs) eq_refl) as Hloop.
  unfold fit.
  destruct (fit_loop tr va te save_dir scheduler loss_metric write_freq test_freq
              prev (seqZ 0 nepochs) (fit_init K) w0) as [[loc|e] w1] eqn:Hrun;
    cbn [fst snd] in Hloop.
  2:{ rewrite (io_bind_fail _ _ _ _ _ Hrun). destruct Hloop as [Hex [->|[-> ->]]].
      - split; [done|by left].
      - split; [done|]. right. left. done. }
  rewrite (io_bind_step _ _ _ _ _ Hrun). destruct w1 as [m t o f tr1].
  erewrite io_bind_step; [|reflexivity]. erewrite io_bind_step; [|reflexivity].
  cbn [model training optimizer files trace].
  set (J := fit_inv save_dir K prev w0 (Z.to_nat nepochs) loc) in *.
  assert (J (World m t o f ((tr1 ++ [Flush]) ++ [Close]))) as Hinv.
  { eapply fit_inv_frame; [|exact Hloop].
    rewrite !file_events_app. cbn. by rewrite !app_nil_r. }
  pose proof Hloop as (_ & _ & _ & _ & Hte).
  destruct (Z.to_nat nepochs) as [|j] eqn:Hj; [lia|].
  erewrite io_bind_step; [|unfold read_true_epoch; by rewrite Hte].
  assert (∀ m' t' o' f' tr', World m' t' o' f' tr' =
            World m t o f ((tr1 ++ [Flush]) ++ [Close]) →
          J (World m' false o' f' tr')) as HPJ.
  { intros ????? [= -> -> -> -> ->]. by eapply fit_inv_frame. }
  pose proof (hoare_run _ _ _ _ _
    (hoare_test_loop (λ w, w = World m t o f ((tr1 ++ [Flush]) ++ [Close])) J te
       (Z.of_nat j + prev) write_freq HPJ
       (fit_inv_ignores_events _ _ _ _ _ _)) eq_refl) as Htest.
  destruct (test_loop te (Z.of_nat j + prev) write_freq
              (World m t o f ((tr1 ++ [Flush]) ++ [Close]))) as [[tl|e] w2] eqn:Ht;
    cbn [fst snd] in Htest.
  2:{ rewrite (io_bind_fail _ _ _ _ _ Ht). destruct Htest as [Hw2 ->].
      split; [by exists (S j), loc|by left]. }
  rewrite (io_bind_step _ _ _ _ _ Ht).
  unfold io_bind, py_assert, io_ret, io_raise.
  case_decide as HK.
  - destruct (bool_decide (None ∉ model_names loc)) eqn:Hnone.
    + apply bool_decide_eq_true in Hnone.
      destruct (forallb _ _).
      * split; [done|]. by exists loc.
      * split; [by exists (S j), loc|]. right. right. right. done.
    + split; [by exists (S j), loc|]. right. right. right. done.
  - split; [done|]. exists loc. do 4 (split; [done|]). intros ?. lia.
Qed.

(** X8: whatever its outcome, [fit] leaves every file that does not carry
    a checkpoint name of its directory as it was, and removes no file that
    it has not saved itself earlier in the run. *)
Theorem fit_files_frame tr va te nepochs save_dir scheduler K loss_metric
    write_freq test_freq prev (w : world) :
  let out := fit tr va te nepochs save_dir scheduler K loss_metric write_freq
               test_freq prev w in
  (∀ p, (∀ e l, p ≠ checkpoint_name save_dir e l "") →
        files out.2 !! p = files w !! p) ∧
  ∃ fs, file_events (trace out.2) = file_events (trace w) ++ fs ∧ removes_own fs.
Proof.
  pose proof (fit_outcome tr va te nepochs save_dir scheduler K loss_metric
                write_freq test_freq prev w) as Hout.
  cbv zeta.
  destruct (fit _ _ _ _ _ _ _ _ _ _ _ w) as [[[[[trl vl] tel] names]|e] w'];
    cbn [snd].
  - destruct Hout as (_ & loc & (_ & Hk & _) & _).
    destruct Hk as [_ _ _ H4 _ (fs & Hfs & Hown & _)]. split; [done|by exists fs].
  - destruct Hout as ((i & loc & _ & Hk & _) & _).
    destruct Hk as [_ _ _ H4 _ (fs & Hfs & Hown & _)]. split; [done|by exists fs].
Qed.

(** X9: when [fit] returns, the file names it returns are those of files
    that exist, no two slots name the same file, and every file that was
    not there before the run is named in a slot: the checkpoints dropped
    on the way are gone. *)
Theorem fit_kept_checkpoints tr va te nepochs save_dir scheduler K loss_metric
    write_freq test_freq prev (w : world) :
  match fit tr va te nepochs save_dir scheduler K loss_metric write_freq
          test_freq prev w with
  | (Ok (_, names), w') =>
      (∀ i p, names !! i = Some (Some p) → is_Some (files w' !! p)) ∧
      (∀ i j p, names !! i = Some (Some p) → names !! j = Some (Some p) → i = j) ∧
      (∀ p, is_Some (files w' !! p) → is_Some (files w !! p) ∨ Some p ∈ names)
  | (Raise _, _) => True
  end.
Proof.
  pose proof (fit_outcome tr va te nepochs save_dir scheduler K loss_metric
                write_freq test_freq prev w) as Hout.
  destruct (fit _ _ _ _ _ _ _ _ _ _ _ w) as [[[[[trl vl] tel] names]|e] w'];
    [|done].
  destruct Hout as (_ & loc & (_ & Hk & _) & _ & _ & -> & _).
  by destruct Hk as [H1 _ H3 _ H5 _].
Qed.

(** X10: when [fit] returns, the training and the validation history have
    one entry for each epoch, there are as many file-name entries as slots,
    and with at least as many epochs as slots every slot names a file. *)
Theorem fit_histories tr va te nepochs save_dir scheduler K loss_metric
    write_freq test_freq prev (w : world) :
  match (fit tr va te nepochs save_dir scheduler K loss_metric write_freq
           test_freq prev w).1 with
  | Ok (trl, vl, _, names) =>
      length trl = Z.to_nat nepochs ∧ length vl = Z.to_nat nepochs ∧
      length names = K ∧ (Z.of_nat K ≤ nepochs → None ∉ names)
  | Raise _ => True
  end.
Proof.
  pose proof (fit_outcome tr va te nepochs save_dir scheduler K loss_metric
                write_freq test_freq prev w) as Hout.
  destruct (fit _ _ _ _ _ _ _ _ _ _ _ w) as [[[[[trl vl] tel] names]|e] w'];
    cbn [fst]; [|done].
  destruct Hout as (_ & loc & (Hs & _ & Htl & Hvl & _) & -> & -> & -> & Hnone).
  by destruct Hs.
Qed.

(** X12: [fit] returns only from a run of at least one epoch with at least
    one slot, at least one batch in each split, and non-zero print and test
    frequencies. *)
Theorem fit_returns_only_if tr va te nepochs save_dir scheduler K loss_metric
    write_freq test_freq prev (w : world) r w' :
  fit tr va te nepochs save_dir scheduler K loss_metric write_freq
    test_freq prev w = (Ok r, w') →
  0 < nepochs ∧ K ≠ 0%nat ∧ tr ≠ [] ∧ va ≠ [] ∧ te ≠ [] ∧
  write_freq ≠ 0 ∧ test_freq ≠ 0.
Proof.
  intros Hrun.
  pose proof (fit_outcome tr va te nepochs save_dir scheduler K loss_metric
                write_freq test_freq prev w) as Hn.
  rewrite Hrun in Hn. destruct r as [[[hist1 hist2] hist3] names].
  destruct Hn as [Hn _]. split; [done|].
  unfold fit in Hrun.
  apply io_bind_ok in Hrun as (loc & w1 & Hloop & Hrun).
  apply io_bind_ok in Hrun as (? & w2 & _ & Hrun).
  apply io_bind_ok in Hrun as (? & w3 & _ & Hrun).
  apply io_bind_ok in Hrun as (last_epoch & w4 & _ & Hrun).
  apply io_bind_ok in Hrun as (tl & w5 & Htest & _).
  apply test_loop_ok_inv in Htest as [Hte Hwf].
  unfold fit_loop in Hloop. rewrite seqZ_cons in Hloop by done.
  cbn [for_each] in Hloop.
  apply io_bind_ok in Hloop as (loc1 & w6 & Hepoch & _).
  unfold fit_epoch in Hepoch.
  apply io_bind_ok in Hepoch as (trl & w7 & Htrain & Hepoch).
  apply io_bind_ok in Hepoch as (vl & w8 & Hval & Hepoch).
  apply io_bind_ok in Hepoch as (m & w9 & Hmod & Hepoch).
  apply io_bind_ok in Hepoch as (tests & w10 & _ & Hepoch).
  apply io_bind_ok in Hepoch as (slots & w11 & Hcons & _).
  apply train_loop_ok_inv in Htrain as [Htr _].
  apply validation_loop_ok_inv in Hval as [Hva _].
  apply py_mod_ok in Hmod as (Htf & _).
  repeat split; try done.
  intros ->. discriminate Hcons.
Qed.

End FitInvariant.

Lemma fit_returns_only_if_witness :
  toy_fit = (Ok ([1.5; 1.5; 1.5]%float, [3.0; 3.0; 3.0]%float, [5.0; 5.0]%float,
                 [Some "ckpt/model_epoch=0_loss=3.00000000.pt";
                  Some "ckpt/model_epoch=1_loss=3.00000000.pt"]), toy_fit.2) ∧
  (0 < 3 ∧ 2%nat ≠ 0%nat ∧ [1.0; 2.0]%float ≠ [] ∧ [3.0]%float ≠ [] ∧
   [4.0; 6.0]%float ≠ [] ∧ 100 ≠ 0 ∧ 10 ≠ 0).
Proof.
  split; [vm_compute; reflexivity|].
  apply (fit_returns_only_if (L := toy_learner) [1.0; 2.0]%float [3.0]%float
           [4.0; 6.0]%float 3 "ckpt" None 2 "val" 100 10 0 toy_world
           ([1.5; 1.5; 1.5]%float, [3.0; 3.0; 3.0]%float, [5.0; 5.0]%float,
            [Some "ckpt/model_epoch=0_loss=3.00000000.pt";
             Some "ckpt/model_epoch=1_loss=3.00000000.pt"]) toy_fit.2).
  vm_compute. reflexivity.
Defined.

(** ** Which metrics are kept *)

Section FloatOrderMore.
Import PyFloat.

Lemma leb_trans x y z :
  (x <=? y)%float = true → (y <=? z)%float = true → (x <=? z)%float = true.
Proof.
  rewrite !leb_key. intros (Hx & Hy & Hxy) (_ & Hz & Hyz).
  split; [done|]. split; [done|].
  destruct (key_of x) as [[??]?], (key_of y) as [[??]?], (key_of z) as [[??]?].
  unfold key_lt in *. simpl in *. lia.
Qed.

Lemma ltb_false_leb x y :
  is_nan x = false → is_nan y = false →
  (x <? y)%float = false → (y <=? x)%float = true.
Proof.
  rewrite !is_nan_key, <- not_true_iff_false, ltb_key, leb_key.
  intros Hx Hy Hlt. split; [done|]. split; [done|]. intros Hk. by apply Hlt.
Qed.

Lemma ltb_nan_l x y : is_nan x = true → (x <? y)%float = false.
Proof.
  intros Hx. apply not_true_iff_false. intros Hlt%ltb_not_nan_l. congruence.
Qed.

Lemma ltb_infinity_r x :
  is_nan x = false → x ≠ infinity → (x <? infinity)%float = true.
Proof.
  rewrite is_nan_key, ltb_key. intros Hx Hne. split; [done|]. split; [done|].
  unfold key_of, not_nan in *.
  change (Prim2SF infinity) with (S754_infinity false).
  destruct (Prim2SF x) as [[]|[]| |[] ? ?] eqn:E; unfold key_lt; simpl;
    try lia; try done.
  destruct Hne. apply FloatAxioms.Prim2SF_inj. by rewrite E.
Qed.

End FloatOrderMore.

Section KeptMetrics.
Context `{L : Learner}.
Import Trainer.

Lemma insert_swap_Permutation {A} (l : list A) : ∀ idx v x,
  l !! idx = Some v → x :: l ≡ₚ v :: <[idx := x]> l.
Proof.
  induction l as [|a l IH]; intros [|i] v x Hv; simplify_eq/=.
  - apply Permutation_swap.
  - rewrite (Permutation_swap a v). rewrite <- (IH i v x Hv).
    apply Permutation_swap.
Qed.

(** Of the metrics in the slots and the new one, a consideration drops
    one that none of those it keeps exceed. *)
Lemma consider_checkpoint_drops K save_dir te curr best names (w : world)
    best' names' w' :
  slots_ok K best names → is_nan curr = false →
  consider_checkpoint save_dir te curr best names w = (Ok (best', names'), w') →
  ∃ d, curr :: best ≡ₚ d :: best' ∧
       Forall (λ v, (v <=? d)%float = true) best' ∧
       Forall (λ v, ∃ v0, v0 ∈ best ∧ (v <=? v0)%float = true) best'.
Proof.
  intros Hok Hcurr Hrun. pose proof Hok as [Hbl Hnl Hnan Hun].
  destruct (decide (best = [])) as [->|Hne]; [discriminate Hrun|].
  destruct (argmax_first_max best Hnan Hne) as (idx & v & Harg & Hfm).
  pose proof Hfm as (Hv & Hmax & _).
  assert (Forall (λ v', ∃ v0, v0 ∈ best ∧ (v' <=? v0)%float = true) best) as Hself.
  { apply Forall_lookup. intros i x Hi. exists x.
    split; [by eapply list_elem_of_lookup_2|]. apply leb_refl. by eapply no_nan_lookup. }
  assert (Forall (λ v', (v' <=? v)%float = true) best) as Hall.
  { apply Forall_lookup. intros i x Hi. by eapply Hmax. }
  unfold consider_checkpoint in Hrun.
  apply io_bind_ok in Hrun as (idx' & w1 & Hidx & Hrun).
  unfold io_lift in Hidx. rewrite Harg in Hidx. injection Hidx as <- <-.
  apply io_bind_ok in Hrun as (v' & w2 & Hv' & Hrun).
  unfold py_getitem in Hv'. rewrite Hv in Hv'. injection Hv' as <- <-.
  apply io_bind_ok in Hrun as (on & w3 & _ & Hrun).
  destruct (curr <? v)%float eqn:Hlt.
  - io_ok Hrun. injection Hrun as <- _ _. exists v. split; [|split].
    + by apply insert_swap_Permutation.
    + apply Forall_insert; [done|]. by apply ltb_leb.
    + apply Forall_insert; [done|]. exists v.
      split; [by eapply list_elem_of_lookup_2|]. by apply ltb_leb.
  - injection Hrun as <- _ _. exists curr. split; [done|]. split; [|done].
    eapply Forall_impl; [exact Hall|]. intros x Hx. cbn in Hx.
    eapply leb_trans; [exact Hx|]. apply ltb_false_leb; [done| |done].
    by eapply no_nan_lookup.
Qed.

Lemma keeps_smallest_step curr cands best best' d :
  keeps_smallest cands best →
  curr :: best ≡ₚ d :: best' →
  Forall (λ v, (v <=? d)%float = true) best' →
  Forall (λ v, ∃ v0, v0 ∈ best ∧ (v <=? v0)%float = true) best' →
  keeps_smallest (curr :: cands) best'.
Proof.
  intros (dropped & Hperm & Hle) Hswap Hd Hold. exists (d :: dropped). split.
  - cbn. rewrite Hperm, (Permutation_middle dropped best curr), Hswap.
    by rewrite <- Permutation_middle.
  - intros d' v [->|Hd']%elem_of_cons Hv.
    + rewrite Forall_forall in Hd. by apply Hd.
    + rewrite Forall_forall in Hold. destruct (Hold v Hv) as (v0 & Hv0 & Hvv0).
      eapply leb_trans; [exact Hvv0|]. by apply Hle.
Qed.

(** An epoch that returns has appended its metric to the history and
    considered it. *)
Lemma fit_epoch_ok_inv tr va te save_dir scheduler loss_metric write_freq test_freq
    prev epoch loc (w : world) loc' w' :
  fit_epoch tr va te save_dir scheduler loss_metric write_freq test_freq prev
    epoch loc w = (Ok loc', w') →
  ∃ curr w1,
    metric_history loss_metric loc' = metric_history loss_metric loc ++ [curr] ∧
    consider_checkpoint save_dir (epoch + prev) curr (best_losses loc)
      (model_names loc) w1 = (Ok (best_losses loc', model_names loc'), w').
Proof.
  unfold fit_epoch. intros Hrun.
  apply io_bind_ok in Hrun as (train_loss & w1 & _ & Hrun).
  apply io_bind_ok in Hrun as (val_loss & w2 & _ & Hrun).
  apply io_bind_ok in Hrun as (r & w3 & _ & Hrun).
  apply io_bind_ok in Hrun as (tests & w4 & _ & Hrun).
  apply io_bind_ok in Hrun as ([best' names'] & w5 & Hcons & Hrun).
  injection Hrun as <- <-.
  exists (if decide (loss_metric = "train") then train_loss else val_loss), w4.
  split; [|exact Hcons]. unfold metric_history. cbn. by case_decide.
Qed.

Lemma fit_loop_keeps_smallest_from K tr va te save_dir scheduler loss_metric
    write_freq test_freq prev epochs init : ∀ loc (w : world) loc' w',
  fit_loop tr va te save_dir scheduler loss_metric write_freq test_freq prev
    epochs loc w = (Ok loc', w') →
  slots_ok K (best_losses loc) (model_names loc) →
  no_nan (metric_history loss_metric loc') →
  keeps_smallest (metric_history loss_metric loc ++ init) (best_losses loc) →
  (∃ news, metric_history loss_metric loc' = metric_history loss_metric loc ++ news) ∧
  keeps_smallest (metric_history loss_metric loc' ++ init) (best_losses loc').
Proof.
  unfold fit_loop.
  induction epochs as [|epoch epochs IH]; intros loc w loc' w' Hrun Hok Hnan Hkeep.
  { injection Hrun as <- <-. split; [|done]. exists []. by rewrite app_nil_r. }
  cbn [for_each] in Hrun. apply io_bind_ok in Hrun as (loc1 & w1 & H1 & H2).
  pose proof (fit_epoch_keeps_slots K _ _ _ _ _ _ _ _ _ _ _ _ _ _ Hok H1) as Hok1.
  apply fit_epoch_ok_inv in H1 as (curr & w0 & Hhist & Hcons).
  assert (∃ news, metric_history loss_metric loc' =
                  metric_history loss_metric loc1 ++ news) as [news Hnews].
  { clear -H2. revert loc1 w1 H2.
    induction epochs as [|e epochs IH]; intros loc1 w1 H2.
    - injection H2 as <- <-. exists []. by rewrite app_nil_r.
    - cbn [for_each] in H2. apply io_bind_ok in H2 as (loc2 & w2 & H1 & H2).
      apply fit_epoch_ok_inv in H1 as (curr & w0 & Hhist & _).
      destruct (IH _ _ H2) as [news ->]. exists (curr :: news).
      by rewrite Hhist, <- app_assoc. }
  assert (is_nan curr = false) as Hcurr.
  { rewrite Hnews, Hhist in Hnan. apply Forall_app in Hnan as [Hnan _].
    apply Forall_app in Hnan as [_ Hnan]. by inversion Hnan. }
  destruct (consider_checkpoint_drops K _ _ _ _ _ _ _ _ _ Hok Hcurr Hcons)
    as (d & Hswap & Hd & Hold).
  destruct (IH loc1 w1 loc' w' H2 Hok1 Hnan) as [_ Hkeep'].
  { rewrite Hhist. eapply keeps_smallest_step in Hkeep; [|done..].
    destruct Hkeep as (dropped & Hperm & Hle). exists dropped. split; [|done].
    rewrite <- Hperm, <- app_assoc. cbn. by rewrite <- Permutation_middle. }
  split; [|done]. exists (curr :: news). by rewrite Hnews, Hhist, <- app_assoc.
Qed.

(** X13: when the epoch loop of [fit] has finished and no metric it
    considered was NaN, the slots hold the smallest of these metrics (and
    of the +infinity the slots started with): every metric that is not in
    a slot is at least as large as every metric in a slot. *)
Theorem fit_loop_keeps_smallest K tr va te save_dir scheduler loss_metric
    write_freq test_freq prev epochs (w : world) loc w' :
  fit_loop tr va te save_dir scheduler loss_metric write_freq test_freq prev
    epochs (fit_init K) w = (Ok loc, w') →
  no_nan (metric_history loss_metric loc) →
  keeps_smallest (metric_history loss_metric loc ++ replicate K PyFloat.inf)
    (best_losses loc).
Proof.
  intros Hrun Hnan.
  eapply (fit_loop_keeps_smallest_from K); [exact Hrun|apply slots_ok_init|done|].
  exists []. split; [|by intros d v ?%elem_of_nil].
  unfold metric_history. by case_decide.
Qed.

(** X14: once no slot is without a file name, every metric in the slots is
    below +infinity: the second of the final assertions of [fit] cannot
    fail when the first holds. *)
Theorem fit_second_assertion_holds K tr va te save_dir scheduler loss_metric
    write_freq test_freq prev epochs (w : world) loc w' :
  fit_loop tr va te save_dir scheduler loss_metric write_freq test_freq prev
    epochs (fit_init K) w = (Ok loc, w') →
  None ∉ model_names loc →
  forallb (λ b, b <? PyFloat.inf)%float (best_losses loc) = true.
Proof.
  intros Hrun Hnone.
  apply (fit_loop_keeps_slots K) in Hrun as [Hbl Hnl Hnan Hun];
    [|apply slots_ok_init].
  apply Is_true_true, forallb_True, Forall_lookup. intros i b Hb.
  apply Is_true_true.
  assert (i < length (model_names loc))%nat as Hi.
  { rewrite Hnl, <- Hbl. by eapply lookup_lt_Some. }
  destruct (lookup_lt_is_Some_2 _ _ Hi) as [n Hn].
  apply ltb_infinity_r; [by eapply no_nan_lookup|].
  intros Hinf. apply (Hun i b n Hb Hn) in Hinf as ->.
  apply Hnone. by eapply list_elem_of_lookup_2.
Qed.

(** X15: a metric that is NaN or +infinity is never checkpointed: the
    consideration changes neither the slots nor the world. *)
Theorem consider_checkpoint_skips save_dir te curr best names (w : world) :
  is_nan curr = true ∨ curr = infinity →
  match consider_checkpoint save_dir te curr best names w with
  | (Ok (best', names'), w') => best' = best ∧ names' = names ∧ w' = w
  | (Raise e, w') => w' = w ∧ (e = ValueError ∨ e = IndexError)
  end.
Proof.
  intros Hcurr.
  assert (∀ v, (curr <? v)%float = false) as Hlt.
  { intros v. destruct Hcurr as [?| ->]; [by apply ltb_nan_l|apply ltb_infinity_l]. }
  unfold consider_checkpoint, io_bind, io_lift, py_getitem, io_ret, io_raise.
  destruct (Np.argmax best) as [idx|e] eqn:Harg.
  2:{ destruct best; [|done]. injection Harg as <-. split; [done|by left]. }
  destruct (best !! idx) as [v|]; [|by split; [|right]].
  destruct (names !! idx) as [on|]; [|by split; [|right]].
  by rewrite Hlt.
Qed.

End KeptMetrics.

Lemma fit_loop_keeps_smallest_witness :
  (descent_loop = (Ok descent_locals, descent_loop.2) ∧
   no_nan (metric_history "train" descent_locals)) ∧
  keeps_smallest
    (metric_history "train" descent_locals ++ replicate 2 PyFloat.inf)
    (Trainer.best_losses descent_locals).
Proof.
  assert (no_nan (metric_history "train" descent_locals)) as Hnan
    by (repeat constructor).
  split; [split; [vm_compute; reflexivity|exact Hnan]|].
  apply (fit_loop_keeps_smallest (L := descent_learner) 2 [1.0; 3.0]%float
           [2.0]%float [2.5]%float "run" None "train" 1 2 0 (seqZ 0 4)
           descent_world descent_locals descent_loop.2);
    [vm_compute; reflexivity|exact Hnan].
Defined.

Lemma fit_second_assertion_holds_witness :
  (descent_loop = (Ok descent_locals, descent_loop.2) ∧
   None ∉ Trainer.model_names descent_locals) ∧
  forallb (λ b, b <? PyFloat.inf)%float (Trainer.best_losses descent_locals) = true.
Proof.
  assert (None ∉ Trainer.model_names descent_locals) as Hnone.
  { cbn. intros [?|[?|?%elem_of_nil]%elem_of_cons]%elem_of_cons; done. }
  split; [split; [vm_compute; reflexivity|exact Hnone]|].
  apply (fit_second_assertion_holds (L := descent_learner) 2 [1.0; 3.0]%float
           [2.0]%float [2.5]%float "run" None "train" 1 2 0 (seqZ 0 4)
           descent_world descent_locals descent_loop.2);
    [vm_compute; reflexivity|exact Hnone].
Defined.

Lemma consider_checkpoint_skips_witness :
  (is_nan nan = true ∨ nan = infinity) ∧
  match Trainer.consider_checkpoint (L := toy_learner) "ckpt" 0 nan
          [3.0; infinity]%float [Some "ckpt/a.pt"; None] toy_world with
  | (Ok (best', names'), w') =>
      best' = [3.0; infinity]%float ∧ names' = [Some "ckpt/a.pt"; None] ∧
      w' = toy_world
  | (Raise e, w') => w' = toy_world ∧ (e = ValueError ∨ e = IndexError)
  end.
Proof.
  assert (is_nan nan = true ∨ nan = infinity) as H by (by left).
  split; [exact H|].
  apply (consider_checkpoint_skips (L := toy_learner) "ckpt" 0 nan
           [3.0; infinity]%float [Some "ckpt/a.pt"; None] toy_world H).
Defined.

(** ** More on the prediction writers *)

Section MoreUtils.
Import TopLevelUtils.

Lemma result_map_cases {A B} (f : A → result B) (l : list A) :
  match result_map f l with
  | Ok ys => Forall2 (λ x y, f x = Ok y) l ys
  | Raise e => ∃ x, x ∈ l ∧ f x = Raise e
  end.
Proof.
  induction l as [|x l IH]; cbn; [constructor|].
  destruct (f x) as [y|e] eqn:Hx.
  - destruct (result_map f l) as [ys|e].
    + by constructor.
    + destruct IH as (x' & Hin & Hx'). exists x'.
      split; [by apply list_elem_of_further|done].
  - exists x. split; [apply list_elem_of_here|done].
Qed.

Lemma np_pad_right_cases elem n c :
  match np_pad_right elem n c with
  | Ok row => (length elem ≤ n)%nat ∧ row = elem ++ replicate (n - length elem) c
  | Raise e => e = ValueError ∧ (n < length elem)%nat
  end.
Proof.
  unfold np_pad_right. destruct (length elem <=? n)%nat eqn:Hle.
  - apply Nat.leb_le in Hle. done.
  - apply Nat.leb_gt in Hle. done.
Qed.

(** X16: [pad_single_prediction] never truncates: it returns exactly when
    no sequence is longer than the length asked for, and then every row is
    the sequence followed by pad tokens up to that length; a longer
    sequence is a [ValueError]. *)
Theorem pad_single_prediction_never_truncates pred max_len c :
  match pad_single_prediction pred max_len c with
  | Ok rows =>
      Forall (λ elem, (length elem ≤ max_len)%nat) pred ∧
      rows = (λ elem, elem ++ replicate (max_len - length elem) c) <$> pred ∧
      Forall (λ row, length row = max_len) rows
  | Raise e =>
      e = ValueError ∧ ∃ elem, elem ∈ pred ∧ (max_len < length elem)%nat
  end.
Proof.
  unfold pad_single_prediction.
  pose proof (result_map_cases (λ elem, np_pad_right elem max_len c) pred) as Hmap.
  destruct (result_map _ pred) as [fixed|e].
  - assert (Forall (λ elem, (length elem ≤ max_len)%nat) pred ∧
            fixed = (λ elem, elem ++ replicate (max_len - length elem) c) <$> pred)
      as [Hle ->].
    { induction Hmap as [|elem row pred fixed Hrow _ [IH1 IH2]]; [done|].
      pose proof (np_pad_right_cases elem max_len c) as Hc. rewrite Hrow in Hc.
      destruct Hc as [Hle ->]. split; [by constructor|]. cbn. by rewrite IH2. }
    assert (Forall (λ row, length row = max_len)
              ((λ elem, elem ++ replicate (max_len - length elem) c) <$> pred)) as Hrows.
    { apply Forall_fmap. eapply Forall_impl; [exact Hle|]. intros elem Helem.
      cbn in *. rewrite length_app, length_replicate. lia. }
    by rewrite (np_array2_ok _ max_len Hrows).
  - destruct Hmap as (elem & Hin & Hraise).
    pose proof (np_pad_right_cases elem max_len c) as Hc. rewrite Hraise in Hc.
    destruct Hc as [-> Hlt]. split; [done|]. by exists elem.
Qed.

(** X17: [find_max_length] returns the length of a longest sequence of the
    batch, which no sequence exceeds; without any record it raises a
    [TypeError] and with records that hold no sequence a [ValueError]. *)
Theorem find_max_length_cases (preds : list (list (list Z))) :
  match find_max_length preds with
  | Ok k =>
      (∀ s, s ∈ mjoin preds → (length s ≤ k)%nat) ∧
      ∃ s, s ∈ mjoin preds ∧ length s = k
  | Raise e =>
      (e = TypeError ∧ preds = []) ∨
      (e = ValueError ∧ preds ≠ [] ∧ mjoin preds = [])
  end.
Proof.
  unfold find_max_length. destruct preds as [|p ps]; [by left|].
  rewrite foldl_app_mjoin. change (p ++ mjoin ps) with (mjoin (p :: ps)).
  destruct (mjoin (p :: ps)) as [|s0 ss] eqn:Hflat; [by right|].
  split.
  - intros s Hs. apply max_list_elem_of_le. by apply list_elem_of_fmap_2.
  - assert (length <$> s0 :: ss ≠ []) as Hne by done.
    apply max_list_elem_of in Hne.
    apply list_elem_of_fmap in Hne as (s & Hlen & Hs). by exists s.
Qed.

(** X18: on records whose arrays are of 64-bit integers, [save_array_set]
    writes all or nothing: when it raises, the file is as it was, and when
    it returns, the file is an HDF5 file that had no group of that name and
    now has one holding exactly the targets, the predictions and the pad
    token 999999. *)
Theorem save_array_set_all_or_nothing preds savename (f : file_obj) :
  forallb int64_record preds = true →
  match save_array_set preds savename f with
  | (Ok _, f') =>
      ∃ groups g, f = H5File groups ∧ groups !! savename = None ∧
        f' = H5File (<[savename := g]> groups) ∧
        dom g = ({["targets"; "predictions"; "additional_pad_token"]} : gset string) ∧
        g !! "additional_pad_token" = Some (H5Int 999999)
  | (Raise _, f') => f' = f
  end.
Proof.
  intros _. unfold save_array_set, io_bind, io_lift.
  destruct (np_array2 preds.*1) as [targets|]; [|done].
  destruct (find_max_length preds.*2) as [max_len|]; [|done].
  destruct (result_map _ _) as [padded|]; [|done].
  destruct (np_array3 padded) as [stacked|]; [|done].
  destruct f as [c|groups]; [done|]. unfold create_group.
  destruct (groups !! savename) eqn:Hfresh; [done|].
  rewrite (create_dataset_ok _ _ _ _ ∅); [|apply lookup_insert_eq|apply lookup_empty].
  erewrite create_dataset_ok;
    [|apply lookup_insert_eq|by rewrite lookup_insert_ne, lookup_empty].
  erewrite create_dataset_ok;
    [|apply lookup_insert_eq|by rewrite !lookup_insert_ne, lookup_empty].
  rewrite !insert_insert_eq. eexists _, _. split; [done|]. split; [done|].
  split; [done|]. split; [|apply lookup_insert_eq].
  rewrite !dom_insert_L, dom_empty_L. set_solver.
Qed.

(** X19: [save_str_set] on an HDF5 file that has no group of that name
    yet: with the same number of predictions in every record it stores the
    targets and the predictions as given; *)
Theorem save_str_set_stores (preds : list str_record) savename groups k :
  groups !! savename = None → Forall (λ r : str_record, length r.2 = k) preds →
  save_str_set preds savename (H5File groups) =
    (Ok (), H5File (<[savename := <["predictions" := H5StringMatrix preds.*2]>
                                    (<["targets" := H5Strings preds.*1]> ∅)]> groups)).
Proof.
  intros Hfresh Hsame. unfold save_str_set.
  erewrite io_bind_step; [|by apply create_group_ok].
  erewrite io_bind_step;
    [|apply create_dataset_ok; [apply lookup_insert_eq|apply lookup_empty]].
  unfold create_dataset_of_rows.
  rewrite (np_array2_ok preds.*2 k) by (by apply Forall_fmap).
  erewrite create_dataset_ok;
    [|apply lookup_insert_eq|by rewrite lookup_insert_ne, lookup_empty].
  by rewrite !insert_insert_eq.
Qed.

(** X20: but [save_str_set] is not all or nothing: when a record has
    another number of predictions than the first record, it raises after
    the group and its targets have been written, and leaves them in the
    file.  When every record has a prediction it is a [TypeError], and the
    dataset of the predictions is left in the group as well, with one
    entry for each record and nothing written; when a record has none it
    is a [ValueError]. *)
Theorem save_str_set_partial_write savename groups t0 p0 rest t p :
  groups !! savename = None → (t, p) ∈ rest → length p ≠ length p0 →
  let preds := (t0, p0) :: rest in
  save_str_set preds savename (H5File groups) =
    if forallb (λ r : str_record, negb (Nat.eqb (length r.2) 0)) preds
    then (Raise TypeError,
          H5File (<[savename := <["predictions" := H5Unwritten (length preds)]>
                                  (<["targets" := H5Strings preds.*1]> ∅)]> groups))
    else (Raise ValueError,
          H5File (<[savename := <["targets" := H5Strings preds.*1]> ∅]> groups)).
Proof.
  intros Hfresh Hin Hlen preds. unfold save_str_set.
  erewrite io_bind_step; [|by apply create_group_ok].
  erewrite io_bind_step;
    [|apply create_dataset_ok; [apply lookup_insert_eq|apply lookup_empty]].
  rewrite insert_insert_eq. unfold create_dataset_of_rows.
  assert (np_array2 preds.*2 = Raise ValueError) as ->.
  { unfold np_array2, preds. cbn [fmap list_fmap snd shape2].
    destruct (forallb _ _) eqn:Hall; [|done].
    rewrite forallb_forall in Hall.
    assert (In p (p0 :: rest.*2)) as Hp.
    { right. apply list_elem_of_In. by apply (list_elem_of_fmap_2 snd _ (t, p)). }
    apply Hall, Nat.eqb_eq in Hp. done. }
  assert (forallb (λ r : list string, negb (Nat.eqb (length r) 0)) preds.*2
          = forallb (λ r : str_record, negb (Nat.eqb (length r.2) 0)) preds) as ->.
  { generalize preds. intros l. induction l as [|r l IH]; [done|]. cbn. by rewrite IH. }
  destruct (forallb _ preds); [|done].
  erewrite io_bind_step.
  2:{ apply create_dataset_ok;
        [apply lookup_insert_eq|by rewrite lookup_insert_ne, lookup_empty]. }
  rewrite insert_insert_eq, length_fmap. done.
Qed.

(** X21: [save_inference_predictions] takes the first training record
    before it asks whether training predictions were given: without them it
    raises a [TypeError], with an empty list an [IndexError], and in both
    cases no file is touched.  With a first training record it raises
    after it has opened the predictions file for writing: whatever that
    file held before, it is left as an empty text file, and no other file
    is touched. *)
Theorem save_inference_predictions_file savedir p fs :
  let out := save_inference_predictions savedir p fs in
  match p with
  | StrPredictions None _ _ | ArrPredictions None _ _ =>
      out = (Raise TypeError, fs)
  | StrPredictions (Some []) _ _ | ArrPredictions (Some []) _ _ =>
      out = (Raise IndexError, fs)
  | _ =>
      is_ok out.1 = false ∧
      out.2 = <[savedir +:+ "/predictions.h5" := TextIO ""]> fs
  end.
Proof.
  cbv zeta. destruct p as [[[|x train]|] val test|[[|x train]|] val test];
    try reflexivity; unfold save_inference_predictions; cbn [first_element];
    unfold io_bind, io_ret, with_open_w.
  - destruct (save_supplied_text save_str_set (x :: train) val test "") as [e ->];
      [|done]. eexists. apply save_str_set_text.
  - destruct (save_supplied_text save_array_set (x :: train) val test "") as [e ->];
      [|done]. apply save_array_set_text.
Qed.

End MoreUtils.

(** The batch of three records written to an empty HDF5 file. *)
Lemma save_array_set_all_or_nothing_witness :
  forallb int64_record toy_batch = true ∧
  match TopLevelUtils.save_array_set toy_batch "test" (TopLevelUtils.H5File ∅) with
  | (Ok _, f') =>
      ∃ groups g, TopLevelUtils.H5File ∅ = TopLevelUtils.H5File groups ∧
        groups !! "test" = None ∧
        f' = TopLevelUtils.H5File (<["test" := g]> groups) ∧
        dom g = ({["targets"; "predictions"; "additional_pad_token"]} : gset string) ∧
        g !! "additional_pad_token" = Some (TopLevelUtils.H5Int 999999)
  | (Raise _, f') => f' = TopLevelUtils.H5File ∅
  end.
Proof.
  split; [reflexivity|].
  apply (save_array_set_all_or_nothing toy_batch "test" (TopLevelUtils.H5File ∅)).
  reflexivity.
Defined.

Lemma save_str_set_stores_witness :
  ((∅ : gmap string (gmap string TopLevelUtils.h5data)) !! "train" = None ∧
   Forall (λ r : TopLevelUtils.str_record, length r.2 = 2%nat)
     [("CCO", ["CCO"; "CCN"]); ("CC", ["CC"; "C"])]) ∧
  TopLevelUtils.save_str_set [("CCO", ["CCO"; "CCN"]); ("CC", ["CC"; "C"])] "train"
    (TopLevelUtils.H5File ∅) =
  (Ok (), TopLevelUtils.H5File
     (<["train" := <["predictions" :=
                       TopLevelUtils.H5StringMatrix [["CCO"; "CCN"]; ["CC"; "C"]]]>
                     (<["targets" := TopLevelUtils.H5Strings ["CCO"; "CC"]]> ∅)]> ∅)).
Proof.
  assert ((∅ : gmap string (gmap string TopLevelUtils.h5data)) !! "train" = None ∧
          Forall (λ r : TopLevelUtils.str_record, length r.2 = 2%nat)
            [("CCO", ["CCO"; "CCN"]); ("CC", ["CC"; "C"])]) as H
    by (split; [done|repeat constructor]).
  split; [exact H|].
  apply (save_str_set_stores [("CCO", ["CCO"; "CCN"]); ("CC", ["CC"; "C"])]
           "train" ∅ 2 (proj1 H) (proj2 H)).
Defined.

Lemma save_str_set_partial_write_witness :
  ((∅ : gmap string (gmap string TopLevelUtils.h5data)) !! "train" = None ∧
   ("CC", ["CC"]) ∈ [("CC", ["CC"])] ∧
   length ["CC"] ≠ length ["CCO"; "CCN"]) ∧
  TopLevelUtils.save_str_set [("CCO", ["CCO"; "CCN"]); ("CC", ["CC"])] "train"
    (TopLevelUtils.H5File ∅) =
  (Raise TypeError, TopLevelUtils.H5File
     (<["train" := <["predictions" := TopLevelUtils.H5Unwritten 2]>
                     (<["targets" := TopLevelUtils.H5Strings ["CCO"; "CC"]]> ∅)]> ∅)).
Proof.
  assert ((∅ : gmap string (gmap string TopLevelUtils.h5data)) !! "train" = None ∧
          ("CC", ["CC"]) ∈ [("CC", ["CC"])] ∧
          length ["CC"] ≠ length ["CCO"; "CCN"]) as H
    by (split; [done|split; [apply list_elem_of_here|cbn; lia]]).
  split; [exact H|].
  apply (save_str_set_partial_write "train" ∅ "CCO" ["CCO"; "CCN"]
           [("CC", ["CC"])] "CC" ["CC"] (proj1 H) (proj1 (proj2 H)) (proj2 (proj2 H))).
Defined.

(** A record without predictions next to one with a prediction: numpy
    refuses the rows before the dataset is created. *)
Example save_str_set_empty_row :
  TopLevelUtils.save_str_set [("CCO", ["CCO"]); ("CC", [])] "train"
    (TopLevelUtils.H5File ∅) =
  (Raise ValueError, TopLevelUtils.H5File
     (<["train" := <["targets" := TopLevelUtils.H5Strings ["CCO"; "CC"]]> ∅]> ∅)).
Proof. reflexivity. Qed.

(** ** The results file *)

Section ResultsFile.
Import Postprocessing.
Context (count_num_heavy : string → result Z).

(** Two paths below the same group differ when what follows the group
    differs. *)
Ltac path_ne :=
  let Heq := fresh "Heq" in
  intros Heq; rewrite <- ?app_assoc in Heq; apply app_inv_head in Heq;
  simplify_eq/=;
  try match goal with
      | H : @pretty nat _ _ = @pretty nat _ _ |- _ => apply (inj pretty) in H
      end;
  try done; try lia.

Lemma create_group_fresh (parent : list string) (name : string) (st : h5store) :
  st !! (parent ++ [name]) = None →
  create_group parent name st = (Ok (parent ++ [name]), <[parent ++ [name] := Group]> st).
Proof. intros Hn. unfold create_group. by rewrite Hn. Qed.

Lemma create_dataset_fresh (parent : list string) (name : string)
    (d : h5value) (st : h5store) :
  storable d = true → st !! (parent ++ [name]) = None →
  create_dataset parent name d st = (Ok (), <[parent ++ [name] := Dataset d]> st).
Proof. intros Hd Hn. unfold create_dataset. by rewrite Hd, Hn. Qed.

Lemma storable_no_strings (rows : list (list string)) :
  storable (H5StrMatrix rows) = true ↔ mjoin rows = [].
Proof.
  unfold storable. induction rows as [|r rows IH]; [done|].
  cbn [forallb]. change (mjoin (r :: rows)) with (r ++ mjoin rows).
  rewrite andb_true_iff, IH, Nat.eqb_eq, length_zero_iff_nil.
  split.
  - by intros [-> ->].
  - by intros [-> ->]%app_eq_nil.
Qed.

Lemma no_strings_rectangular (rows : list (list string)) :
  mjoin rows = [] → Forall (λ r, length r = 0%nat) rows.
Proof.
  induction rows as [|r rows IH]; [done|].
  change (mjoin (r :: rows)) with (r ++ mjoin rows).
  intros [-> ?]%app_eq_nil. constructor; [done|by apply IH].
Qed.

Lemma hoare_create_group (st0 : h5store) (parent : list string) (name : string) :
  hoare (λ st, st0 ⊆ st) (create_group parent name) (λ _ st, st0 ⊆ st)
    (λ e st, st0 ⊆ st ∧ e = ValueError).
Proof.
  intros st Hst. unfold create_group.
  destruct (st !! (parent ++ [name])) eqn:Hn; [done|].
  etrans; [exact Hst|]. by apply insert_subseteq.
Qed.

Lemma hoare_create_dataset (st0 : h5store) (parent : list string) (name : string)
    (d : h5value) :
  storable d = true →
  hoare (λ st, st0 ⊆ st) (create_dataset parent name d) (λ _ st, st0 ⊆ st)
    (λ e st, st0 ⊆ st ∧ e = ValueError).
Proof.
  intros Hd st Hst. unfold create_dataset. rewrite Hd.
  destruct (st !! (parent ++ [name])) eqn:Hn; [done|].
  etrans; [exact Hst|]. by apply insert_subseteq.
Qed.

(** One valid prediction written below a group that has no entry for it
    yet. *)
Lemma save_valid_prediction_fresh (g good : list string)
    (pwl : list (list (string * float))) (i : nat) (targ : string)
    (pred : list (string * float)) (n : Z) (st : h5store) :
  good !! i = Some targ → pwl !! i = Some pred → count_num_heavy targ = Ok n →
  absent_below st (g ++ [pretty i]) →
  save_valid_prediction count_num_heavy g good pwl i () st =
    (Ok (),
     <[g ++ [pretty i; "num_heavy_atoms"] := Dataset (H5Number n)]>
       (<[g ++ [pretty i; "prediction_bce_losses"] := Dataset (H5FloatList pred.*2)]>
          (<[g ++ [pretty i; "prediction_strings"] := Dataset (H5StrList pred.*1)]>
             (<[g ++ [pretty i; "target"] := Dataset (H5Str targ)]>
                (<[g ++ [pretty i] := Group]> st))))).
Proof.
  intros Hgood Hpwl Hn Habs. unfold save_valid_prediction, py_getitem.
  rewrite Hgood, Hpwl.
  erewrite io_bind_step; [|reflexivity]. erewrite io_bind_step; [|reflexivity].
  erewrite io_bind_step.
  2:{ apply create_group_fresh. specialize (Habs []). by rewrite app_nil_r in Habs. }
  erewrite io_bind_step.
  2:{ apply create_dataset_fresh; [done|].
      rewrite lookup_insert_ne by path_ne. apply Habs. }
  erewrite io_bind_step.
  2:{ apply create_dataset_fresh; [done|].
      rewrite !lookup_insert_ne by path_ne. apply Habs. }
  erewrite io_bind_step.
  2:{ apply create_dataset_fresh; [done|].
      rewrite !lookup_insert_ne by path_ne. apply Habs. }
  unfold io_lift. erewrite io_bind_step; [|by rewrite Hn].
  rewrite create_dataset_fresh; [|done|].
  2:{ rewrite !lookup_insert_ne by path_ne. apply Habs. }
  by rewrite <- !app_assoc.
Qed.

Lemma format_SMILES_preds_outcome (f good : list string)
    (pwl : list (list (string * float))) (bt : list string)
    (bp : list (list string)) (st : h5store) :
  absent_below st (f ++ ["bad_predictions"]) →
  absent_below st (f ++ ["valid_predictions"]) →
  mjoin bp = [] →
  Forall (λ t, is_ok (count_num_heavy t) = true) good →
  match format_SMILES_preds_into_h5 count_num_heavy f good pwl bt bp st with
  | (r, st') =>
      match r with
      | Ok _ => (length good ≤ length pwl)%nat
      | Raise e => e = IndexError ∧ (length pwl < length good)%nat
      end ∧
      formatted count_num_heavy st' f good pwl bt bp ∧
      (∀ i : nat, (length pwl ≤ i)%nat →
         absent_below st' (f ++ ["valid_predictions"; pretty i])) ∧
      ∀ p, (∀ q, p ≠ f ++ "bad_predictions" :: q) →
           (∀ q, p ≠ f ++ "valid_predictions" :: q) → st' !! p = st !! p
  end.
Proof.
  intros Hbad Hvalid Hnone Hcount. unfold format_SMILES_preds_into_h5.
  erewrite io_bind_step.
  2:{ apply create_group_fresh. specialize (Hbad []). by rewrite app_nil_r in Hbad. }
  erewrite io_bind_step.
  2:{ apply create_dataset_fresh; [done|].
      rewrite lookup_insert_ne by path_ne. apply Hbad. }
  unfold io_lift. erewrite io_bind_step.
  2:{ by rewrite (np_array2_ok bp 0 (no_strings_rectangular bp Hnone)). }
  erewrite io_bind_step.
  2:{ apply create_dataset_fresh; [by apply storable_no_strings|].
      rewrite !lookup_insert_ne by path_ne. apply Hbad. }
  erewrite io_bind_step.
  2:{ apply create_group_fresh. rewrite !lookup_insert_ne by path_ne.
      specialize (Hvalid []). by rewrite app_nil_r in Hvalid. }
  set (g := f ++ ["valid_predictions"]).
  set (st5 := <[g := Group]> _).
  set (I := λ (n : nat) (_ : unit) (st' : h5store),
    (n ≤ length pwl)%nat ∧
    (∀ i targ pred, (i < n)%nat → good !! i = Some targ → pwl !! i = Some pred →
       ∃ nh, count_num_heavy targ = Ok nh ∧ valid_entry st' g i targ pred nh) ∧
    (∀ i : nat, (n ≤ i)%nat → absent_below st' (g ++ [pretty i])) ∧
    (∀ p, (∀ (i : nat) q, p ≠ g ++ pretty i :: q) → st' !! p = st5 !! p)).
  assert (hoare (I 0%nat ())
    (for_each (save_valid_prediction count_num_heavy g good pwl)
       (seq 0 (length good)) ())
    (I (length (seq 0 (length good))))
    (λ e st', e = IndexError ∧ (length pwl < length good)%nat ∧
              I (length pwl) () st')) as Hloop.
  { apply hoare_for_each. intros i x [] [-> Hi]%lookup_seq st' (Hn & Ha & Hb & Hc).
    cbn [Nat.add] in *.
    destruct (lookup_lt_is_Some_2 good i Hi) as [targ Htarg].
    destruct (decide (i < length pwl)%nat) as [Hip|Hip].
    2:{ assert (i = length pwl) as -> by lia.
        unfold save_valid_prediction, py_getitem, io_bind. rewrite Htarg. cbn.
        rewrite (lookup_ge_None_2 pwl) by lia. cbn. done. }
    destruct (lookup_lt_is_Some_2 pwl i Hip) as [pred Hpred].
    assert (∃ nh, count_num_heavy targ = Ok nh) as [nh Hnh].
    { rewrite Forall_forall in Hcount.
      specialize (Hcount targ (list_elem_of_lookup_2 _ _ _ Htarg)).
      destruct (count_num_heavy targ); [by eexists|done]. }
    rewrite (save_valid_prediction_fresh g good pwl i targ pred nh st'
               Htarg Hpred Hnh (Hb i ltac:(lia))).
    split; [lia|]. split; [|split].
    - intros j targ' pred' Hj Htarg' Hpred'.
      destruct (decide (j = i)) as [->|Hji].
      + simplify_eq. exists nh. split; [done|]. unfold valid_entry.
        rewrite !lookup_insert_eq.
        rewrite !lookup_insert_ne, !lookup_insert_eq by path_ne.
        repeat split; try done.
        all: rewrite !lookup_insert_ne by path_ne; by rewrite lookup_insert_eq.
      + destruct (Ha j targ' pred' ltac:(lia) Htarg' Hpred') as (nh' & Hnh' & Hentry).
        exists nh'. split; [done|]. unfold valid_entry in *.
        by rewrite !lookup_insert_ne by path_ne.
    - intros j Hj p. rewrite !lookup_insert_ne by path_ne. apply Hb. lia.
    - intros p Hp. rewrite !lookup_insert_ne; [by apply Hc|..];
        intros <-; by eapply Hp. }
  assert (I 0%nat () st5) as Hinit.
  { split; [lia|]. split; [|split].
    - intros i targ pred Hi. lia.
    - intros i _ p. unfold st5, g. rewrite !lookup_insert_ne by path_ne.
      rewrite <- app_assoc. apply Hvalid.
    - done. }
  specialize (Hloop st5 Hinit).
  assert (∀ n st', I n () st' → (n = length good ∨ n = length pwl) →
    formatted count_num_heavy st' f good pwl bt bp ∧
    (∀ i : nat, (n ≤ i)%nat →
       absent_below st' (f ++ ["valid_predictions"; pretty i])) ∧
    ∀ p, (∀ q, p ≠ f ++ "bad_predictions" :: q) →
         (∀ q, p ≠ f ++ "valid_predictions" :: q) → st' !! p = st !! p) as Hend.
  { intros n st' (Hn & Ha & Hb & Hc) Hcase. split; [|split].
    - unfold formatted. fold g. split; [|split; [|split; [|split]]].
      + rewrite Hc by (intros i q; unfold g; path_ne). unfold st5, g.
        rewrite !lookup_insert_ne by path_ne. apply lookup_insert_eq.
      + rewrite Hc by (intros i q; unfold g; path_ne). unfold st5, g.
        rewrite !lookup_insert_ne by path_ne. rewrite <- app_assoc.
        apply lookup_insert_eq.
      + rewrite Hc by (intros i q; unfold g; path_ne). unfold st5, g.
        rewrite !lookup_insert_ne by path_ne. rewrite <- app_assoc.
        apply lookup_insert_eq.
      + rewrite Hc; [apply lookup_insert_eq|].
        intros i q Heq. apply (f_equal length) in Heq.
        rewrite !length_app in Heq. cbn in Heq. lia.
      + intros i targ pred Htarg Hpred. apply Ha; [|done..].
        apply lookup_lt_Some in Htarg, Hpred. lia.
    - intros i Hi p. specialize (Hb i Hi p). unfold g in Hb.
      rewrite <- !app_assoc in Hb. rewrite <- app_assoc. exact Hb.
    - intros p Hp1 Hp2. rewrite Hc.
      + unfold st5, g. rewrite !lookup_insert_ne; [done|..].
        all: intros <-;
          first [by eapply (Hp1 []) | by eapply (Hp2 [])
                | eapply (Hp1 [_]); by rewrite <- app_assoc].
      + intros i q ->. eapply (Hp2 (pretty i :: q)). unfold g.
        by rewrite <- app_assoc. }
  destruct (for_each _ _ _ st5) as [[[]|e] st'].
  - rewrite length_seq in Hloop. pose proof Hloop as (Hn & _).
    destruct (Hend _ _ Hloop (or_introl eq_refl)) as (H1 & H2 & H3).
    split; [done|]. split; [done|]. split; [|done].
    intros i Hi. apply H2. lia.
  - destruct Hloop as (-> & Hlt & HI).
    destruct (Hend _ _ HI (or_intror eq_refl)) as (H1 & H2 & H3). done.
Qed.

(** X23: in a group that has neither a [bad_predictions] nor a
    [valid_predictions] entry yet, when no bad prediction holds a string,
    with a list of predictions for every good target and a heavy-atom
    count for each of them, [format_SMILES_preds_into_h5] returns; it has
    stored the bad targets and the array of the bad predictions, and for
    the good target of index [i] a group named by the decimal digits of
    [i] that holds the target, its predicted strings, their losses and its
    number of heavy atoms; every node outside the two entries is as it
    was. *)
Theorem format_SMILES_preds_stores (f good : list string)
    (pwl : list (list (string * float))) (bt : list string)
    (bp : list (list string)) (st : h5store) :
  absent_below st (f ++ ["bad_predictions"]) →
  absent_below st (f ++ ["valid_predictions"]) →
  mjoin bp = [] →
  Forall (λ t, is_ok (count_num_heavy t) = true) good →
  (length good ≤ length pwl)%nat →
  ∃ st',
    format_SMILES_preds_into_h5 count_num_heavy f good pwl bt bp st = (Ok (), st') ∧
    formatted count_num_heavy st' f good pwl bt bp ∧
    ∀ p, (∀ q, p ≠ f ++ "bad_predictions" :: q) →
         (∀ q, p ≠ f ++ "valid_predictions" :: q) → st' !! p = st !! p.
Proof.
  intros Hbad Hvalid Hnone Hcount Hlen.
  pose proof (format_SMILES_preds_outcome f good pwl bt bp st
                Hbad Hvalid Hnone Hcount) as Hout.
  destruct (format_SMILES_preds_into_h5 _ _ _ _ _ _ st) as [[[]|e] st'].
  - exists st'. by destruct Hout as (_ & ? & _ & ?).
  - destruct Hout as ((_ & ?) & _). lia.
Qed.

(** X24: with fewer lists of predictions than good targets, and no string
    among the bad predictions, [format_SMILES_preds_into_h5] raises an
    [IndexError] only after it has written the bad predictions and the
    entries of the good targets that do have predictions, which stay in the
    file; no entry is written for the other targets. *)
Theorem format_SMILES_preds_short (f good : list string)
    (pwl : list (list (string * float))) (bt : list string)
    (bp : list (list string)) (st : h5store) :
  absent_below st (f ++ ["bad_predictions"]) →
  absent_below st (f ++ ["valid_predictions"]) →
  mjoin bp = [] →
  Forall (λ t, is_ok (count_num_heavy t) = true) good →
  (length pwl < length good)%nat →
  ∃ st',
    format_SMILES_preds_into_h5 count_num_heavy f good pwl bt bp st
      = (Raise IndexError, st') ∧
    formatted count_num_heavy st' f good pwl bt bp ∧
    ∀ i : nat, (length pwl ≤ i)%nat →
      absent_below st' (f ++ ["valid_predictions"; pretty i]).
Proof.
  intros Hbad Hvalid Hnone Hcount Hlen.
  pose proof (format_SMILES_preds_outcome f good pwl bt bp st
                Hbad Hvalid Hnone Hcount) as Hout.
  destruct (format_SMILES_preds_into_h5 _ _ _ _ _ _ st) as [[[]|e] st'].
  - destruct Hout as (? & _). lia.
  - exists st'. by destruct Hout as ((-> & _) & ? & ? & _).
Qed.

(** With a string among equally long bad predictions the array of the bad
    predictions cannot be stored. *)
Lemma format_SMILES_preds_unstorable (f good : list string)
    (pwl : list (list (string * float))) (bt : list string)
    (bp : list (list string)) (st : h5store) (k : nat) :
  absent_below st (f ++ ["bad_predictions"]) →
  Forall (λ r, length r = k) bp → mjoin bp ≠ [] →
  format_SMILES_preds_into_h5 count_num_heavy f good pwl bt bp st =
    (Raise TypeError,
     <[f ++ ["bad_predictions"; "targets"] := Dataset (H5StrList bt)]>
       (<[f ++ ["bad_predictions"] := Group]> st)).
Proof.
  intros Hbad Hrect Hsome. unfold format_SMILES_preds_into_h5.
  erewrite io_bind_step.
  2:{ apply create_group_fresh. specialize (Hbad []). by rewrite app_nil_r in Hbad. }
  erewrite io_bind_step.
  2:{ apply create_dataset_fresh; [done|].
      rewrite lookup_insert_ne by path_ne. apply Hbad. }
  unfold io_lift. erewrite io_bind_step.
  2:{ by rewrite (np_array2_ok bp k). }
  unfold io_bind, create_dataset.
  destruct (storable (H5StrMatrix bp)) eqn:Hst.
  - by apply storable_no_strings in Hst.
  - by rewrite <- app_assoc.
Qed.

(** X28: a single string among the bad predictions, which are equally
    many for every bad target, makes [format_SMILES_preds_into_h5] fail: in
    a group without a [bad_predictions] entry it raises a [TypeError] when
    it has written the bad targets, and leaves the group [bad_predictions]
    with only them; no valid prediction is written. *)
Theorem format_SMILES_preds_bad_strings (f good : list string)
    (pwl : list (list (string * float))) (bt : list string)
    (bp : list (list string)) (st : h5store) (k : nat) :
  absent_below st (f ++ ["bad_predictions"]) →
  Forall (λ r, length r = k) bp → mjoin bp ≠ [] →
  format_SMILES_preds_into_h5 count_num_heavy f good pwl bt bp st =
    (Raise TypeError,
     <[f ++ ["bad_predictions"; "targets"] := Dataset (H5StrList bt)]>
       (<[f ++ ["bad_predictions"] := Group]> st)).
Proof. apply format_SMILES_preds_unstorable. Qed.

Lemma gather_concat (rs : list smiles_result) :
  gather rs =
    (mjoin ((λ r : smiles_result, r.1.1.1) <$> rs),
     mjoin ((λ r : smiles_result, r.1.1.2) <$> rs),
     mjoin ((λ r : smiles_result, r.1.2) <$> rs),
     mjoin ((λ r : smiles_result, r.2) <$> rs)).
Proof.
  unfold gather.
  assert (∀ acc : smiles_result,
    foldl (λ acc result : smiles_result,
             (acc.1.1.1 ++ result.1.1.1, acc.1.1.2 ++ result.1.1.2,
              acc.1.2 ++ result.1.2, acc.2 ++ result.2)) acc rs =
    (acc.1.1.1 ++ mjoin ((λ r : smiles_result, r.1.1.1) <$> rs),
     acc.1.1.2 ++ mjoin ((λ r : smiles_result, r.1.1.2) <$> rs),
     acc.1.2 ++ mjoin ((λ r : smiles_result, r.1.2) <$> rs),
     acc.2 ++ mjoin ((λ r : smiles_result, r.2) <$> rs))) as Hgen.
  { induction rs as [|r rs IH]; intros [[[a b] c] d]; cbn.
    - by rewrite !app_nil_r.
    - rewrite IH. cbn. by rewrite !app_assoc. }
  by rewrite Hgen.
Qed.

(** X25: [postprocess_save_SMILES_results] under a name the file has
    nothing at or below yet, when no result holds a bad prediction string:
    it gathers the parts of the results by concatenation, in order, so that
    the valid prediction of index [i] is the [i]-th good target of all
    results together, creates the group of that name and formats the
    gathered lists into it; every node outside that group is as it was. *)
Theorem postprocess_save_SMILES_stores (f : list string) (savename : string)
    (rs : list smiles_result) (st : h5store) :
  absent_below st (f ++ [savename]) →
  mjoin (mjoin ((λ r : smiles_result, r.2) <$> rs)) = [] →
  Forall (λ t, is_ok (count_num_heavy t) = true)
    (mjoin ((λ r : smiles_result, r.1.1.1) <$> rs)) →
  (length (mjoin ((λ r : smiles_result, r.1.1.1) <$> rs)) ≤
   length (mjoin ((λ r : smiles_result, r.1.1.2) <$> rs)))%nat →
  ∃ st',
    postprocess_save_SMILES_results count_num_heavy f savename rs st = (Ok (), st') ∧
    st' !! (f ++ [savename]) = Some Group ∧
    formatted count_num_heavy st' (f ++ [savename])
      (mjoin ((λ r : smiles_result, r.1.1.1) <$> rs))
      (mjoin ((λ r : smiles_result, r.1.1.2) <$> rs))
      (mjoin ((λ r : smiles_result, r.1.2) <$> rs))
      (mjoin ((λ r : smiles_result, r.2) <$> rs)) ∧
    ∀ p, (∀ q, p ≠ f ++ savename :: q) → st' !! p = st !! p.
Proof.
  intros Habs Hnone Hcount Hlen. unfold postprocess_save_SMILES_results.
  erewrite io_bind_step.
  2:{ apply create_group_fresh. specialize (Habs []). by rewrite app_nil_r in Habs. }
  rewrite gather_concat.
  set (st1 := <[f ++ [savename] := Group]> st).
  assert (∀ name, absent_below st1 ((f ++ [savename]) ++ [name])) as Hfresh.
  { intros name p. unfold st1. rewrite lookup_insert_ne by path_ne.
    rewrite <- app_assoc. apply Habs. }
  pose proof (format_SMILES_preds_outcome (f ++ [savename]) _
    (mjoin ((λ r : smiles_result, r.1.1.2) <$> rs))
    (mjoin ((λ r : smiles_result, r.1.2) <$> rs)) _ st1
    (Hfresh "bad_predictions") (Hfresh "valid_predictions") Hnone Hcount) as Hout.
  destruct (format_SMILES_preds_into_h5 _ _ _ _ _ _ st1) as [[[]|e] st'].
  2:{ destruct Hout as ((_ & ?) & _). lia. }
  destruct Hout as (_ & Hfmt & _ & Hframe).
  exists st'. split; [done|]. split; [|split; [done|]].
  - rewrite Hframe by (intros q; path_ne).
    apply lookup_insert_eq.
  - intros p Hp. rewrite Hframe.
    + unfold st1. rewrite lookup_insert_ne; [done|]. intros <-. by eapply (Hp []).
    + intros q ->. eapply (Hp ("bad_predictions" :: q)). by rewrite <- app_assoc.
    + intros q ->. eapply (Hp ("valid_predictions" :: q)). by rewrite <- app_assoc.
Qed.

(** X29: a single bad prediction string in the results, which hold
    equally many bad predictions for every bad target, makes
    [postprocess_save_SMILES_results] fail under a name the file has
    nothing at or below yet: it raises a [TypeError] and leaves the group
    of that name with the bad targets only, without any of the valid
    predictions. *)
Theorem postprocess_save_SMILES_bad_strings (f : list string) (savename : string)
    (rs : list smiles_result) (st : h5store) (k : nat) :
  absent_below st (f ++ [savename]) →
  Forall (λ r, length r = k) (mjoin ((λ r : smiles_result, r.2) <$> rs)) →
  mjoin (mjoin ((λ r : smiles_result, r.2) <$> rs)) ≠ [] →
  postprocess_save_SMILES_results count_num_heavy f savename rs st =
    (Raise TypeError,
     <[f ++ [savename; "bad_predictions"; "targets"] :=
         Dataset (H5StrList (mjoin ((λ r : smiles_result, r.1.2) <$> rs)))]>
       (<[f ++ [savename; "bad_predictions"] := Group]>
          (<[f ++ [savename] := Group]> st))).
Proof.
  intros Habs Hrect Hsome. unfold postprocess_save_SMILES_results.
  erewrite io_bind_step.
  2:{ apply create_group_fresh. specialize (Habs []). by rewrite app_nil_r in Habs. }
  rewrite gather_concat.
  rewrite (format_SMILES_preds_unstorable _ _ _ _ _ _ k); [|  |done|done].
  - by rewrite <- !app_assoc.
  - intros p. rewrite lookup_insert_ne by path_ne. rewrite <- app_assoc. apply Habs.
Qed.

(** Whatever happens, the writers only add nodes. *)
Lemma hoare_adds_conseq {A : Type} (st0 : h5store) (other : exn → Prop)
    (m : io h5store A) :
  hoare (λ st, st0 ⊆ st) m (λ _ st, st0 ⊆ st) (λ e st, st0 ⊆ st ∧ e = ValueError) →
  hoare (λ st, st0 ⊆ st) m (λ _ st, st0 ⊆ st)
    (λ e st, st0 ⊆ st ∧ (e = ValueError ∨ other e)).
Proof.
  intros Hm. eapply hoare_conseq; [exact Hm|done|done|].
  intros e st [? ->]. split; [done|by left].
Qed.

Lemma save_valid_prediction_adds (st0 : h5store) (g good : list string)
    (pwl : list (list (string * float))) (i : nat) (u : unit) :
  hoare (λ st, st0 ⊆ st) (save_valid_prediction count_num_heavy g good pwl i u)
    (λ _ st, st0 ⊆ st)
    (λ e st, st0 ⊆ st ∧
       (e = ValueError ∨ e = IndexError ∨
        ∃ t, t ∈ good ∧ count_num_heavy t = Raise e)).
Proof.
  unfold save_valid_prediction.
  eapply (hoare_bind _ _ _ (λ targ st, st0 ⊆ st ∧ targ ∈ good)).
  { intros st Hst. unfold py_getitem. destruct (good !! i) eqn:Hi; cbn.
    - split; [done|]. by eapply list_elem_of_lookup_2.
    - split; [done|]. right. by left. }
  intros targ. apply (hoare_pure (λ st, st0 ⊆ st) (targ ∈ good)). intros Hin.
  eapply (hoare_bind _ _ _ (λ _ st, st0 ⊆ st)).
  { intros st Hst. unfold py_getitem. destruct (pwl !! i); cbn; [done|].
    split; [done|]. right. by left. }
  intros pred. eapply (hoare_bind _ _ _ (λ _ st, st0 ⊆ st)).
  { apply hoare_adds_conseq, hoare_create_group. }
  intros grp. eapply (hoare_bind _ _ _ (λ _ st, st0 ⊆ st)).
  { by apply hoare_adds_conseq, hoare_create_dataset. }
  intros _. eapply (hoare_bind _ _ _ (λ _ st, st0 ⊆ st)).
  { by apply hoare_adds_conseq, hoare_create_dataset. }
  intros _. eapply (hoare_bind _ _ _ (λ _ st, st0 ⊆ st)).
  { by apply hoare_adds_conseq, hoare_create_dataset. }
  intros _. eapply (hoare_bind _ _ _ (λ _ st, st0 ⊆ st)).
  { intros st Hst. unfold io_lift. destruct (count_num_heavy targ) eqn:Hc; [done|].
    split; [done|]. right. right. by exists targ. }
  intros nh. by apply hoare_adds_conseq, hoare_create_dataset.
Qed.

Lemma format_SMILES_preds_adds (st0 : h5store) (f good : list string)
    (pwl : list (list (string * float))) (bt : list string)
    (bp : list (list string)) :
  hoare (λ st, st0 ⊆ st)
    (format_SMILES_preds_into_h5 count_num_heavy f good pwl bt bp)
    (λ _ st, st0 ⊆ st)
    (λ e st, st0 ⊆ st ∧
       (e = ValueError ∨ e = IndexError ∨ (e = TypeError ∧ mjoin bp ≠ []) ∨
        ∃ t, t ∈ good ∧ count_num_heavy t = Raise e)).
Proof.
  unfold format_SMILES_preds_into_h5.
  eapply (hoare_bind _ _ _ (λ _ st, st0 ⊆ st)).
  { apply hoare_adds_conseq, hoare_create_group. }
  intros bad_grp. eapply (hoare_bind _ _ _ (λ _ st, st0 ⊆ st)).
  { by apply hoare_adds_conseq, hoare_create_dataset. }
  intros _. eapply (hoare_bind _ _ _ (λ arr st, st0 ⊆ st ∧ arr = bp)).
  { intros st Hst. unfold io_lift, TopLevelUtils.np_array2.
    destruct (forallb _ _); [done|]. split; [done|by left]. }
  intros arr. apply (hoare_pure (λ st, st0 ⊆ st) (arr = bp)). intros ->.
  eapply (hoare_bind _ _ _ (λ _ st, st0 ⊆ st)).
  { intros st Hst. unfold create_dataset.
    destruct (storable (H5StrMatrix bp)) eqn:Hstore.
    - destruct (st !! _) eqn:Hn; [split; [done|by left]|].
      etrans; [exact Hst|]. by apply insert_subseteq.
    - split; [done|]. right. right. left. split; [done|].
      intros Hnone%storable_no_strings. congruence. }
  intros _. eapply (hoare_bind _ _ _ (λ _ st, st0 ⊆ st)).
  { apply hoare_adds_conseq, hoare_create_group. }
  intros good_grp.
  apply (hoare_for_each (λ _ _ st, st0 ⊆ st)).
  intros i x u _. eapply hoare_conseq; [apply save_valid_prediction_adds|done|done|].
  intros e st [? [?|[?|?]]]; split; auto.
Qed.

(** X26: whatever its outcome, [postprocess_save_SMILES_results] only adds
    to the file: every node that was there stays as it was; and it raises
    nothing but the [ValueError] of a name that exists or of ragged bad
    predictions, the [TypeError] of a bad prediction string, the
    [IndexError] of a good target without predictions, and what
    [count_num_heavy] raises on a good target. *)
Theorem postprocess_save_SMILES_only_adds (f : list string) (savename : string)
    (rs : list smiles_result) (st : h5store) :
  let out := postprocess_save_SMILES_results count_num_heavy f savename rs st in
  st ⊆ out.2 ∧
  match out.1 with
  | Ok _ => True
  | Raise e =>
      e = ValueError ∨ e = IndexError ∨
      (e = TypeError ∧ mjoin (mjoin ((λ r : smiles_result, r.2) <$> rs)) ≠ []) ∨
      ∃ t, t ∈ mjoin ((λ r : smiles_result, r.1.1.1) <$> rs) ∧
           count_num_heavy t = Raise e
  end.
Proof.
  cbv zeta. unfold postprocess_save_SMILES_results. rewrite gather_concat.
  assert (hoare (λ st', st ⊆ st')
    (do group <- create_group f savename;
     format_SMILES_preds_into_h5 count_num_heavy group
       (mjoin ((λ r : smiles_result, r.1.1.1) <$> rs))
       (mjoin ((λ r : smiles_result, r.1.1.2) <$> rs))
       (mjoin ((λ r : smiles_result, r.1.2) <$> rs))
       (mjoin ((λ r : smiles_result, r.2) <$> rs)))
    (λ _ st', st ⊆ st')
    (λ e st', st ⊆ st' ∧
       (e = ValueError ∨ e = IndexError ∨
        (e = TypeError ∧ mjoin (mjoin ((λ r : smiles_result, r.2) <$> rs)) ≠ []) ∨
        ∃ t, t ∈ mjoin ((λ r : smiles_result, r.1.1.1) <$> rs) ∧
             count_num_heavy t = Raise e))) as Hrun.
  { eapply (hoare_bind _ _ _ (λ _ st', st ⊆ st')).
    - apply hoare_adds_conseq, hoare_create_group.
    - intros group. apply format_SMILES_preds_adds. }
  specialize (Hrun st ltac:(done)).
  match goal with
  | |- context [io_bind ?m ?k st] => change (io_bind m k st) with
      ((do group <- create_group f savename;
        format_SMILES_preds_into_h5 count_num_heavy group
          (mjoin ((λ r : smiles_result, r.1.1.1) <$> rs))
          (mjoin ((λ r : smiles_result, r.1.1.2) <$> rs))
          (mjoin ((λ r : smiles_result, r.1.2) <$> rs))
          (mjoin ((λ r : smiles_result, r.2) <$> rs))) st)
  end.
  destruct (io_bind _ _ st) as [[[]|e] st']; cbn; [done|]. by destruct Hrun.
Qed.

End ResultsFile.

Lemma toy_store_absent_below name : absent_below toy_store ([] ++ [name]).
Proof. intros p. by apply lookup_singleton_ne. Qed.

Lemma format_SMILES_preds_stores_witness :
  (absent_below toy_store ([] ++ ["bad_predictions"]) ∧
   absent_below toy_store ([] ++ ["valid_predictions"]) ∧
   mjoin ([] : list (list string)) = [] ∧
   Forall (λ t, is_ok (toy_count_num_heavy t) = true) ["CCO"; "CC"] ∧
   (length ["CCO"; "CC"] ≤ length [[("CCO", 0.5%float)]; [("CC", 0.25%float)]])%nat) ∧
  ∃ st',
    Postprocessing.format_SMILES_preds_into_h5 toy_count_num_heavy []
      ["CCO"; "CC"] [[("CCO", 0.5%float)]; [("CC", 0.25%float)]] [] []
      toy_store = (Ok (), st') ∧
    formatted toy_count_num_heavy st' [] ["CCO"; "CC"]
      [[("CCO", 0.5%float)]; [("CC", 0.25%float)]] [] [] ∧
    ∀ p, (∀ q, p ≠ [] ++ "bad_predictions" :: q) →
         (∀ q, p ≠ [] ++ "valid_predictions" :: q) → st' !! p = toy_store !! p.
Proof.
  assert (Forall (λ t, is_ok (toy_count_num_heavy t) = true) ["CCO"; "CC"]) as H4
    by (repeat constructor).
  assert (length ["CCO"; "CC"] ≤
          length [[("CCO", 0.5%float)]; [("CC", 0.25%float)]])%nat as H5 by (cbn; lia).
  split.
  { split; [apply toy_store_absent_below|]. split; [apply toy_store_absent_below|].
    done. }
  apply (format_SMILES_preds_stores toy_count_num_heavy [] ["CCO"; "CC"]
           [[("CCO", 0.5%float)]; [("CC", 0.25%float)]] [] [] toy_store
           (toy_store_absent_below "bad_predictions")
           (toy_store_absent_below "valid_predictions") eq_refl H4 H5).
Defined.

Lemma format_SMILES_preds_short_witness :
  (absent_below toy_store ([] ++ ["bad_predictions"]) ∧
   absent_below toy_store ([] ++ ["valid_predictions"]) ∧
   mjoin ([] : list (list string)) = [] ∧
   Forall (λ t, is_ok (toy_count_num_heavy t) = true) ["CCO"; "CC"] ∧
   (length [[("CCO", 0.5%float)]] < length ["CCO"; "CC"])%nat) ∧
  ∃ st',
    Postprocessing.format_SMILES_preds_into_h5 toy_count_num_heavy []
      ["CCO"; "CC"] [[("CCO", 0.5%float)]] [] [] toy_store
      = (Raise IndexError, st') ∧
    formatted toy_count_num_heavy st' [] ["CCO"; "CC"]
      [[("CCO", 0.5%float)]] [] [] ∧
    ∀ i : nat, (length [[("CCO", 0.5%float)]] ≤ i)%nat →
      absent_below st' ([] ++ ["valid_predictions"; pretty i]).
Proof.
  assert (Forall (λ t, is_ok (toy_count_num_heavy t) = true) ["CCO"; "CC"]) as H4
    by (repeat constructor).
  assert (length [[("CCO", 0.5%float)]] < length ["CCO"; "CC"])%nat as H5
    by (cbn; lia).
  split.
  { split; [apply toy_store_absent_below|]. split; [apply toy_store_absent_below|].
    done. }
  apply (format_SMILES_preds_short toy_count_num_heavy [] ["CCO"; "CC"]
           [[("CCO", 0.5%float)]] [] [] toy_store
           (toy_store_absent_below "bad_predictions")
           (toy_store_absent_below "valid_predictions") eq_refl H4 H5).
Defined.

Lemma format_SMILES_preds_bad_strings_witness :
  (absent_below toy_store ([] ++ ["bad_predictions"]) ∧
   Forall (λ r : list string, length r = 2%nat) [["x"; "y"]] ∧
   mjoin [["x"; "y"]] ≠ []) ∧
  Postprocessing.format_SMILES_preds_into_h5 toy_count_num_heavy []
    ["CCO"; "CC"] [[("CCO", 0.5%float)]; [("CC", 0.25%float)]] ["N"] [["x"; "y"]]
    toy_store =
  (Raise TypeError,
   <[[] ++ ["bad_predictions"; "targets"] :=
       Postprocessing.Dataset (Postprocessing.H5StrList ["N"])]>
     (<[[] ++ ["bad_predictions"] := Postprocessing.Group]> toy_store)).
Proof.
  assert (Forall (λ r : list string, length r = 2%nat) [["x"; "y"]]) as H2
    by (repeat constructor).
  assert (mjoin [["x"; "y"]] ≠ []) as H3 by discriminate.
  split; [split; [apply toy_store_absent_below|done]|].
  apply (format_SMILES_preds_bad_strings toy_count_num_heavy [] ["CCO"; "CC"]
           [[("CCO", 0.5%float)]; [("CC", 0.25%float)]] ["N"] [["x"; "y"]] toy_store 2
           (toy_store_absent_below "bad_predictions") H2 H3).
Defined.

Lemma postprocess_save_SMILES_stores_witness :
  (absent_below toy_store ([] ++ ["test"]) ∧
   mjoin (mjoin ((λ r : Postprocessing.smiles_result, r.2) <$> toy_valid_results)) = [] ∧
   Forall (λ t, is_ok (toy_count_num_heavy t) = true)
     (mjoin ((λ r : Postprocessing.smiles_result, r.1.1.1) <$> toy_valid_results)) ∧
   (length (mjoin ((λ r : Postprocessing.smiles_result, r.1.1.1) <$> toy_valid_results)) ≤
    length (mjoin ((λ r : Postprocessing.smiles_result, r.1.1.2) <$> toy_valid_results)))%nat) ∧
  ∃ st',
    Postprocessing.postprocess_save_SMILES_results toy_count_num_heavy [] "test"
      toy_valid_results toy_store = (Ok (), st') ∧
    st' !! ([] ++ ["test"]) = Some Postprocessing.Group ∧
    formatted toy_count_num_heavy st' ([] ++ ["test"])
      (mjoin ((λ r : Postprocessing.smiles_result, r.1.1.1) <$> toy_valid_results))
      (mjoin ((λ r : Postprocessing.smiles_result, r.1.1.2) <$> toy_valid_results))
      (mjoin ((λ r : Postprocessing.smiles_result, r.1.2) <$> toy_valid_results))
      (mjoin ((λ r : Postprocessing.smiles_result, r.2) <$> toy_valid_results)) ∧
    ∀ p, (∀ q, p ≠ [] ++ "test" :: q) → st' !! p = toy_store !! p.
Proof.
  assert (Forall (λ t, is_ok (toy_count_num_heavy t) = true)
     (mjoin ((λ r : Postprocessing.smiles_result, r.1.1.1) <$> toy_valid_results))) as H3
    by (repeat constructor).
  assert (length (mjoin ((λ r : Postprocessing.smiles_result, r.1.1.1) <$> toy_valid_results)) ≤
    length (mjoin ((λ r : Postprocessing.smiles_result, r.1.1.2) <$> toy_valid_results)))%nat
    as H4 by (cbn; lia).
  split; [split; [apply toy_store_absent_below|done]|].
  apply (postprocess_save_SMILES_stores toy_count_num_heavy [] "test" toy_valid_results
           toy_store (toy_store_absent_below "test") eq_refl H3 H4).
Defined.

Lemma postprocess_save_SMILES_bad_strings_witness :
  (absent_below toy_store ([] ++ ["test"]) ∧
   Forall (λ r : list string, length r = 2%nat)
     (mjoin ((λ r : Postprocessing.smiles_result, r.2) <$> toy_results)) ∧
   mjoin (mjoin ((λ r : Postprocessing.smiles_result, r.2) <$> toy_results)) ≠ []) ∧
  Postprocessing.postprocess_save_SMILES_results toy_count_num_heavy [] "test"
    toy_results toy_store =
  (Raise TypeError,
   <[[] ++ ["test"; "bad_predictions"; "targets"] :=
       Postprocessing.Dataset (Postprocessing.H5StrList
         (mjoin ((λ r : Postprocessing.smiles_result, r.1.2) <$> toy_results)))]>
     (<[[] ++ ["test"; "bad_predictions"] := Postprocessing.Group]>
        (<[[] ++ ["test"] := Postprocessing.Group]> toy_store))).
Proof.
  assert (Forall (λ r : list string, length r = 2%nat)
     (mjoin ((λ r : Postprocessing.smiles_result, r.2) <$> toy_results))) as H2
    by (repeat constructor).
  assert (mjoin (mjoin ((λ r : Postprocessing.smiles_result, r.2) <$> toy_results)) ≠ [])
    as H3 by discriminate.
  split; [split; [apply toy_store_absent_below|done]|].
  apply (postprocess_save_SMILES_bad_strings toy_count_num_heavy [] "test" toy_results
           toy_store 2 (toy_store_absent_below "test") H2 H3).
Defined.

(** The file of the results without bad predictions: the group [test] with
    the empty bad predictions and one group for each of the two good
    targets. *)
Example toy_valid_results_file :
  (Postprocessing.postprocess_save_SMILES_results toy_count_num_heavy [] "test"
     toy_valid_results toy_store).1 = Ok () ∧
  ((Postprocessing.postprocess_save_SMILES_results toy_count_num_heavy [] "test"
      toy_valid_results toy_store).2 !! ["test"; "valid_predictions"; "1"; "target"])
    = Some (Postprocessing.Dataset (Postprocessing.H5Str "CC")) ∧
  size (Postprocessing.postprocess_save_SMILES_results toy_count_num_heavy [] "test"
          toy_valid_results toy_store).2 = 16%nat.
Proof. split; [|split]; vm_compute; reflexivity. Qed.

(** The file of the results with the bad predictions [x] and [y]: the
    group [test] with the bad target only. *)
Example toy_results_file :
  (Postprocessing.postprocess_save_SMILES_results toy_count_num_heavy [] "test"
     toy_results toy_store).1 = Raise TypeError ∧
  ((Postprocessing.postprocess_save_SMILES_results toy_count_num_heavy [] "test"
      toy_results toy_store).2 !! ["test"; "valid_predictions"]) = None ∧
  size (Postprocessing.postprocess_save_SMILES_results toy_count_num_heavy [] "test"
          toy_results toy_store).2 = 4%nat.
Proof. split; [|split]; vm_compute; reflexivity. Qed.
